(* ===== verification/_CoqProject ===== *)
-Q . S2P
Prelude.v
Translations.v
Frame.v
Csv.v
Dummies.v
Reindex.v
Contract.v
Predictor.v
App.v
Session.v
Trainer.v
Float.v
Pipeline.v
Batch.v
Download.v
Script.v
Server.v
