(* ===== verification/Prelude.v ===== *)
(** * Employee-Salary-Predictions: a verification development

    The repository is a Streamlit demo ([src/main.py]) that encodes a
    person's attributes, feeds them to a pre-trained scikit-learn
    classifier and shows the predicted income bracket, together with a
    training script ([src/model_training.py]) that fits five classifiers
    and keeps the best one.  The two programs share only the serialized
    model ([best_model.pkl], written by the trainer) and a column list
    ([model_columns.pkl], loaded by the app and written by no script of
    the repository).

    ** Parts of the program and the files that model them

    - [Prelude] (this file): the [result] type for Python exceptions
      ([KeyError], [ValueError], [TypeError], [IndexError],
      [FileNotFoundError]) with stdpp's
      monadic notation, insertion-ordered dictionaries as association
      lists ([dict_get], [dict_set], [dict_index] for [d[k]]),
      sorted-unique lists ([sort_uniq], [index_of]) shared by pandas'
      category levels and scikit-learn's [LabelEncoder], the tactics and
      the [salary] hint databases.
    - [Translations]: [get_translations] (main.py lines 12-54), its
      fallback to English, the language selector of line 97.
    - [Frame]: the slice of pandas the program relies on: cells (an
      integer, a string or NaN), columns, frames with a row count,
      [pd.DataFrame([record])] (line 141) and column assignment
      [df[c] = v] (lines 150 and 181).
    - [Csv]: [DataFrame.to_csv(index=False)] (lines 153 and 197) as
      pandas writes through [csv.writer] (minimal quoting, doubled
      quotes, NaN as an empty field, the [.0] of an integer in a float64
      column), and [pd.read_csv] (line 177) as pandas' C tokenizer, one
      step per character over its parser states ([tok_step]: blank
      lines skipped, short lines padded, a long line or an unclosed
      quote raising), then the header ([Unnamed: i]) and the dtype
      inference of each column ([infer_column]: NA strings, int64 or
      uint64, integral floats, strings).  [read_csv] answers [None]
      outside the model (see below).  The class [CsvParser] is
      [pd.read_csv] as the page and the trainer call it: a total parser
      from text to a frame or an exception, whose law is that it agrees
      with [read_csv] wherever [read_csv] answers; the clients' theorems
      are proved against the class, and [read_csv_parser] is an
      executable instance used by the examples.
    - [Dummies]: [pd.get_dummies] as called on lines 142 and 178.
    - [Reindex]: [reindex(columns=model_columns, fill_value=0)] (lines 143
      and 179) and the composition [align] both paths perform.
    - [Contract]: the alignment as the specification describes it, a
      relation [spec_column] on columns, independent of pandas.
    - [Predictor]: the fitted classifier as a typeclass (its feature
      names, whether it accepts NaN, its decision on one row) and
      [predict] with scikit-learn's input validation in its order.
    - [App]: the form widgets (lines 125-130), the manual handler
      [manual_predict] (lines 132-156) and the bulk handler
      [bulk_predict] (lines 176-185).
    - [Session]: the page as a state machine: the widget state kept
      across Streamlit reruns, [apply_event] per interaction (a pick in
      the language selector re-creates, at their defaults, the form
      widgets whose translated label changes: [switch_lang]; removing
      the file is an event), the inductive [reachable] (the uploaded
      file is kept as its text), and
      [rerun], one run of the script body, which parses the upload
      with [parse_csv] on every run (line 177)
      (lines 96-198) in a small page monad: the elements rendered before
      an exception stay on screen, so a run yields the elements shown and
      its outcome.  [chart] models a plotly chart by the columns it
      requires.
    - [Trainer]: [src/model_training.py]: [filter_age] (line 15),
      [drop_column] (16, 23), the shared [LabelEncoder] refitted per column
      ([fit_transform], [encode_columns], lines 19-21), [prepare],
      [train_test_split] (26), [accuracy_score] (41), the training loop
      [train_all] that fits the estimators the [models] dict holds
      (36-43) and [py_max_key] for [max(results, key=results.get)] (45).
    - [Float]: [accuracy_score]'s value as a numpy float64, the
      correctly rounded binary64 quotient of the match count by the
      sample count (line 41), and Python's [.4f] formatting of it
      (line 43): the text of the accuracy lines [Script] prints.
    - [Pipeline]: the two programs together, with the trainer's feature
      columns as the app's [model_columns].
    - [Batch]: the bulk path against the single-row path on the same
      rows ([row_frame] is [df.iloc[[i]]]; [forms_upload] is the frame of
      a CSV whose rows are form dicts).
    - [Download]: the two CSV files the page offers, read back, and the
      page run on the CSV text of form rows.
    - [Script]: [model_training.py] as the program Python runs, an
      interaction tree (ITree) over its effects: [pd.read_csv] (line 12,
      [adult.csv] held as text and parsed with [parse_csv]),
      the per-model [print] inside the loop ([train_loop], lines 38-43),
      [joblib.dump] (47) and the final [print] (48).  [handle] answers
      them from a working directory and records the printed lines and
      the files written ([interp_state]); an exception ends the run.
    - [Server]: [streamlit run main.py] as an interaction tree that never
      returns: each run of the module loads [best_model.pkl] and
      [model_columns.pkl] (lines 8-9, no caching) and renders [rerun];
      [ITree.iter] loops over the browser's interactions.  [safe] is a
      coinductive (Paco) predicate on the infinite run, relative to the
      answers the environment gives to the loads ([fs_answer] answers
      them from the files of a directory).

    ** What the theorems show

    - Alignment ([Reindex]): a successful [align] has exactly the schema's
      columns in order; a numeric column is copied, a categorical value
      becomes a 1 under [<field>_<value>], a column the input lacks is
      zero-filled, an unseen category (NaN included) becomes zeros;
      [align] raises exactly on an empty frame or on repeated labels
      that differ from the schema, which an upload holding a column
      named like a dummy triggers.
    - Handlers ([App]): the manual path never raises for any form and
      schema and returns the classifier's label for the specified
      vector; a bulk upload gets one label per row in a new column; a NaN
      in a numeric column, or an upload without rows, raises at
      [predict].
    - [Contract]: [align] refines the relational specification
      [spec_column] of the specification's alignment.
    - Session ([Session]): the reachable widget states are exactly the
      valid ones (rule induction on [reachable] one way, an explicit
      event sequence the other), picking another language resets the
      form widgets to their defaults (their labels change), a
      rerun without an upload never raises, an upload that
      [pd.read_csv] rejects ends the run at line 177 with the page
      otherwise unchanged, and an upload without an [age] column raises
      at the age histogram before its download.
    - Trainer ([Trainer]): the saved model is the dict's entry for the
      first name, in dict order, with the best held-out accuracy, of
      that name's class and fitted in place on the training split (the
      aliasing of the [models] dict); a text entry in the age column
      raises [TypeError] at line 15; a data set with at most one row in
      the age range raises the [ValueError] of [train_test_split].
      Lemmas: the label encoder's round trip and order, the features
      exclude [education] and the label [income], the split is a
      partition of the row indices with [ceil(n/5)] test rows, accuracy
      is in [0,1], [max] returns the first maximum.
    - [Float]: below 2^38 test rows the printed
      text is the exact accuracy rounded to four decimals, except at an
      exact tie, where the binary error decides ([3/20000] prints
      [0.0001]); the lemmas behind it bound the rounding of a positive
      quotient by half a unit in its last place.
    - [Pipeline]: with the trainer's column list as schema, every valid
      form reaches the classifier as its age and zeros; end to end, the
      model [train_and_select] saves (with scikit-learn's [fit] recording
      the training columns, a hypothesis of [Section Deployed]) answers
      every form from its age alone.
    - [Batch]: aligning a row alone equals that row of the aligned
      upload when every categorical column holds a string there (the
      rows whose dtypes [df.iloc[[i]]] keeps); an upload of forms never
      raises in the handler and gets, row by row, the manual tab's
      labels.
    - [Script]: the trainer's run returns on every input and refines
      [train_and_select] ([trainer_spec]): it succeeds exactly
      when [train_and_select] does, prints the accuracies in the dict's
      order, formatted as [{acc:.4f}] on the float64 accuracy ([Float]),
      and writes
      only [best_model.pkl], holding the selected fitted estimator; an
      [adult.csv] the parser rejects ends the run at line 12 with the
      parser's exception, nothing printed or written (a case of
      [trainer_spec]).
    - [Server]: progress (every interaction is answered by a reload of
      [best_model.pkl] and one rendered page before the next is read,
      by induction on the finite part between two interactions); the
      invariant that every page is a load error or a run on a widget
      state within the widgets' bounds (by coinduction, with an
      up-to-bind rule
      [safe_bind]); in a directory without [model_columns.pkl] every page
      shows only a [FileNotFoundError]; and composed with [Script]: after
      a successful training run, the app shows nothing but the
      [FileNotFoundError] of [model_columns.pkl].
    - [Csv]: [read_csv] after [to_csv] is the identity on frames of
      plain strings and int64 integers (within 2^53 in a column with a
      NaN), and the tokenizer splits the written text into exactly the
      written fields (induction on the lines, then on the characters of
      a field); a line longer than the lines before it, from the third
      line on, raises the tokenizer's error with the line number; empty
      lines before any row and at the end are skipped; a
      text of blanks and line ends raises [No columns to parse from
      file] (an invariant of the tokenizer's states on such a text); an
      unclosed quote raises at the end of the file; a shorter line is
      padded with empty fields, not rejected.
    - [Download]: for valid forms and a classifier whose labels are
      plain strings, [single_prediction.csv] and [predicted_results.csv]
      read back as the frames the page computed, and the CSV of valid
      forms reads back as [forms_upload]; uploading the downloaded
      results again gives the same table (the [Prediction] column is
      encoded into dummies the schema drops, then overwritten with the
      same labels); the page run on an uploaded CSV of valid forms
      never raises and shows, row by row, the manual tab's labels.
    - [Translations]: no lookup the page performs raises, and an unknown
      language code gets the English tables (lemmas).

    ** Bounds and parameters

    No definition needs fuel: every recursion is structural on a list,
    and the server's loop, which never ends, is [ITree.iter], whose
    infinite behaviour is reasoned about by coinduction.
    Integers are unbounded [Z]: pandas' int64 cells and the form's
    values (at most 100) stay far from the bound, and accuracy is an
    exact rational [Q] until it is printed: [Float] rounds it to a
    float64 (53-bit mantissa, exponents from -1074, infinity from
    2^1024) and prints that double's exact value with four decimals; the
    equivalence with rounding the exact accuracy holds below 2^38 test
    rows, where [20000 * n < 2^53].  Where the bound matters in
    [read_csv], it is
    written out: a column of integers is int64 within [-2^63, 2^63-1]
    (uint64 up to 2^64-1), and a column with a NaN is float64, whose
    integers are exact up to 2^53 ([float_exact]); beyond that the
    reader answers [None].  Three things are parameters: the estimator's
    decision function (the [Predictor] class), its fitting algorithm
    ([fit] of [Trainer]) and the row permutation that [random_state=42]
    draws in [train_test_split] (any permutation of the rows).

    ** Not modelled

    Page layout, CSS and the drawing of the charts ([st.markdown],
    [plotly]; the columns a chart requires are modelled); the parts of
    [read_csv] where pandas leaves the frame model (a float column with
    a fractional value, a boolean column, repeated header names, data
    rows longer than the header, which pandas turns into an index:
    [read_csv] answers [None], and [CsvParser] leaves [pd.read_csv]
    open there); the pickle format of [joblib]
    (a load of a present file returns some object; a missing file
    raises), floating-point columns (the program's numbers are
    integers), and the learning algorithms of scikit-learn.  A frame
    does not store its dtypes: they are read off its cells, which is
    what pandas infers for the frames the program builds, but not for a
    slice such as [df.iloc[[i]]], which keeps its parent's dtypes (the
    batch/row theorems of [Batch] are stated where the two agree).
    Every event of [Server] triggers a rerun; the browser sends an
    event only when a widget's value changes, and the model's events
    that change nothing rerun onto the same state. *)

From stdpp Require Export base list sets strings pretty numbers sorting.
From Stdlib Require Export ZArith.

Declare Scope salary_scope.
Delimit Scope salary_scope with sal.
Open Scope string_scope.
Open Scope list_scope.

(** ** Python exceptions as values *)

Inductive py_error :=
| KeyError (key : string)
| ValueError (msg : string)
| TypeError (msg : string)
| IndexError (msg : string)
| FileNotFoundError (path : string).

Inductive result (A : Type) :=
| Ok (a : A)
| Err (e : py_error).
Arguments Ok {A} a.
Arguments Err {A} e.

#[export] Instance result_ret : MRet result := fun _ a => Ok a.
#[export] Instance result_bind : MBind result :=
  fun _ _ f r => match r with Ok a => f a | Err e => Err e end.

Definition is_ok {A} (r : result A) : bool :=
  match r with Ok _ => true | Err _ => false end.

(** ** Insertion-ordered dictionaries (Python [dict]) *)

Section Dict.
Context {V : Type}.

(** [d[k]] *)
Fixpoint dict_get (k : string) (d : list (string * V)) : option V :=
  match d with
  | [] => None
  | (k', v) :: d' => if decide (k = k') then Some v else dict_get k d'
  end.

(** [d[k] = v]: an existing key keeps its position, a new key is
    appended at the end. *)
Fixpoint dict_set (k : string) (v : V) (d : list (string * V)) : list (string * V) :=
  match d with
  | [] => [(k, v)]
  | (k', v') :: d' =>
      if decide (k = k') then (k', v) :: d' else (k', v') :: dict_set k v d'
  end.

(** [d[k]] raising [KeyError] on a missing key. *)
Definition dict_index (d : list (string * V)) (k : string) : result V :=
  match dict_get k d with Some v => Ok v | None => Err (KeyError k) end.
End Dict.

(** ** Sorted lists without duplicates ([sorted(set(xs))]) *)

Section SortUniq.
Context {A : Type} `{EqDecision A} (R : relation A) `{RelDecision A A R}.

Fixpoint insert_uniq (x : A) (l : list A) : list A :=
  match l with
  | [] => [x]
  | y :: l' =>
      if decide (x = y) then l
      else if decide (R x y) then x :: l else y :: insert_uniq x l'
  end.

Definition sort_uniq (l : list A) : list A := foldr insert_uniq [] l.

(** Position of [x] in [l]; [length l] when absent. *)
Fixpoint index_of (x : A) (l : list A) : nat :=
  match l with
  | [] => 0
  | y :: l' => if decide (x = y) then 0 else S (index_of x l')
  end.
End SortUniq.

(** ** Tactics and the [salary] hint database *)

Create HintDb salary discriminated.
Create Rewrite HintDb salary.

Ltac inv_clear H := inversion H; subst; clear H.

(** Split a successful chain of binds into its steps. *)
Ltac result_inv :=
  repeat match goal with
  | H : (match ?r with Ok _ => _ | Err _ => _ end) = Ok _ |- _ =>
      destruct r eqn:?; [|discriminate H]
  | H : Ok _ = Ok _ |- _ => injection H as H
  | H : Err _ = Ok _ |- _ => discriminate H
  end.

(** Close a decidable proposition on concrete data by evaluation. *)
Ltac decide_prop := apply (bool_decide_unpack _); vm_compute; exact I.

(** ** Lemmas on [result] *)

Lemma bind_Ok {A B} (r : result A) (f : A -> result B) b :
  (r ≫= f) = Ok b <-> exists a, r = Ok a /\ f a = Ok b.
Proof.
  split.
  - destruct r as [a|e]; simpl; [eauto|discriminate].
  - intros (a & -> & Hf). exact Hf.
Qed.

Lemma bind_Err {A B} (e : py_error) (f : A -> result B) :
  (Err e ≫= f) = Err e.
Proof. reflexivity. Qed.

Lemma bind_Ok_l {A B} (a : A) (f : A -> result B) : (Ok a ≫= f) = f a.
Proof. reflexivity. Qed.

#[export] Hint Rewrite @bind_Err @bind_Ok_l : salary.

Lemma mapM_Ok {A B} (f : A -> result B) (l : list A) (l' : list B) :
  mapM f l = Ok l' <-> Forall2 (fun x y => f x = Ok y) l l'.
Proof.
  revert l'. induction l as [|x l IH]; intros l'; simpl.
  - split; [intros [= <-]; constructor|intros Hl; inv_clear Hl; reflexivity].
  - split.
    + destruct (f x) as [y|e] eqn:Hx; [|discriminate]. simpl.
      destruct (mapM f l) as [k|e] eqn:Hk; [|discriminate]. intros [= <-].
      constructor; [done|]. by apply IH.
    + intros Hl. inversion Hl as [|? y ? k Hx Hk]; subst.
      rewrite Hx. simpl. by rewrite (proj2 (IH _) Hk).
Qed.

Lemma mapM_Ok_elem {A B} (f : A -> result B) l l' x :
  mapM f l = Ok l' -> x ∈ l -> exists y, f x = Ok y.
Proof.
  intros Hm Hx. apply mapM_Ok in Hm. apply list_elem_of_lookup in Hx as [i Hi].
  destruct (Forall2_lookup_l _ _ _ _ _ Hm Hi) as (y & _ & Hy). by exists y.
Qed.

Lemma mapM_Ok_all {A B} (f : A -> result B) l :
  (forall x, x ∈ l -> exists y, f x = Ok y) -> exists l', mapM f l = Ok l'.
Proof.
  induction l as [|x l IH]; intros Hall; simpl; [by eexists|].
  destruct (Hall x) as [y ->]; [by left|]. simpl.
  destruct IH as [l' ->]; [intros z Hz; apply Hall; by right|]. by eexists.
Qed.

(** A map whose only exception is [e] raises [e] as soon as one
    element raises. *)
Lemma mapM_Err_uniform {A B} (f : A -> result B) l x e :
  (forall y e', f y = Err e' -> e' = e) -> x ∈ l -> (exists e', f x = Err e') ->
  mapM f l = Err e.
Proof.
  intros Hu Hx [e' Hfx]. induction l as [|a l IH]; [set_solver|]. simpl.
  destruct (f a) as [b|ea] eqn:Ha; simpl.
  - apply elem_of_cons in Hx as [->|Hx]; [congruence|]. by rewrite IH.
  - by rewrite (Hu _ _ Ha).
Qed.

Lemma mapM_Ok_length {A B} (f : A -> result B) l l' :
  mapM f l = Ok l' -> length l' = length l.
Proof. intros Hm. apply mapM_Ok in Hm. symmetry. by eapply Forall2_length. Qed.

(** ** Lemmas on lists *)

Lemma fmap_list_bind {A B C} (g : B -> C) (f : A -> list B) (l : list A) :
  g <$> (l ≫= f) = l ≫= (fun x => g <$> f x).
Proof. induction l as [|x l IH]; [done|]. by rewrite !bind_cons, fmap_app, IH. Qed.

Lemma list_bind_ext_in {A B} (f g : A -> list B) (l : list A) :
  (forall x, x ∈ l -> f x = g x) -> l ≫= f = l ≫= g.
Proof.
  induction l as [|x l IH]; intros Hfg; [done|]. rewrite !bind_cons.
  f_equal; [apply Hfg; by left|]. apply IH. intros y Hy. apply Hfg. by right.
Qed.

Lemma sublist_fmap {A B} (f : A -> B) (l1 l2 : list A) :
  l1 `sublist_of` l2 -> f <$> l1 `sublist_of` f <$> l2.
Proof. induction 1; simpl; by constructor. Qed.

Lemma NoDup_fmap_inj_in {A B} (f : A -> B) (l : list A) x y :
  NoDup (f <$> l) -> x ∈ l -> y ∈ l -> f x = f y -> x = y.
Proof.
  induction l as [|z l IH]; [set_solver|]. rewrite fmap_cons, NoDup_cons, !elem_of_cons.
  intros [Hz Hnd] Hx Hy Hf. destruct Hx as [->|Hx], Hy as [->|Hy]; try done.
  - exfalso. apply Hz. rewrite Hf. by apply list_elem_of_fmap_2.
  - exfalso. apply Hz. rewrite <-Hf. by apply list_elem_of_fmap_2.
  - by apply IH.
Qed.

Section FilterLemmas.
Context {A : Type} (P : A -> Prop) `{!forall x, Decision (P x)}.

Lemma filter_fmap_comm {B} (f : B -> A) (l : list B) :
  filter P (f <$> l) = f <$> filter (fun x => P (f x)) l.
Proof.
  induction l as [|x l IH]; [done|]. rewrite fmap_cons, !filter_cons.
  case_decide; by rewrite ?fmap_cons, IH.
Qed.

Lemma filter_ext_in (Q : A -> Prop) `{!forall x, Decision (Q x)} (l : list A) :
  (forall x, x ∈ l -> P x <-> Q x) -> filter P l = filter Q l.
Proof.
  induction l as [|x l IH]; intros HPQ; [done|]. rewrite !filter_cons.
  rewrite IH by (intros y Hy; apply HPQ; by right).
  destruct (decide (P x)) as [Hp|Hp], (decide (Q x)) as [Hq|Hq]; try done;
    exfalso; [apply Hq|apply Hp]; apply HPQ; by left || done.
Qed.

Lemma filter_bind {B} (f : B -> list A) (l : list B) :
  filter P (l ≫= f) = l ≫= (fun x => filter P (f x)).
Proof. induction l as [|x l IH]; [done|]. by rewrite !bind_cons, filter_app, IH. Qed.
End FilterLemmas.

Lemma filter_eq_notin {A} `{EqDecision A} (l : list A) x :
  x ∉ l -> filter (fun y => y = x) l = [].
Proof.
  induction l as [|y l IH]; [done|]. rewrite elem_of_cons. intros Hx.
  rewrite filter_cons, decide_False by naive_solver. naive_solver.
Qed.

(** In a list without duplicates an element occurs once. *)
Lemma filter_eq_NoDup {A} `{EqDecision A} (l : list A) x :
  NoDup l -> x ∈ l -> filter (fun y => y = x) l = [x].
Proof.
  induction l as [|y l IH]; [set_solver|]. rewrite NoDup_cons, elem_of_cons.
  intros [Hy Hnd] Hx. rewrite filter_cons. case_decide as Heq.
  - subst. by rewrite filter_eq_notin.
  - destruct Hx as [->|Hx]; [done|]. by apply IH.
Qed.

(** ** Lemmas on dictionaries *)

Section DictLemmas.
Context {V : Type}.
Implicit Types (d : list (string * V)) (k : string) (v : V).

Lemma dict_get_set_eq d k v : dict_get k (dict_set k v d) = Some v.
Proof.
  induction d as [|[k' v'] d IH]; simpl; [by rewrite decide_True|].
  case_decide; simpl; [by rewrite decide_True|]. by rewrite decide_False.
Qed.

Lemma dict_get_set_ne d k k' v :
  k <> k' -> dict_get k' (dict_set k v d) = dict_get k' d.
Proof.
  intros Hne. induction d as [|[k0 v0] d IH]; simpl.
  - by rewrite decide_False.
  - destruct (decide (k = k0)) as [<-|]; simpl; [|by rewrite IH].
    by rewrite !decide_False by congruence.
Qed.

Lemma dict_set_new d k v : k ∉ fst <$> d -> dict_set k v d = d ++ [(k, v)].
Proof.
  induction d as [|[k0 v0] d IH]; simpl; [done|]. rewrite elem_of_cons.
  intros Hk. rewrite decide_False by naive_solver. f_equal. naive_solver.
Qed.

(** Storing pairs with distinct fresh keys appends them. *)
Lemma foldl_dict_set_fresh d (kvs : list (string * V)) :
  NoDup kvs.*1 -> (forall k, k ∈ kvs.*1 -> k ∉ d.*1) ->
  foldl (fun r o => dict_set o.1 o.2 r) d kvs = d ++ kvs.
Proof.
  revert d. induction kvs as [|[k v] kvs IH]; intros d Hnd Hfresh; simpl; [by rewrite app_nil_r|].
  apply NoDup_cons in Hnd as [Hk Hnd]. rewrite dict_set_new by (apply Hfresh; by left).
  rewrite IH; [by rewrite <-app_assoc|done|].
  intros k' Hk'. rewrite fmap_app, elem_of_app. intros [Hd|Hs].
  - by apply (Hfresh k'); [right|].
  - simpl in Hs. apply list_elem_of_singleton in Hs. subst. contradiction.
Qed.

Lemma dict_set_keys d k v :
  (fst <$> dict_set k v d) =
  if decide (k ∈ fst <$> d) then fst <$> d else (fst <$> d) ++ [k].
Proof.
  induction d as [|[k0 v0] d IH]; cbn [dict_set]; [done|].
  rewrite !fmap_cons. destruct (decide (k = k0)) as [<-|Hne].
  - by rewrite decide_True by set_solver.
  - rewrite fmap_cons, IH. simpl.
    do 2 case_decide; [done|set_solver|set_solver|done].
Qed.

Lemma dict_get_Some_elem d k v : dict_get k d = Some v -> k ∈ fst <$> d.
Proof.
  induction d as [|[k0 v0] d IH]; simpl; [done|].
  case_decide; subst; set_solver.
Qed.

Lemma dict_get_Some_in d k v : dict_get k d = Some v -> (k, v) ∈ d.
Proof.
  induction d as [|[k0 v0] d IH]; simpl; [done|].
  case_decide; [intros [= <-]; subst; left|intros; right; auto].
Qed.

Lemma dict_get_None d k : k ∉ fst <$> d -> dict_get k d = None.
Proof.
  induction d as [|[k0 v0] d IH]; simpl; [done|].
  rewrite elem_of_cons. intros Hk. rewrite decide_False; naive_solver.
Qed.
Lemma dict_get_NoDup_elem d k v :
  NoDup (fst <$> d) -> (k, v) ∈ d -> dict_get k d = Some v.
Proof.
  induction d as [|[k0 v0] d IH]; simpl; [set_solver|].
  rewrite NoDup_cons, elem_of_cons. intros [Hk0 Hnd] [Heq|Hin].
  - injection Heq as -> ->. by rewrite decide_True.
  - rewrite decide_False; [by apply IH|]. intros ->. apply Hk0.
    apply list_elem_of_fmap. by exists (k0, v).
Qed.

Lemma dict_get_elem_is_Some d k : k ∈ fst <$> d -> is_Some (dict_get k d).
Proof.
  induction d as [|[k0 v0] d IH]; simpl; [set_solver|].
  rewrite elem_of_cons. case_decide; [by eexists|]. naive_solver.
Qed.

(** A dictionary built from its keys: the first entry for [k] wins. *)
Lemma dict_get_fmap_key (f : string -> V) l k :
  k ∈ l -> dict_get k ((fun t => (t, f t)) <$> l) = Some (f k).
Proof.
  induction l as [|k0 l IH]; simpl; [set_solver|].
  rewrite elem_of_cons. case_decide; subst; naive_solver.
Qed.
Lemma dict_get_fmap_val {W} (g : V -> W) d k :
  dict_get k ((fun c => (c.1, g c.2)) <$> d) = g <$> dict_get k d.
Proof. induction d as [|[k0 v0] d IH]; simpl; [done|]. by case_decide. Qed.

(** Assigning a key the value it was just assigned changes nothing. *)
Lemma dict_set_idem d k v : dict_set k v (dict_set k v d) = dict_set k v d.
Proof.
  induction d as [|[k' v'] d IH]; cbn [dict_set]; [by rewrite decide_True|].
  case_decide; cbn [dict_set]; [by rewrite decide_True|]. rewrite decide_False by done. by rewrite IH.
Qed.

Lemma dict_get_app d1 d2 k :
  dict_get k (d1 ++ d2) = match dict_get k d1 with Some v => Some v | None => dict_get k d2 end.
Proof. induction d1 as [|[k0 v0] d1 IH]; simpl; [done|]. by case_decide. Qed.

(** Keeping the entries whose value satisfies [P] and mapping the values:
    with distinct keys, a key is found when its entry was kept. *)
Lemma dict_get_filter_fmap {W} (P : V -> Prop) `{!forall v, Decision (P v)} (g : V -> W) d k :
  NoDup (fst <$> d) ->
  dict_get k ((fun c => (c.1, g c.2)) <$> filter (fun c => P c.2) d) =
  match dict_get k d with Some v => if decide (P v) then Some (g v) else None | None => None end.
Proof.
  induction d as [|[k0 v0] d IH]; [done|]. rewrite fmap_cons, NoDup_cons. intros [Hk0 Hnd].
  simpl in Hk0. rewrite filter_cons. cbn [dict_get].
  destruct (decide (k = k0)) as [->|Hne]; case_decide as Hp;
    rewrite ?fmap_cons; cbn [dict_get fst snd];
    rewrite ?decide_True, ?decide_False by done; try done.
  - rewrite IH by done. by rewrite dict_get_None.
  - by apply IH.
  - by apply IH.
Qed.

(** A relation stated through lookups of a dictionary's own keys is a
    relation on its entries. *)
Lemma Forall2_dict_get_keys {B} (P : V -> B -> Prop) d (bs : list B) :
  NoDup (fst <$> d) ->
  Forall2 (fun k b => exists v, dict_get k d = Some v /\ P v b) (fst <$> d) bs ->
  Forall2 (fun kv b => P kv.2 b) d bs.
Proof.
  induction d as [|[k v] d IH] in bs |- *; intros Hnd Hall; [by inversion Hall|].
  rewrite fmap_cons, NoDup_cons in Hnd. destruct Hnd as [Hk Hnd].
  inversion Hall as [|? b ? bs' (v' & Hv & Hp) Hrest]; subst. constructor.
  - simpl in Hv. rewrite decide_True in Hv by done. by injection Hv as <-.
  - apply IH; [done|]. eapply Forall2_impl.
    + apply Forall2_same_length_lookup_2; [by apply Forall2_length in Hrest|].
      intros i k' b' Hi Hb. exact (conj (list_elem_of_lookup_2 _ _ _ Hi)
        (Forall2_lookup_lr _ _ _ _ _ _ Hrest Hi Hb)).
    + intros k' b' [Hin (v'' & Hv'' & Hp'')]. exists v''. split; [|done].
      simpl in Hv''. rewrite decide_False in Hv'' by (intros ->; contradiction). done.
Qed.

(** Rebuilding a dictionary from its keys gives it back. *)
Lemma dict_rebuild d (x : V) :
  NoDup (fst <$> d) -> (fun t => (t, default x (dict_get t d))) <$> (fst <$> d) = d.
Proof.
  induction d as [|[k v] d IH]; simpl; [done|]. rewrite NoDup_cons. intros [Hk Hnd].
  rewrite decide_True by done. f_equal. rewrite <-IH at 2 by done.
  apply list_fmap_ext. intros i t Ht. apply list_elem_of_lookup_2 in Ht.
  by rewrite decide_False by (intros ->; contradiction).
Qed.
End DictLemmas.

#[export] Hint Rewrite @dict_get_set_eq : salary.
#[export] Hint Resolve dict_get_Some_elem : salary.

(** ** Lemmas on sorted-unique lists *)

Section SortUniqLemmas.
Context {A : Type} `{EqDecision A} (R : relation A) `{RelDecision A A R}.
Context `{!PartialOrder R} `{!Total R}.
Implicit Types (l : list A) (x y z : A).

Lemma elem_of_insert_uniq x l z : z ∈ insert_uniq R x l <-> z = x \/ z ∈ l.
Proof.
  induction l as [|y l IH]; simpl; [set_solver|].
  repeat case_decide; subst; rewrite ?elem_of_cons, ?IH; naive_solver.
Qed.

Lemma elem_of_sort_uniq l z : z ∈ sort_uniq R l <-> z ∈ l.
Proof.
  induction l as [|y l IH]; simpl; [done|].
  rewrite elem_of_insert_uniq, IH, elem_of_cons. done.
Qed.

Lemma StronglySorted_insert_uniq x l :
  StronglySorted R l -> StronglySorted R (insert_uniq R x l).
Proof.
  induction l as [|y l IH]; simpl; intros Hl.
  - repeat constructor.
  - apply StronglySorted_cons in Hl as [Hy Hl].
    repeat case_decide; subst.
    + by apply StronglySorted_cons.
    + apply StronglySorted_cons; split; [|by apply StronglySorted_cons].
      constructor; [done|]. eapply Forall_impl; [exact Hy|].
      intros z Hz. by trans y.
    + apply StronglySorted_cons; split; [|by apply IH].
      apply Forall_forall. intros z. rewrite elem_of_insert_uniq.
      intros [->|Hz]; [|by eapply Forall_forall in Hy].
      destruct (total R x y); [contradiction|done].
Qed.

Lemma StronglySorted_sort_uniq l : StronglySorted R (sort_uniq R l).
Proof.
  induction l; simpl; [constructor|]. by apply StronglySorted_insert_uniq.
Qed.

Lemma NoDup_insert_uniq x l :
  StronglySorted R l -> NoDup l -> NoDup (insert_uniq R x l).
Proof.
  induction l as [|y l IH]; simpl; intros Hs Hl; [by apply NoDup_singleton|].
  apply StronglySorted_cons in Hs as [Hy Hs].
  inv_clear Hl.
  destruct (decide (x = y)) as [<-|Hne]; [by constructor|].
  destruct (decide (R x y)) as [Hxy|Hxy].
  - constructor; [|by constructor]. rewrite elem_of_cons.
    intros [|Hx]; [done|]. eapply Forall_forall in Hy; [|exact Hx].
    apply Hne. by apply (anti_symm R).
  - constructor; [|by apply IH]. rewrite elem_of_insert_uniq. naive_solver.
Qed.

Lemma NoDup_sort_uniq l : NoDup (sort_uniq R l).
Proof.
  induction l; simpl; [constructor|].
  apply NoDup_insert_uniq; [apply StronglySorted_sort_uniq|done].
Qed.

Lemma index_of_mono x y l :
  StronglySorted R l -> x ∈ l -> y ∈ l -> x <> y -> R x y ->
  index_of x l < index_of y l.
Proof.
  induction l as [|z l IH]; simpl; intros Hs Hx Hy Hne Hxy; [set_solver|].
  apply StronglySorted_cons in Hs as [Hz Hs].
  rewrite elem_of_cons in Hx, Hy.
  repeat case_decide; subst; try congruence; [lia| |].
  - destruct Hx as [|Hx]; [congruence|].
    eapply Forall_forall in Hz; [|exact Hx].
    destruct Hne. by apply (anti_symm R).
  - apply -> Nat.succ_lt_mono. apply IH; naive_solver.
Qed.
End SortUniqLemmas.

#[export] Hint Resolve NoDup_sort_uniq StronglySorted_sort_uniq : salary.

(** ** Lemmas on [index_of] *)

Section IndexOf.
Context {A : Type} `{EqDecision A}.
Implicit Types (l : list A) (x y : A).

Lemma index_of_lookup x l : x ∈ l -> l !! index_of x l = Some x.
Proof.
  induction l as [|y l IH]; simpl; [set_solver|].
  rewrite elem_of_cons. case_decide; subst; [done|]. naive_solver.
Qed.

Lemma index_of_notin x l : x ∉ l -> index_of x l = length l.
Proof.
  induction l as [|y l IH]; simpl; [done|].
  rewrite elem_of_cons. case_decide; naive_solver.
Qed.

Lemma index_of_lt x l : x ∈ l -> index_of x l < length l.
Proof. intros Hx. apply lookup_lt_Some with x. by apply index_of_lookup. Qed.

Lemma index_of_inj x y l : x ∈ l -> index_of x l = index_of y l -> x = y.
Proof.
  intros Hx Heq. destruct (decide (y ∈ l)) as [Hy|Hy].
  - apply index_of_lookup in Hx, Hy. congruence.
  - apply index_of_lt in Hx. rewrite (index_of_notin y l Hy) in Heq. lia.
Qed.

End IndexOf.
