(* ===== verification/Translations.v ===== *)
(** * Translations: the UI string tables of [src/main.py]

    [get_translations] (lines 12-54) holds three tables, English, Hindi
    and Telugu, and returns the one for the selected code, falling back
    to English through [translations.get(lang, translations["en"])] (the
    default is evaluated first, as Python does).  The page then reads
    entries with [lang["age"]] and the like, which raise [KeyError] on a
    missing key.  Line 97 offers the codes ["en"; "hi"; "te"] with the
    display names of its [format_func] dictionary.

    The theorems: the fallback, the three tables have the same keys, and
    no lookup the page performs raises, whatever code is selected. *)

From S2P Require Import Prelude.
Open Scope string_scope.
Open Scope list_scope.

Definition table := list (string * string).

Definition translations : list (string * table) := [
  ("en", [
    ("title", "Employee Salary Classification");
    ("age", "Age");
    ("gender", "Gender");
    ("workclass", "Workclass");
    ("education", "Education");
    ("occupation", "Occupation");
    ("hours", "Hours per Week");
    ("predict", "🎯 Predict Salary");
    ("predicted_income", "Predicted Income");
    ("upload_csv", "Upload CSV for Bulk Predictions");
    ("download", "⬇️ Download Results")]);
  ("hi", [
    ("title", "कर्मचारी वेतन वर्गीकरण");
    ("age", "आयु");
    ("gender", "लिंग");
    ("workclass", "कार्य वर्ग");
    ("education", "शिक्षा");
    ("occupation", "पेशा");
    ("hours", "प्रति सप्ताह घंटे");
    ("predict", "🎯 वेतन का पूर्वानुमान करें");
    ("predicted_income", "अनुमानित आय");
    ("upload_csv", "CSV अपलोड करें (थोक भविष्यानुमान)");
    ("download", "⬇️ परिणाम डाउनलोड करें")]);
  ("te", [
    ("title", "ఉద్యోగి జీతం వర్గీకరణ");
    ("age", "వయస్సు");
    ("gender", "లింగం");
    ("workclass", "పని తరగతి");
    ("education", "విద్య");
    ("occupation", "ఉద్యోగం");
    ("hours", "వారం గంటలు");
    ("predict", "🎯 జీతంని ఊహించండి");
    ("predicted_income", "అంచనా జీతం");
    ("upload_csv", "CSV అప్లోడ్ (బల్క్ ప్రిడిక్షన్)");
    ("download", "⬇️ ఫలితాలన్ని డాఉన్లోడ్ చెయండి")])].

(** [translations.get(lang, translations["en"])] *)
Definition get_translations (lang : string) : result table :=
  en ← dict_index translations "en";
  mret (default en (dict_get lang translations)).

(** Line 97: the selectable codes and [format_func]. *)
Definition lang_options : list string := ["en"; "hi"; "te"].

Definition lang_names : list (string * string) :=
  [("en", "English"); ("hi", "Hindi"); ("te", "Telugu")].

Definition format_lang (x : string) : result string := dict_index lang_names x.

(** The keys the page reads: lines 125-130, 132, 146, 173 and 198. *)
Definition ui_keys : list string :=
  ["age"; "gender"; "workclass"; "education"; "occupation"; "hours";
   "predict"; "predicted_income"; "upload_csv"; "download"].

(** ** Theorems *)

(** Each of the three tables, as [get_translations] can return it. *)
Lemma get_translations_cases lang :
  exists t, get_translations lang = Ok t /\ (lang, t) ∈ translations \/
            get_translations lang = get_translations "en".
Proof.
  unfold get_translations.
  destruct (dict_get lang translations) as [t|] eqn:Hget.
  - exists t. left. split; [reflexivity|]. by apply dict_get_Some_in.
  - exists []. right. reflexivity.
Qed.

Lemma table_has_ui_keys code t k :
  (code, t) ∈ translations -> k ∈ ui_keys -> exists s, dict_index t k = Ok s.
Proof.
  intros Ht Hk. apply list_elem_of_In in Ht, Hk. simpl in Ht, Hk.
  repeat match goal with H : _ \/ _ |- _ => destruct H as [H|H] end;
    try contradiction; simplify_eq; by eexists.
Qed.

Lemma get_translations_ok lang :
  exists t, get_translations lang = Ok t /\
            forall k, k ∈ ui_keys -> exists s, dict_index t k = Ok s.
Proof.
  destruct (get_translations_cases lang) as [t [[Hok Ht]|Hen]].
  - exists t. split; [done|]. intros k. by apply table_has_ui_keys with lang.
  - rewrite Hen. eexists. split; [reflexivity|]. intros k.
    apply (table_has_ui_keys "en"). by left.
Qed.

(** An unknown language code gives the English tables. *)
Theorem get_translations_fallback lang :
  lang ∉ lang_options -> get_translations lang = get_translations "en".
Proof.
  intros Hl. unfold get_translations. rewrite dict_get_None; [done|]. exact Hl.
Qed.

(** Every key the page reads ([lang["age"]], ...) is present in the
    table [get_translations] returns, for every language code: the page
    never raises [KeyError]. *)
Theorem ui_lookups_never_raise lang k :
  k ∈ ui_keys ->
  exists t s, get_translations lang = Ok t /\ dict_index t k = Ok s.
Proof.
  intros Hk. destruct (get_translations_cases lang) as [t [[Hok Ht]|Hen]].
  - destruct (table_has_ui_keys _ _ _ Ht Hk) as [s Hs]. by exists t, s.
  - rewrite Hen. edestruct (table_has_ui_keys "en") as [s Hs]; [left|exact Hk|].
    eexists _, s. split; [reflexivity|exact Hs].
Qed.

(** the three translation tables define the same keys, in the same
    order. *)
Theorem tables_same_keys code t :
  (code, t) ∈ translations ->
  (fst <$> t) = ["title"; "age"; "gender"; "workclass"; "education"; "occupation";
               "hours"; "predict"; "predicted_income"; "upload_csv"; "download"].
Proof.
  intros Ht. apply list_elem_of_In in Ht. simpl in Ht.
  repeat match goal with H : _ \/ _ |- _ => destruct H as [H|H] end;
    try contradiction; by simplify_eq.
Qed.

(** the display name of every selectable language is defined:
    [format_func] never raises on the selector's options. *)
Theorem format_lang_total x : x ∈ lang_options -> exists s, format_lang x = Ok s.
Proof.
  intros Hx. apply list_elem_of_In in Hx. simpl in Hx.
  repeat match goal with H : _ \/ _ |- _ => destruct H as [H|H] end;
    try contradiction; subst; by eexists.
Qed.

Lemma get_translations_fallback_witness :
  ("fr" ∉ lang_options) /\ get_translations "fr" = get_translations "en".
Proof. split; [decide_prop|apply get_translations_fallback; decide_prop]. Defined.

Lemma ui_lookups_never_raise_witness :
  exists t s, get_translations "fr" = Ok t /\ dict_index t "hours" = Ok s.
Proof. apply ui_lookups_never_raise. decide_prop. Defined.

Lemma tables_same_keys_witness :
  exists t, ("te", t) ∈ translations /\
    (fst <$> t) = ["title"; "age"; "gender"; "workclass"; "education"; "occupation";
                 "hours"; "predict"; "predicted_income"; "upload_csv"; "download"].
Proof.
  eexists. split; [by right; right; left|]. apply (tables_same_keys "te").
  by right; right; left.
Defined.

Lemma format_lang_total_witness : exists s, format_lang "te" = Ok s.
Proof. apply format_lang_total. decide_prop. Defined.
