(* ===== verification/Frame.v ===== *)
(** * Frame: the pandas data model the app relies on

    A cell is an integer, a string or NaN ([None]); a column is a name
    with its cells; a data frame has a row count and its columns in
    order (names may repeat, as in pandas).  The dtype pandas infers is
    recomputed from the cells: a column holding a string is of object
    dtype, any other column is numeric.  Floats are not modelled: the
    numbers the app handles (age, hours) are integers.

    Operations: [pd.DataFrame([input_data])] of [src/main.py] line 141
    ([from_records]), the row view used by the batch/single comparison
    ([row_frame]), and the column assignments [df['Prediction'] = ...]
    (line 181) and [result_csv["prediction"] = prediction] (line 150). *)

From S2P Require Import Prelude.
Open Scope string_scope.
Open Scope list_scope.

Inductive value :=
| VInt (z : Z)
| VStr (s : string).

#[export] Instance value_eq_dec : EqDecision value.
Proof. solve_decision. Defined.

(** [None] is NaN. *)
Definition cell := option value.

Definition column := (string * list cell)%type.

Record frame := mk_frame {
  nrows : nat;
  columns : list column
}.

Definition col_names (df : frame) : list string := fst <$> columns df.

(** Every column has one cell per row. *)
Definition frame_wf (df : frame) : Prop :=
  Forall (fun c => length c.2 = nrows df) (columns df).

#[export] Instance frame_wf_dec df : Decision (frame_wf df).
Proof. unfold frame_wf. apply _. Defined.

(** ** dtypes *)

Definition is_str_cell (c : cell) : bool :=
  match c with Some (VStr _) => true | _ => false end.

(** [select_dtypes(include=["object", ...])]: a column holding a string. *)
Definition is_object_column (c : column) : bool := existsb is_str_cell c.2.

(** ** [pd.DataFrame(list_of_dicts)] *)

(** A Python dict of one input row. *)
Definition record := list (string * value).

Definition add_key (acc : list string) (k : string) : list string :=
  if decide (k ∈ acc) then acc else acc ++ [k].

(** Keys in order of first appearance over all records. *)
Definition record_keys (rs : list record) : list string :=
  foldl add_key [] (rs ≫= fmap fst).

(** A missing key gives NaN. *)
Definition from_records (rs : list record) : frame :=
  mk_frame (length rs)
           ((fun k => (k, dict_get k <$> rs)) <$> record_keys rs).

(** ** Rows *)

Definition cell_at (c : column) (i : nat) : cell := default None (c.2 !! i).

(** The one-row frame [df.iloc[[i]]]. *)
Definition row_frame (df : frame) (i : nat) : frame :=
  mk_frame 1 ((fun c => (c.1, [cell_at c i])) <$> columns df).

(** ** Column assignment [df[name] = values] *)

(** A list of values must have one value per row, else pandas raises
    [ValueError]; an existing column is replaced in place, a new one is
    appended. *)
Definition set_column (df : frame) (name : string) (vals : list cell) : result frame :=
  if decide (length vals = nrows df)
  then Ok (mk_frame (nrows df) (dict_set name vals (columns df)))
  else Err (ValueError "Length of values does not match length of index").

(** A scalar is broadcast to every row. *)
Definition set_scalar (df : frame) (name : string) (v : cell) : frame :=
  mk_frame (nrows df) (dict_set name (replicate (nrows df) v) (columns df)).

(** ** Lemmas *)

Lemma elem_of_foldl_add_key acc l k : k ∈ foldl add_key acc l <-> k ∈ acc \/ k ∈ l.
Proof.
  revert acc. induction l as [|k' l IH]; intros acc; simpl; [set_solver|].
  rewrite IH. unfold add_key. case_decide; set_solver.
Qed.

Lemma NoDup_foldl_add_key acc l : NoDup acc -> NoDup (foldl add_key acc l).
Proof.
  revert acc. induction l as [|k' l IH]; intros acc Hacc; simpl; [done|].
  apply IH. unfold add_key. case_decide; [done|].
  apply NoDup_app; repeat split; [done| |by apply NoDup_singleton]. set_solver.
Qed.

Lemma foldl_add_key_NoDup acc l : NoDup (acc ++ l) -> foldl add_key acc l = acc ++ l.
Proof.
  revert acc. induction l as [|k' l IH]; intros acc Hnd; simpl; [by rewrite app_nil_r|].
  unfold add_key at 2. rewrite decide_False.
  - rewrite IH; [by rewrite <-app_assoc|]. by rewrite <-app_assoc.
  - apply NoDup_app in Hnd as (_ & Hd & _). intros Hk. by apply (Hd k'); [|left].
Qed.

Lemma elem_of_record_keys rs k :
  k ∈ record_keys rs <-> exists r, r ∈ rs /\ k ∈ fst <$> r.
Proof.
  unfold record_keys. rewrite elem_of_foldl_add_key, list_elem_of_bind. set_solver.
Qed.

Lemma NoDup_record_keys rs : NoDup (record_keys rs).
Proof. apply NoDup_foldl_add_key. constructor. Qed.

Lemma record_keys_single r : NoDup (fst <$> r) -> record_keys [r] = fst <$> r.
Proof.
  intros Hnd. unfold record_keys. simpl. rewrite app_nil_r.
  by apply foldl_add_key_NoDup.
Qed.

Lemma foldl_add_key_present acc l : (forall k, k ∈ l -> k ∈ acc) -> foldl add_key acc l = acc.
Proof.
  revert acc. induction l as [|k l IH]; intros acc Hl; simpl; [done|].
  unfold add_key at 2. rewrite decide_True by (apply Hl; by left).
  apply IH. intros k' Hk'. apply Hl. by right.
Qed.

(** Records with the same keys give those keys, in that order. *)
Lemma record_keys_uniform rs ks :
  NoDup ks -> rs <> [] -> Forall (fun r => fst <$> r = ks) rs -> record_keys rs = ks.
Proof.
  intros Hnd Hne Hrs. destruct rs as [|r rs]; [done|]. apply Forall_cons in Hrs as [Hr Hrs'].
  subst ks. unfold record_keys. rewrite bind_cons, foldl_app.
  rewrite (foldl_add_key_NoDup [] (fst <$> r)) by done. simpl.
  apply foldl_add_key_present. intros k (r' & Hk & Hr')%list_elem_of_bind.
  rewrite Forall_forall in Hrs'. by rewrite <-(Hrs' r' Hr').
Qed.

Lemma col_names_from_records rs : col_names (from_records rs) = record_keys rs.
Proof.
  unfold col_names, from_records. simpl. rewrite <-list_fmap_compose.
  apply list_fmap_id.
Qed.

Lemma from_records_wf rs : frame_wf (from_records rs).
Proof.
  unfold frame_wf, from_records. simpl. apply Forall_fmap, Forall_forall.
  intros k _. simpl. apply length_fmap.
Qed.

Lemma wf_column_length df n cs : frame_wf df -> (n, cs) ∈ columns df -> length cs = nrows df.
Proof. intros Hwf Hin. by eapply Forall_forall in Hwf; [|exact Hin]. Qed.

Lemma set_scalar_wf df name v : frame_wf df -> frame_wf (set_scalar df name v).
Proof.
  unfold frame_wf, set_scalar. simpl. intros Hwf.
  induction Hwf as [|[k cs] cols Hc Hcols IH]; simpl.
  - constructor; [apply length_replicate|constructor].
  - case_decide; constructor; simpl; auto using length_replicate.
Qed.

Lemma set_column_wf df name vals df' :
  frame_wf df -> set_column df name vals = Ok df' -> frame_wf df'.
Proof.
  unfold set_column. case_decide as Hlen; intros Hwf [= <-].
  unfold frame_wf in *. simpl.
  induction Hwf as [|[k cs] cols Hc Hcols IH]; simpl.
  - by constructor.
  - case_decide; constructor; simpl; auto.
Qed.

#[export] Hint Resolve from_records_wf set_scalar_wf NoDup_record_keys : salary.

Lemma set_column_Ok df name vals :
  length vals = nrows df ->
  set_column df name vals = Ok (mk_frame (nrows df) (dict_set name vals (columns df))).
Proof. intros Hlen. unfold set_column. by rewrite decide_True. Qed.
