(* ===== verification/Csv.v ===== *)
(** * Csv: [DataFrame.to_csv(index=False)] and [pd.read_csv]

    [src/main.py] prints frames with [to_csv(index=False)] for both
    downloads (lines 153 and 196-197) and reads the uploaded file with
    [pd.read_csv] (line 177); the trainer reads [adult.csv] the same way
    (model_training.py line 12).

    Writing: pandas formats each cell ([NaN] as the empty string, an
    integer with [str], an integer of a numeric column holding [NaN],
    which is of dtype float64, with [repr(float)], i.e. a trailing [.0])
    and hands the rows to Python's [csv.writer] with its defaults:
    [QUOTE_MINIMAL] (a field holding the delimiter, the quote character
    or a line break is quoted, its quotes doubled), a row made of one
    empty field written as two quotes, and lines ended by [\n].

    Reading: pandas' C tokenizer is the state machine [tok_step], with
    its states named as in [tokenizer.c]: blank and whitespace-only lines
    are skipped, a line with fewer fields than the previous one is
    padded, one with more raises, from the third line on; then the first
    line is the header (an empty name becomes [Unnamed: i]) and each
    column gets its dtype: the default NA strings are NaN, a column of
    integers is int64 (or float64 when it has a NaN), a column of
    floats float64, otherwise object.  The model keeps integral floats
    as integers (as [Frame] does) and returns [None] on what lies outside
    it: a float column with a non-integral or imprecise value, a boolean
    column, integers past int64 (or uint64), duplicate header names, and
    a first data line with more fields than the header (which pandas
    turns into an index).

    The theorems: reading back what [to_csv] writes gives the frame
    again, for frames whose strings do not read as numbers, booleans or
    NA and whose integers stay within int64 (2^53 in a column with NaN);
    the tokenizer's error paths raise as pandas does (a long line, a
    blank file, an unclosed quote), a short line is padded rather
    than rejected, and empty lines are skipped. *)

From S2P Require Import Prelude Frame.
From Stdlib Require Import Ascii.
From Stdlib Require String.
Open Scope string_scope.
Open Scope list_scope.

Definition chars := list ascii.
Definition chars_of (s : string) : chars := String.list_ascii_of_string s.

Definition QUOTE : ascii := "034"%char.
Definition COMMA : ascii := ","%char.
Definition LF : ascii := "010"%char.
Definition CR : ascii := "013"%char.

(** [isblank]: space or tab. *)
Definition is_blank (c : ascii) : bool := bool_decide (c = " "%char \/ c = "009"%char).

(** ** Writing *)

(** [QUOTE_MINIMAL]: the characters that force quoting. *)
Definition is_special (c : ascii) : bool := bool_decide (c ∈ [COMMA; QUOTE; LF; CR]).

Definition needs_quotes (f : chars) : bool := existsb is_special f.

(** [doublequote=True]: a quote inside a quoted field is doubled. *)
Fixpoint escape_quotes (f : chars) : chars :=
  match f with
  | [] => []
  | c :: f' => if decide (c = QUOTE) then QUOTE :: QUOTE :: escape_quotes f'
               else c :: escape_quotes f'
  end.

Definition write_field (f : chars) : chars :=
  if needs_quotes f then QUOTE :: escape_quotes f ++ [QUOTE] else f.

Fixpoint join_fields (fs : list chars) : chars :=
  match fs with
  | [] => []
  | [f] => write_field f
  | f :: fs' => write_field f ++ COMMA :: join_fields fs'
  end.

(** [csv.writer.writerow]: a row of one empty field is written quoted,
    so that it is not an empty line. *)
Definition write_row (fs : list chars) : chars :=
  match fs with
  | [[]] => [QUOTE; QUOTE; LF]
  | _ => join_fields fs ++ [LF]
  end.

Definition is_none_cell (c : cell) : bool := match c with None => true | _ => false end.

(** A numeric column holding a NaN is of dtype float64. *)
Definition is_float_column (cs : list cell) : bool :=
  negb (existsb is_str_cell cs) && existsb is_none_cell cs.

(** The text pandas writes for one cell ([na_rep=''], [str] of an
    integer, [repr] of an integral float below 10^16). *)
Definition format_cell (float : bool) (c : cell) : chars :=
  match c with
  | None => []
  | Some (VStr s) => chars_of s
  | Some (VInt z) => chars_of (pretty z) ++ (if float then chars_of ".0" else [])
  end.

Definition row_fields (df : frame) (i : nat) : list chars :=
  (fun c => format_cell (is_float_column c.2) (cell_at c i)) <$> columns df.

Definition to_csv_chars (df : frame) : chars :=
  write_row (chars_of <$> col_names df) ++
  mjoin ((fun i => write_row (row_fields df i)) <$> seq 0 (nrows df)).

(** [df.to_csv(index=False)]. *)
Definition to_csv (df : frame) : string := String.string_of_list_ascii (to_csv_chars df).

(** ** The tokenizer *)

Inductive tok_state :=
| StartRecord
| StartField
| InField
| InQuotedField
| QuoteInQuotedField
| WhitespaceLine (ws : chars)
| EatCRNL
| EatCRNLNop.

Record tokenizer := mk_tok {
  t_state : tok_state;
  t_field : chars;              (** the field being read *)
  t_fields : list chars;        (** the fields of the current line *)
  t_rows : list (list chars);   (** the lines read so far *)
  t_file_lines : nat            (** line terminators consumed *)
}.

Definition tok_init : tokenizer := mk_tok StartRecord [] [] [] 0.

Definition set_state (s : tok_state) (t : tokenizer) : tokenizer :=
  mk_tok s (t_field t) (t_fields t) (t_rows t) (t_file_lines t).

Definition push (c : ascii) (t : tokenizer) : tokenizer :=
  mk_tok (t_state t) (t_field t ++ [c]) (t_fields t) (t_rows t) (t_file_lines t).

(** [END_FIELD]. *)
Definition end_field (t : tokenizer) : tokenizer :=
  mk_tok (t_state t) [] (t_fields t ++ [t_field t]) (t_rows t) (t_file_lines t).

(** A skipped empty line. *)
Definition skip_line (s : tok_state) (t : tokenizer) : tokenizer :=
  mk_tok s (t_field t) (t_fields t) (t_rows t) (S (t_file_lines t)).

(** [end_line]: from the third line on, a line with more fields than
    the previous one raises; from the second on, a shorter one is padded
    with empty fields. *)
Definition end_line (t : tokenizer) : result tokenizer :=
  let fs := t_fields t in
  let lines := length (t_rows t) in
  let ex := default 0 (length <$> last (t_rows t)) in
  let file_lines := S (t_file_lines t) in
  if decide (2 <= lines /\ ex < length fs) then
    Err (ValueError ("Error tokenizing data. C error: Expected " +:+ pretty (N.of_nat ex) +:+
                     " fields in line " +:+ pretty (N.of_nat file_lines) +:+
                     ", saw " +:+ pretty (N.of_nat (length fs)) +:+ String.String LF EmptyString))
  else
    let fs' := if decide (1 <= lines) then fs ++ replicate (ex - length fs) [] else fs in
    Ok (mk_tok StartRecord [] [] (t_rows t ++ [fs']) file_lines).

Definition start_field (c : ascii) (t : tokenizer) : result tokenizer :=
  if decide (c = LF) then end_line (end_field t)
  else if decide (c = CR) then Ok (set_state EatCRNL (end_field t))
  else if decide (c = QUOTE) then Ok (set_state InQuotedField t)
  else if decide (c = COMMA) then Ok (set_state StartField (end_field t))
  else Ok (set_state InField (push c t)).

Definition in_field (c : ascii) (t : tokenizer) : result tokenizer :=
  if decide (c = LF) then end_line (end_field t)
  else if decide (c = CR) then Ok (set_state EatCRNL (end_field t))
  else if decide (c = COMMA) then Ok (set_state StartField (end_field t))
  else Ok (push c t).

Definition in_quoted_field (c : ascii) (t : tokenizer) : result tokenizer :=
  if decide (c = QUOTE) then Ok (set_state QuoteInQuotedField t) else Ok (push c t).

Definition quote_in_quoted_field (c : ascii) (t : tokenizer) : result tokenizer :=
  if decide (c = QUOTE) then Ok (set_state InQuotedField (push c t))
  else if decide (c = COMMA) then Ok (set_state StartField (end_field t))
  else if decide (c = LF) then end_line (end_field t)
  else if decide (c = CR) then Ok (set_state EatCRNL (end_field t))
  else Ok (set_state InField (push c t)).

(** [START_RECORD]: empty lines are skipped; a line starting with a
    blank may be a whitespace-only line; anything else starts a field. *)
Definition start_record (c : ascii) (t : tokenizer) : result tokenizer :=
  if decide (c = LF) then Ok (skip_line StartRecord t)
  else if decide (c = CR) then Ok (skip_line EatCRNLNop t)
  else if is_blank c then Ok (set_state (WhitespaceLine [c]) t)
  else start_field c (set_state StartField t).

(** [WHITESPACE_LINE]: a line of blanks is skipped; otherwise the
    tokenizer backtracks to the start of the line, which puts the blanks
    read so far in the first field. *)
Definition whitespace_line (ws : chars) (c : ascii) (t : tokenizer) : result tokenizer :=
  if decide (c = LF) then Ok (skip_line StartRecord t)
  else if decide (c = CR) then Ok (skip_line EatCRNLNop t)
  else if is_blank c then Ok (set_state (WhitespaceLine (ws ++ [c])) t)
  else in_field c (mk_tok InField ws (t_fields t) (t_rows t) (t_file_lines t)).

(** [EAT_CRNL]: after a [\r] ending a line. *)
Definition eat_crnl (c : ascii) (t : tokenizer) : result tokenizer :=
  if decide (c = LF) then end_line t
  else if decide (c = COMMA) then t' ← end_line t; Ok (set_state StartField t')
  else t' ← end_line t; start_record c t'.

(** [EAT_CRNL_NOP]: after a [\r] ending a skipped line; a [\n] or a
    delimiter is consumed, any other character is read again. *)
Definition eat_crnl_nop (c : ascii) (t : tokenizer) : result tokenizer :=
  if decide (c = LF \/ c = COMMA) then Ok (set_state StartRecord t)
  else start_record c (set_state StartRecord t).

Definition tok_step (t : tokenizer) (c : ascii) : result tokenizer :=
  match t_state t with
  | StartRecord => start_record c t
  | StartField => start_field c t
  | InField => in_field c t
  | InQuotedField => in_quoted_field c t
  | QuoteInQuotedField => quote_in_quoted_field c t
  | WhitespaceLine ws => whitespace_line ws c t
  | EatCRNL => eat_crnl c t
  | EatCRNLNop => eat_crnl_nop c t
  end.

Fixpoint tok_run (t : tokenizer) (cs : chars) : result tokenizer :=
  match cs with
  | [] => Ok t
  | c :: cs' => t' ← tok_step t c; tok_run t' cs'
  end.

(** [parser_handle_eof]. *)
Definition tok_finish (t : tokenizer) : result (list (list chars)) :=
  match t_state t with
  | StartRecord | WhitespaceLine _ | EatCRNLNop => Ok (t_rows t)
  | InQuotedField =>
      Err (ValueError ("Error tokenizing data. C error: EOF inside string starting at row " +:+
                       pretty (N.of_nat (t_file_lines t))))
  | EatCRNL => t' ← end_line t; Ok (t_rows t')
  | StartField | InField | QuoteInQuotedField =>
      t' ← end_line (end_field t); Ok (t_rows t')
  end.

Definition tokenize (cs : chars) : result (list (list chars)) :=
  tok_run tok_init cs ≫= tok_finish.

(** The tokenizer inside a field holding [f], with the line's fields
    and the lines read so far of [t]. *)
Definition with_field (f : chars) (t : tokenizer) : tokenizer :=
  mk_tok InField f (t_fields t) (t_rows t) (t_file_lines t).

(** A row the tokenizer reads back: it is not an empty or blank line. *)
Definition row_ok (r : list chars) : bool :=
  match r with
  | [] => false
  | [f] => bool_decide (f = []) || existsb (fun c => negb (is_blank c)) f
  | _ => true
  end.

(** ** Values of the fields *)

(** pandas' default [na_values]. *)
Definition na_values : list string :=
  ["-1.#IND"; "1.#QNAN"; "1.#IND"; "-1.#QNAN"; "#N/A N/A"; "#N/A"; "N/A"; "n/a";
   "NA"; "<NA>"; "#NA"; "NULL"; "null"; "NaN"; "-NaN"; "nan"; "-nan"; "None"; ""].

Definition is_na (f : chars) : bool := bool_decide (String.string_of_list_ascii f ∈ na_values).

(** [isspace_ascii]. *)
Definition is_space (c : ascii) : bool :=
  bool_decide (c ∈ [" "; "009"; "010"; "011"; "012"; "013"]%char).

Fixpoint drop_spaces (cs : chars) : chars :=
  match cs with
  | c :: cs' => if is_space c then drop_spaces cs' else cs
  | [] => []
  end.

(** Leading and trailing spaces are ignored around a number. *)
Definition strip (cs : chars) : chars := reverse (drop_spaces (reverse (drop_spaces cs))).

Definition digit_value (c : ascii) : option N :=
  let n := N.of_nat (nat_of_ascii c) in
  if decide (48 <= n <= 57)%N then Some (n - 48)%N else None.

Fixpoint digits_go (acc : N) (cs : chars) : option N :=
  match cs with
  | [] => Some acc
  | c :: cs' => d ← digit_value c; digits_go (acc * 10 + d)%N cs'
  end.

Definition digits (cs : chars) : option N :=
  match cs with [] => None | _ => digits_go 0 cs end.

Definition signed (cs : chars) : option Z :=
  match cs with
  | "-"%char :: ds => (fun n => - Z.of_N n)%Z <$> digits ds
  | "+"%char :: ds => Z.of_N <$> digits ds
  | _ => Z.of_N <$> digits cs
  end.

(** [str_to_int64]: an optional sign and decimal digits. *)
Definition parse_int (f : chars) : option Z := signed (strip f).

Fixpoint all_zeros (cs : chars) : bool :=
  match cs with [] => true | c :: cs' => bool_decide (c = "0"%char) && all_zeros cs' end.

Fixpoint split_at_dot (cs : chars) : chars * option chars :=
  match cs with
  | [] => ([], None)
  | c :: cs' =>
      if decide (c = "."%char) then ([], Some cs')
      else let '(a, b) := split_at_dot cs' in (c :: a, b)
  end.

(** A float literal whose value is an integer written in positional
    notation: digits, a dot, and zeros ([39.0], [39.]). *)
Definition parse_integral_float (f : chars) : option Z :=
  match split_at_dot (strip f) with
  | (ip, Some fr) => if all_zeros fr then signed ip else None
  | (_, None) => None
  end.

Definition lower (c : ascii) : ascii :=
  let n := nat_of_ascii c in if decide (65 <= n <= 90) then ascii_of_nat (n + 32) else c.

Definition is_digit (c : ascii) : bool := bool_decide (is_Some (digit_value c)).

Definition drop_sign (cs : chars) : chars :=
  match cs with "-"%char :: r | "+"%char :: r => r | r => r end.

Fixpoint split_at_exp (cs : chars) : chars * option chars :=
  match cs with
  | [] => ([], None)
  | c :: cs' =>
      if decide (c = "e"%char \/ c = "E"%char) then ([], Some cs')
      else let '(a, b) := split_at_exp cs' in (c :: a, b)
  end.

(** [xstrtod]: an optional sign, digits with at most one dot (at least
    one digit), an optional exponent; or [inf]/[infinity] in any case. *)
Definition float_like (f : chars) : bool :=
  let body := drop_sign (strip f) in
  (let '(m, e) := split_at_exp body in
   let '(ip, fr) := split_at_dot m in
   let fr' := default [] fr in
   bool_decide (ip ++ fr' <> []) && forallb is_digit ip && forallb is_digit fr' &&
   match e with
   | None => true
   | Some ex => let ds := drop_sign ex in bool_decide (ds <> []) && forallb is_digit ds
   end) ||
  bool_decide ((lower <$> body) ∈ [chars_of "inf"; chars_of "infinity"]).

(** pandas' default [true_values] and [false_values]. *)
Definition bool_like (f : chars) : bool :=
  bool_decide (String.string_of_list_ascii f ∈ ["True"; "TRUE"; "true"; "False"; "FALSE"; "false"]).

Definition int64_min : Z := (- 2 ^ 63)%Z.
Definition int64_max : Z := (2 ^ 63 - 1)%Z.
Definition uint64_max : Z := (2 ^ 64 - 1)%Z.
(** The integers a float64 holds exactly. *)
Definition float_exact : Z := (2 ^ 53)%Z.

Definition in_range (lo hi z : Z) : bool := bool_decide (lo <= z <= hi)%Z.

(** A field of a float64 column, when its value is an integer the
    double holds exactly. *)
Definition float_field (f : chars) : option cell :=
  if is_na f then Some None
  else z ← (match parse_int f with Some z => Some z | None => parse_integral_float f end);
       if in_range (- float_exact) float_exact z then Some (Some (VInt z)) else None.

(** The dtype pandas infers for a column and its cells; [None] outside
    the model. *)
Definition infer_column (fs : list chars) : option (list cell) :=
  let present := filter (fun f => negb (is_na f)) fs in
  if forallb (fun f => bool_decide (is_Some (parse_int f))) present then
    if existsb is_na fs then mapM float_field fs
    else
      let zs := omap parse_int fs in
      if forallb (in_range int64_min int64_max) zs || forallb (in_range 0 uint64_max) zs
      then Some ((fun z => Some (VInt z)) <$> zs)
      else None
  else if forallb float_like present then mapM float_field fs
  else if forallb bool_like present then None
  else Some ((fun f => if is_na f then None else Some (VStr (String.string_of_list_ascii f))) <$> fs).

(** The header: an empty name becomes [Unnamed: i]. *)
Definition header_names (h : list chars) : list string :=
  imap (fun i f => match f with
                   | [] => "Unnamed: " +:+ pretty (N.of_nat i)
                   | _ => String.string_of_list_ascii f
                   end) h.

Definition column_fields (rows : list (list chars)) (j : nat) : list chars :=
  (fun r => default [] (r !! j)) <$> rows.

(** [pd.read_csv] on the characters of a file: [Some (Ok df)], the
    exception it raises, or [None] outside the model. *)
Definition read_csv_chars (cs : chars) : option (result frame) :=
  match tokenize cs with
  | Err e => Some (Err e)
  | Ok [] => Some (Err (ValueError "No columns to parse from file"))
  | Ok (h :: rows) =>
      let names := header_names h in
      if existsb (fun r => bool_decide (length h < length r)) rows then None
      else if bool_decide (NoDup names) then
        cols ← mapM (fun j => infer_column (column_fields rows j)) (seq 0 (length h));
        Some (Ok (mk_frame (length rows) (zip names cols)))
      else None
  end.

Definition read_csv (s : string) : option (result frame) :=
  read_csv_chars (String.list_ascii_of_string s).

(** ** pandas' parser as the other components see it *)

(** [pd.read_csv] as the page (line 177) and the trainer
    (model_training.py line 12) call it: a total function from the
    file's text to a frame or an exception.  Its one law is that it
    agrees with [read_csv] wherever [read_csv] answers; outside the
    model it is left open.  The clients' theorems are proved against
    this interface. *)
Class CsvParser := {
  parse_csv : string -> result frame;
  parse_csv_read : forall s r, read_csv s = Some r -> parse_csv s = r
}.

(** An instance: [read_csv], with an arbitrary exception outside the
    model.  It is executable, so that examples evaluate. *)
Definition parse_or_reject (s : string) : result frame :=
  match read_csv s with
  | Some r => r
  | None => Err (ValueError "outside the modelled dtypes")
  end.

#[local] Program Instance read_csv_parser : CsvParser := {| parse_csv := parse_or_reject |}.
Next Obligation. intros s r Hr. unfold parse_or_reject. by rewrite Hr. Qed.

(** ** The frames [to_csv] and [read_csv] agree on *)

(** A string read back as itself: not an NA string, not a number, not a
    boolean, and not blank (a blank line is skipped). *)
Definition plain_string (s : string) : bool :=
  let f := chars_of s in
  negb (is_na f) && bool_decide (parse_int f = None) && negb (float_like f) &&
  negb (bool_like f) && existsb (fun c => negb (is_blank c)) f.

Definition is_str_or_none (c : cell) : bool :=
  match c with Some (VInt _) => false | _ => true end.

Definition int_in (lo hi : Z) (c : cell) : bool :=
  match c with Some (VInt z) => in_range lo hi z | Some (VStr _) => false | None => true end.

(** A column [read_csv] gives back: strings that read as themselves, or
    integers within int64, within 2^53 when the column holds a NaN. *)
Definition csv_column (c : column) : bool :=
  forallb (fun x => match x with Some (VStr s) => plain_string s | _ => true end) c.2 &&
  (forallb is_str_or_none c.2 ||
   (if existsb is_none_cell c.2 then forallb (int_in (- float_exact) float_exact) c.2
    else forallb (int_in int64_min int64_max) c.2)).

Definition csv_frame (df : frame) : bool :=
  bool_decide (frame_wf df) && bool_decide (columns df <> []) &&
  bool_decide (NoDup (col_names df)) &&
  forallb (fun n => existsb (fun c => negb (is_blank c)) (chars_of n)) (col_names df) &&
  forallb csv_column (columns df).

(** ** Digits *)

Definition digit_chars (ds : chars) : Prop := Forall (fun c => is_Some (digit_value c)) ds.

Definition digit_list : list ascii :=
  ["0"; "1"; "2"; "3"; "4"; "5"; "6"; "7"; "8"; "9"]%char.

(** The text of [str(z)], as a sign and digits. *)
Definition sign_chars (z : Z) : chars := if decide (z < 0)%Z then ["-"%char] else [].

(** ** Numbers as text *)

Lemma chars_of_app s1 s2 : chars_of (s1 +:+ s2) = chars_of s1 ++ chars_of s2.
Proof. unfold chars_of. induction s1 as [|a s1 IH]; simpl; [done|]. by rewrite IH. Qed.

Lemma digit_value_char d : (d < 10)%N -> digit_value (pretty_N_char d) = Some d.
Proof.
  intros Hd. assert (d = 0 \/ d = 1 \/ d = 2 \/ d = 3 \/ d = 4 \/ d = 5 \/ d = 6 \/
                     d = 7 \/ d = 8 \/ d = 9)%N as Hcases by lia.
  destruct_or! Hcases; subst; reflexivity.
Qed.

Lemma digits_go_pretty x s : digits_go 0 (chars_of (pretty_N_go x s)) = digits_go x (chars_of s).
Proof.
  revert s. induction (N.lt_wf_0 x) as [x _ IH]; intros s.
  destruct (decide (x = 0)%N) as [->|Hx]; [by rewrite pretty_N_go_0|].
  rewrite pretty_N_go_step by lia. rewrite IH by (apply N.div_lt; lia).
  unfold chars_of. cbn [String.list_ascii_of_string digits_go].
  rewrite digit_value_char by (apply N.mod_lt; lia). cbn [mbind option_bind].
  f_equal. rewrite N.mul_comm, <-N.div_mod; lia.
Qed.

Lemma digits_go_digit_chars acc ds n : digits_go acc ds = Some n -> digit_chars ds.
Proof.
  revert acc. induction ds as [|c ds IH]; intros acc; simpl; [constructor|].
  destruct (digit_value c) eqn:Hc; [|discriminate]. intros H%IH. constructor; [done|exact H].
Qed.

(** The decimal digits [pretty] writes for a natural number. *)
Lemma pretty_N_shape (x : N) :
  chars_of (pretty x) <> [] /\ digit_chars (chars_of (pretty x)) /\
  digits (chars_of (pretty x)) = Some x.
Proof.
  change (pretty x) with (if decide (x = 0)%N then "0" else pretty_N_go x "").
  case_decide as Hx.
  { subst. split_and!; [done| |reflexivity]. apply Forall_singleton. by eexists. }
  pose proof (digits_go_pretty x "") as Hdig.
  rewrite (eq_refl : digits_go x (chars_of "") = Some x) in Hdig.
  destruct (chars_of (pretty_N_go x "")) as [|c cs] eqn:E; [simpl in Hdig; congruence|].
  split_and!; [done| |done]. by eapply digits_go_digit_chars.
Qed.

(** [str(z)]: an optional minus sign and at least one digit. *)
Lemma pretty_Z_shape z :
  exists ds, chars_of (pretty z) = sign_chars z ++ ds /\
    ds <> [] /\ digit_chars ds /\ digits ds = Some (Z.abs_N z).
Proof.
  destruct z as [|p|p]; unfold pretty at 1, pretty_Z.
  - exists ["0"%char]. split_and!; [done|done| |reflexivity]. apply Forall_singleton. by eexists.
  - destruct (pretty_N_shape (Npos p)) as (? & ? & ?). exists (chars_of (pretty (Npos p))).
    split_and!; try done.
  - destruct (pretty_N_shape (Npos p)) as (? & ? & ?). exists (chars_of (pretty (Npos p))).
    split_and!; try done.
Qed.

Lemma digit_char_cases c : is_Some (digit_value c) -> c ∈ digit_list.
Proof.
  intros [d Hc]. destruct c as [[] [] [] [] [] [] [] []];
    first [vm_compute in Hc; discriminate Hc | decide_prop].
Qed.

(** A fact checked on the ten digits holds of every digit. *)
Lemma digit_chars_Forall (P : ascii -> Prop) ds :
  Forall P digit_list -> digit_chars ds -> Forall P ds.
Proof.
  intros HP Hds. eapply Forall_impl; [exact Hds|]. intros c Hc%digit_char_cases.
  by eapply Forall_forall.
Qed.

Lemma drop_spaces_id cs : Forall (fun c => is_space c = false) cs -> drop_spaces cs = cs.
Proof. destruct cs as [|c cs]; [done|]. intros [Hc _]%Forall_cons. simpl. by rewrite Hc. Qed.

Lemma strip_id cs : Forall (fun c => is_space c = false) cs -> strip cs = cs.
Proof.
  intros Hcs. unfold strip. rewrite (drop_spaces_id cs) by done.
  rewrite drop_spaces_id by (by apply Forall_reverse). apply reverse_involutive.
Qed.

Lemma digits_go_dot acc ds r : digit_chars ds -> digits_go acc (ds ++ "."%char :: r) = None.
Proof.
  revert acc. induction ds as [|c ds IH]; intros acc; [done|].
  intros [[d Hd] Hds]%Forall_cons. simpl. rewrite Hd. simpl. by apply IH.
Qed.

(** A list of digits reads as its value, whatever follows its first digit. *)
Lemma signed_digit c cs : is_Some (digit_value c) -> signed (c :: cs) = Z.of_N <$> digits (c :: cs).
Proof. intros Hc%digit_char_cases. repeat (apply elem_of_cons in Hc as [->|Hc]; [done|]). set_solver. Qed.

Lemma signed_sign z ds :
  ds <> [] -> digit_chars ds -> signed (sign_chars z ++ ds) =
    (fun n => if decide (z < 0)%Z then (- Z.of_N n)%Z else Z.of_N n) <$> digits ds.
Proof.
  intros Hne Hds. unfold sign_chars. case_decide; [done|].
  destruct ds as [|c ds]; [done|]. apply Forall_cons in Hds as [Hc _]. cbn [app].
  rewrite signed_digit by done. by destruct (digits _).
Qed.

Lemma no_space_digits ds : digit_chars ds -> Forall (fun c => is_space c = false) ds.
Proof. apply digit_chars_Forall. decide_prop. Qed.

Lemma no_space_sign z : Forall (fun c => is_space c = false) (sign_chars z).
Proof. unfold sign_chars. case_decide; decide_prop. Qed.

Lemma parse_int_pretty z : parse_int (chars_of (pretty z)) = Some z.
Proof.
  destruct (pretty_Z_shape z) as (ds & Hz & Hne & Hds & Hdig).
  unfold parse_int. rewrite Hz, strip_id by (apply Forall_app; split; [apply no_space_sign|by apply no_space_digits]).
  rewrite signed_sign, Hdig by done. simpl. f_equal. case_decide; lia.
Qed.

Lemma split_at_dot_app cs r :
  Forall (fun c => c <> "."%char) cs -> split_at_dot (cs ++ "."%char :: r) = (cs, Some r).
Proof.
  induction cs as [|c cs IH]; [done|]. intros [Hc Hcs]%Forall_cons. simpl.
  rewrite decide_False by done. by rewrite IH.
Qed.

Lemma split_at_exp_none cs :
  Forall (fun c => c <> "e"%char /\ c <> "E"%char) cs -> split_at_exp cs = (cs, None).
Proof.
  induction cs as [|c cs IH]; [done|]. intros [Hc Hcs]%Forall_cons. simpl.
  rewrite decide_False by naive_solver. by rewrite IH.
Qed.

Lemma digits_dot ds r : digit_chars ds -> digits (ds ++ "."%char :: r) = None.
Proof. intros Hds. destruct ds as [|c ds]; [done|]. exact (digits_go_dot 0 (c :: ds) r Hds). Qed.

Lemma digit_chars_forallb ds : digit_chars ds -> forallb is_digit ds = true.
Proof.
  induction 1 as [|c ds Hc _ IH]; [done|]. simpl. rewrite IH, andb_true_r.
  by apply bool_decide_eq_true.
Qed.

(** The fact the float text lemmas share: the shape of [repr] of an
    integral float. *)
Lemma float_text_shape (z : Z) :
  exists ds, chars_of (pretty z) ++ chars_of ".0" = sign_chars z ++ ds ++ [".";"0"]%char /\
    ds <> [] /\ digit_chars ds /\ digits ds = Some (Z.abs_N z) /\
    Forall (fun c => is_space c = false) (sign_chars z ++ ds ++ [".";"0"]%char).
Proof.
  destruct (pretty_Z_shape z) as (ds & Hz & Hne & Hds & Hdig). exists ds.
  rewrite Hz, <-app_assoc. split_and!; try done.
  apply Forall_app; split; [apply no_space_sign|]. apply Forall_app; split; [by apply no_space_digits|].
  decide_prop.
Qed.

Lemma parse_int_float_text (z : Z) : parse_int (chars_of (pretty z) ++ chars_of ".0") = None.
Proof.
  destruct (float_text_shape z) as (ds & -> & Hne & Hds & _ & Hsp). unfold parse_int.
  rewrite strip_id by done. unfold sign_chars. destruct ds as [|c ds]; [done|].
  pose proof Hds as [Hc _]%Forall_cons. case_decide.
  - change (((fun n => (- Z.of_N n)%Z) <$> digits ((c :: ds) ++ "."%char :: ["0"%char])) = None).
    by rewrite digits_dot.
  - change (signed (c :: ds ++ "."%char :: ["0"%char]) = None). rewrite signed_digit by done.
    change (Z.of_N <$> digits ((c :: ds) ++ "."%char :: ["0"%char]) = None). by rewrite digits_dot.
Qed.

Lemma parse_integral_float_text (z : Z) :
  parse_integral_float (chars_of (pretty z) ++ chars_of ".0") = Some z.
Proof.
  destruct (float_text_shape z) as (ds & -> & Hne & Hds & Hdig & Hsp).
  unfold parse_integral_float. rewrite strip_id by done. rewrite app_assoc, split_at_dot_app.
  - simpl. rewrite signed_sign, Hdig by done. simpl. f_equal. case_decide; lia.
  - apply Forall_app; split; [unfold sign_chars; case_decide; decide_prop|].
    apply digit_chars_Forall; [decide_prop|done].
Qed.

Lemma float_like_text (z : Z) : float_like (chars_of (pretty z) ++ chars_of ".0") = true.
Proof.
  destruct (float_text_shape z) as (ds & -> & Hne & Hds & Hdig & Hsp).
  unfold float_like. rewrite strip_id by done.
  assert (Hbody : drop_sign (sign_chars z ++ ds ++ [".";"0"]%char) = ds ++ [".";"0"]%char).
  { unfold sign_chars. case_decide; [done|]. destruct ds as [|c ds]; [done|].
    apply Forall_cons in Hds as [Hc _]. apply digit_char_cases in Hc.
    repeat (apply elem_of_cons in Hc as [->|Hc]; [done|]). set_solver. }
  rewrite Hbody, split_at_exp_none.
  - rewrite split_at_dot_app by (apply digit_chars_Forall; [decide_prop|done]).
    cbn [default]. rewrite !andb_true_r.
    rewrite digit_chars_forallb by done. rewrite bool_decide_eq_true_2; [done|]. by destruct ds.
  - apply Forall_app; split; [apply digit_chars_Forall; [decide_prop|done]|decide_prop].
Qed.

Lemma is_na_not_number cs : is_na cs = true -> parse_int cs = None /\ parse_integral_float cs = None.
Proof.
  unfold is_na. intros Hna%bool_decide_eq_true.
  assert (Hcs : cs ∈ chars_of <$> na_values).
  { rewrite <-(String.list_ascii_of_string_of_list_ascii cs). by apply list_elem_of_fmap_2. }
  assert (Hall : Forall (fun f => parse_int f = None /\ parse_integral_float f = None)
                        (chars_of <$> na_values)) by decide_prop.
  by eapply Forall_forall in Hall.
Qed.

(** ** The tokenizer on what the writer writes *)

Ltac tok_simp :=
  try unfold set_state; try unfold push;
  cbn [mbind result_bind t_state t_field t_fields t_rows t_file_lines].

Lemma tok_run_app t xs ys : tok_run t (xs ++ ys) = tok_run t xs ≫= fun t' => tok_run t' ys.
Proof.
  revert t. induction xs as [|c xs IH]; intros t; [done|]. simpl.
  destruct (tok_step t c); [apply IH|done].
Qed.

Lemma not_special c : is_special c = false -> c <> LF /\ c <> CR /\ c <> COMMA /\ c <> QUOTE.
Proof. unfold is_special. rewrite bool_decide_eq_false. set_solver. Qed.

Lemma blank_not_special c : is_blank c = true -> is_special c = false.
Proof. unfold is_blank. intros [-> | ->]%bool_decide_eq_true; reflexivity. Qed.

Lemma needs_quotes_false f : needs_quotes f = false -> Forall (fun c => is_special c = false) f.
Proof.
  induction f as [|c f IH]; [constructor|]. simpl. intros [Hc Hf]%orb_false_elim.
  constructor; [done|by apply IH].
Qed.

(** Inside an unquoted field, ordinary characters are kept. *)
Lemma in_field_run t f :
  t_state t = InField -> Forall (fun c => is_special c = false) f ->
  tok_run t f = Ok (mk_tok InField (t_field t ++ f) (t_fields t) (t_rows t) (t_file_lines t)).
Proof.
  destruct t as [st fd fds rows fl]; simpl. intros ->. revert fd.
  induction f as [|c f IH]; intros fd Hf; [by rewrite app_nil_r|].
  apply Forall_cons in Hf as [(Hlf & Hcr & Hcm & _)%not_special Hf].
  cbn [tok_run tok_step t_state]. unfold in_field. rewrite !decide_False by done.
  tok_simp. rewrite IH by done. by rewrite <-app_assoc.
Qed.

(** Inside a quoted field, a doubled quote is one quote. *)
Lemma quoted_run t f :
  t_state t = InQuotedField ->
  tok_run t (escape_quotes f) =
  Ok (mk_tok InQuotedField (t_field t ++ f) (t_fields t) (t_rows t) (t_file_lines t)).
Proof.
  destruct t as [st fd fds rows fl]; simpl. intros ->. revert fd.
  induction f as [|c f IH]; intros fd; [by rewrite app_nil_r|]. cbn [escape_quotes].
  case_decide as Hq.
  - subst. cbn [tok_run tok_step t_state]. unfold in_quoted_field. rewrite decide_True by done.
    tok_simp. cbn [tok_run tok_step t_state]. unfold quote_in_quoted_field.
    rewrite decide_True by done.
    tok_simp. rewrite IH. by rewrite <-app_assoc.
  - cbn [tok_run tok_step t_state]. unfold in_quoted_field. rewrite decide_False by done.
    tok_simp. rewrite IH. by rewrite <-app_assoc.
Qed.

(** One written field read from the start of a field: the tokenizer
    ends up holding the field, ready for the delimiter or line end. *)
Lemma field_run t f :
  t_state t = StartField -> t_field t = [] ->
  exists t1, tok_run t (write_field f) = Ok t1 /\
    forall c, c = COMMA \/ c = LF -> tok_step t1 c = in_field c (with_field f t).
Proof.
  destruct t as [st fd fds rows fl]; simpl. intros -> ->. unfold write_field.
  destruct (needs_quotes f) eqn:Hq.
  - cbn [tok_run tok_step t_state]. unfold start_field.
    rewrite !decide_False, decide_True by done. tok_simp.
    rewrite tok_run_app, quoted_run by done. tok_simp. cbn [tok_run tok_step t_state].
    unfold in_quoted_field. rewrite decide_True by done. tok_simp.
    eexists; split; [reflexivity|]. intros c [-> | ->]; reflexivity.
  - apply needs_quotes_false in Hq. destruct f as [|x f].
    + eexists; split; [reflexivity|]. intros c [-> | ->]; reflexivity.
    + apply Forall_cons in Hq as [Hx Hf]. pose proof (not_special _ Hx) as (? & ? & ? & ?).
      cbn [tok_run tok_step t_state]. unfold start_field. rewrite !decide_False by done.
      cbn. rewrite in_field_run by done. cbn.
      eexists; split; [reflexivity|]. intros c _. reflexivity.
Qed.

(** A line starting with a character that is not blank starts a field. *)
Lemma start_record_plain t c rest :
  t_state t = StartRecord -> c <> LF -> c <> CR -> is_blank c = false ->
  tok_run t (c :: rest) = tok_run (set_state StartField t) (c :: rest).
Proof.
  intros Hst Hlf Hcr Hb. cbn [tok_run]. unfold tok_step at 1. rewrite Hst. unfold start_record.
  rewrite !decide_False, Hb by done. reflexivity.
Qed.

(** Blanks at the start of a line. *)
Lemma blanks_run t ws bs :
  t_state t = WhitespaceLine ws -> Forall (fun c => is_blank c = true) bs ->
  tok_run t bs = Ok (set_state (WhitespaceLine (ws ++ bs)) t).
Proof.
  destruct t as [st fd fds rows fl]; simpl. intros ->. revert ws.
  induction bs as [|b bs IH]; intros ws Hbs; [by rewrite app_nil_r|].
  apply Forall_cons in Hbs as [Hb Hbs]. pose proof (not_special _ (blank_not_special _ Hb)) as (? & ? & _).
  cbn [tok_run tok_step t_state]. unfold whitespace_line. rewrite !decide_False, Hb by done.
  tok_simp. rewrite IH by done. by rewrite <-app_assoc.
Qed.

Lemma blank_split f :
  exists bs rest, f = bs ++ rest /\ Forall (fun c => is_blank c = true) bs /\
    match rest with [] => True | y :: _ => is_blank y = false end.
Proof.
  induction f as [|c f (bs & rest & -> & Hbs & Hrest)]; [by exists [], []|].
  destruct (is_blank c) eqn:Hc.
  - exists (c :: bs), rest. split_and!; [done|by constructor|done].
  - by exists [], (c :: bs ++ rest).
Qed.

(** The first field of a line, read from the start of the line. *)
Lemma first_field_run t f :
  t_state t = StartRecord -> t_field t = [] ->
  exists t1, tok_run t (write_field f) = Ok t1 /\
    forall c, c = COMMA \/ (c = LF /\ existsb (fun x => negb (is_blank x)) f = true) ->
    tok_step t1 c = in_field c (with_field f t).
Proof.
  intros Hst Hfd. destruct (needs_quotes f) eqn:Hq.
  - unfold write_field. rewrite Hq, start_record_plain by done.
    destruct (field_run (set_state StartField t) f) as (t1 & Hrun & Hstep); [done|done|].
    unfold write_field in Hrun. rewrite Hq in Hrun. exists t1. split; [done|].
    intros c Hc. rewrite Hstep by naive_solver. reflexivity.
  - pose proof Hq as Hspec%needs_quotes_false. unfold write_field. rewrite Hq.
    destruct (blank_split f) as (bs & rest & -> & Hbs & Hrest).
    destruct bs as [|b bs].
    + destruct rest as [|y rest].
      * exists t. split; [done|]. intros c [-> | [_ Hne]]; [|done].
        destruct t as [st fd fds rows fl]; simpl in *; subst. reflexivity.
      * cbn [app] in *. apply Forall_cons in Hspec as [Hy Hspec].
        pose proof (not_special _ Hy) as (? & ? & _).
        rewrite start_record_plain by done.
        destruct (field_run (set_state StartField t) (y :: rest)) as (t1 & Hrun & Hstep); [done|done|].
        unfold write_field in Hrun. rewrite Hq in Hrun.
        exists t1. split; [done|]. intros c Hc. rewrite Hstep by naive_solver. reflexivity.
    + apply Forall_cons in Hbs as [Hb Hbs].
      pose proof (not_special _ (blank_not_special _ Hb)) as (? & ? & _).
      destruct t as [st fd fds rows fl]; simpl in Hst, Hfd; subst.
      cbn [app tok_run tok_step t_state]. unfold start_record. rewrite !decide_False, Hb by done.
      tok_simp. rewrite tok_run_app, (blanks_run _ [b]) by done. tok_simp.
      destruct rest as [|y rest].
      * exists (mk_tok (WhitespaceLine ([b] ++ bs)) [] fds rows fl). rewrite app_nil_r. split; [done|].
        intros c [-> | [-> Hne]].
        -- reflexivity.
        -- exfalso. rewrite ?app_nil_r in Hne. apply existsb_exists in Hne as (x & Hx & Hnb).
           apply list_elem_of_In in Hx. apply negb_true_iff in Hnb.
           rewrite elem_of_cons in Hx. destruct Hx as [->|Hx]; [congruence|].
           eapply Forall_forall in Hbs; [|exact Hx]. congruence.
      * apply Forall_app in Hspec as [_ Hspec]. apply Forall_cons in Hspec as [Hy Hspec].
        pose proof (not_special _ Hy) as (? & ? & ? & _).
        cbn [tok_run tok_step t_state]. unfold whitespace_line. rewrite !decide_False, Hrest by done.
        unfold in_field. rewrite !decide_False by done. tok_simp.
        rewrite in_field_run by done. tok_simp.
        eexists; split; [reflexivity|]. intros c _. unfold with_field.
        match goal with |- tok_step (mk_tok _ ?l _ _ _) _ = _ =>
          replace l with ([b] ++ bs ++ y :: rest) by (by rewrite <-!app_assoc) end.
        reflexivity.
Qed.

Lemma end_field_with_field f t :
  end_field (with_field f t) = mk_tok InField [] (t_fields t ++ [f]) (t_rows t) (t_file_lines t).
Proof. reflexivity. Qed.

Lemma bind_Ok_r {A} (r : result A) : (r ≫= fun a => Ok a) = r.
Proof. by destruct r. Qed.

(** The fields after the first one, up to the end of the line. *)
Lemma join_run t fs :
  t_state t = StartField -> t_field t = [] -> fs <> [] ->
  tok_run t (join_fields fs ++ [LF]) =
  end_line (mk_tok InField [] (t_fields t ++ fs) (t_rows t) (t_file_lines t)).
Proof.
  revert t. induction fs as [|f fs IH]; intros t Hst Hfd Hne; [done|].
  destruct (field_run t f Hst Hfd) as (t1 & Hrun & Hstep).
  destruct fs as [|g fs].
  - cbn [join_fields]. rewrite tok_run_app, Hrun. cbn [mbind result_bind tok_run].
    rewrite Hstep by auto. unfold in_field. rewrite decide_True by done.
    by rewrite end_field_with_field, bind_Ok_r.
  - change (join_fields (f :: g :: fs)) with (write_field f ++ COMMA :: join_fields (g :: fs)).
    rewrite <-app_assoc, tok_run_app, Hrun. cbn [mbind result_bind app tok_run].
    rewrite Hstep by auto. unfold in_field. rewrite !decide_False, decide_True by done.
    cbn [mbind result_bind]. rewrite IH by done. cbn. by rewrite <-app_assoc.
Qed.

(** A whole line, read from its start. *)
Lemma line_run t fs :
  t_state t = StartRecord -> t_field t = [] -> t_fields t = [] -> row_ok fs = true ->
  tok_run t (write_row fs) = end_line (mk_tok InField [] fs (t_rows t) (t_file_lines t)).
Proof.
  intros Hst Hfd Hfds Hok.
  destruct fs as [|f fs]; [done|].
  destruct (decide (f :: fs = [[]])) as [Heq|Hne].
  - injection Heq as -> ->. destruct t as [st fd fds rows fl]; simpl in *; subst.
    rewrite <-(bind_Ok_r (end_line _)). reflexivity.
  - assert (Hw : write_row (f :: fs) = join_fields (f :: fs) ++ [LF])
      by (destruct f, fs; naive_solver).
    rewrite Hw. destruct (first_field_run t f Hst Hfd) as (t1 & Hrun & Hstep).
    destruct fs as [|g fs].
    + cbn [join_fields]. rewrite tok_run_app, Hrun. cbn [mbind result_bind tok_run].
      rewrite Hstep.
      * unfold in_field. rewrite decide_True by done.
        by rewrite end_field_with_field, bind_Ok_r, Hfds.
      * right. split; [done|]. simpl in Hok. destruct f; [done|]. by rewrite orb_false_l in Hok.
    + change (join_fields (f :: g :: fs)) with (write_field f ++ COMMA :: join_fields (g :: fs)).
      rewrite <-app_assoc, tok_run_app, Hrun. cbn [mbind result_bind app tok_run].
      rewrite Hstep by auto. unfold in_field. rewrite !decide_False, decide_True by done.
      cbn [mbind result_bind]. rewrite join_run by done. cbn. by rewrite Hfds.
Qed.

(** A line as long as the previous one is stored as it is. *)
Lemma end_line_uniform s fs rows fl :
  rows = [] \/ length <$> last rows = Some (length fs) ->
  end_line (mk_tok s [] fs rows fl) = Ok (mk_tok StartRecord [] [] (rows ++ [fs]) (S fl)).
Proof.
  unfold end_line. cbn [t_fields t_rows t_file_lines]. intros [->|Hlast].
  - reflexivity.
  - rewrite Hlast. cbn [default].
    rewrite (decide_False (P := (2 <= length rows /\ length fs < length fs))) by lia.
    rewrite Nat.sub_diag. cbn [replicate]. rewrite app_nil_r. by case_decide.
Qed.

(** Lines of one length, none of them blank, are read back as written. *)
Lemma rows_run k rs acc fl :
  Forall (fun r => length r = k /\ row_ok r = true) rs ->
  acc = [] \/ length <$> last acc = Some k ->
  tok_run (mk_tok StartRecord [] [] acc fl) (mjoin (write_row <$> rs)) =
  Ok (mk_tok StartRecord [] [] (acc ++ rs) (fl + length rs)).
Proof.
  revert acc fl. induction rs as [|r rs IH]; intros acc fl Hrs Hacc.
  - cbn. by rewrite app_nil_r, Nat.add_0_r.
  - apply Forall_cons in Hrs as [[Hlen Hok] Hrs].
    change (mjoin (write_row <$> r :: rs)) with (write_row r ++ mjoin (write_row <$> rs)).
    rewrite tok_run_app, line_run by done. cbn [t_rows t_file_lines].
    rewrite end_line_uniform; [|rewrite Hlen; exact Hacc]. cbn [mbind result_bind].
    rewrite IH; [|done|right; rewrite last_snoc; simpl; by rewrite Hlen].
    rewrite <-app_assoc. do 2 f_equal. simpl. lia.
Qed.

Lemma tokenize_rows k rs :
  Forall (fun r => length r = k /\ row_ok r = true) rs ->
  tokenize (mjoin (write_row <$> rs)) = Ok rs.
Proof.
  intros Hrs. unfold tokenize, tok_init. rewrite (rows_run k) by auto. reflexivity.
Qed.

(** ** The dtype of a written column *)

Lemma forallb_false_elem {A} (p : A -> bool) l x : x ∈ l -> p x = false -> forallb p l = false.
Proof.
  intros Hx Hp. destruct (forallb p l) eqn:E; [|done].
  apply forallb_forall with (x := x) in E; [congruence|by apply list_elem_of_In].
Qed.

Lemma is_na_pretty (z : Z) : is_na (chars_of (pretty z)) = false.
Proof.
  destruct (is_na _) eqn:E; [|done]. apply is_na_not_number in E as [E _].
  by rewrite parse_int_pretty in E.
Qed.

Lemma is_na_float_text (z : Z) : is_na (chars_of (pretty z) ++ chars_of ".0") = false.
Proof.
  destruct (is_na _) eqn:E; [|done]. apply is_na_not_number in E as [_ E].
  by rewrite parse_integral_float_text in E.
Qed.

Lemma plain_string_spec s :
  plain_string s = true ->
  is_na (chars_of s) = false /\ parse_int (chars_of s) = None /\
  float_like (chars_of s) = false /\ bool_like (chars_of s) = false.
Proof.
  unfold plain_string. intros H. rewrite !andb_true_iff in H.
  destruct H as ((((Hna & Hint) & Hfl) & Hbool) & _).
  apply negb_true_iff in Hna, Hfl, Hbool. apply bool_decide_eq_true in Hint. done.
Qed.

(** A column of strings and NaN. *)
Lemma infer_string_column cs :
  Forall (fun x => match x with Some (VStr s) => plain_string s = true | None => True | _ => False end) cs ->
  (exists s, Some (VStr s) ∈ cs) ->
  infer_column (format_cell false <$> cs) = Some cs.
Proof.
  intros Hcs [s Hs]. pose proof (proj1 (Forall_forall _ _) Hcs _ Hs) as Hplain.
  simpl in Hplain. destruct (plain_string_spec s Hplain) as (Hna & Hint & Hfl & Hbool).
  assert (Hin : chars_of s ∈ filter (fun f => negb (is_na f)) (format_cell false <$> cs)).
  { apply list_elem_of_filter. rewrite Hna. split; [done|].
    by apply (list_elem_of_fmap_2 (format_cell false) cs (Some (VStr s))). }
  unfold infer_column.
  rewrite (forallb_false_elem _ _ _ Hin) by (by rewrite Hint).
  rewrite (forallb_false_elem _ _ _ Hin) by done.
  rewrite (forallb_false_elem _ _ _ Hin) by done.
  f_equal. transitivity (id <$> cs); [|apply list_fmap_id].
  rewrite <-list_fmap_compose. apply Forall_fmap_ext_1.
  eapply Forall_impl; [exact Hcs|]. intros [[z|s']|] Hx; simpl in *; [done| |done].
  destruct (plain_string_spec s' Hx) as (-> & _). by rewrite String.string_of_list_ascii_of_string.
Qed.

Lemma forallb_Forall {A} (p : A -> bool) l : forallb p l = true <-> Forall (fun x => p x = true) l.
Proof.
  rewrite forallb_forall, Forall_forall. by setoid_rewrite list_elem_of_In.
Qed.

Lemma existsb_Exists {A} (p : A -> bool) l : existsb p l = true <-> Exists (fun x => p x = true) l.
Proof.
  rewrite existsb_exists, Exists_exists. by setoid_rewrite list_elem_of_In.
Qed.

Lemma filter_na_nil fs : Forall (fun f => is_na f = true) fs -> filter (fun f => negb (is_na f)) fs = [].
Proof.
  induction 1 as [|f fs Hf _ IH]; [done|]. rewrite filter_cons_False; [done|]. rewrite Hf. by intros [].
Qed.

Lemma filter_na_all fs : Forall (fun f => is_na f = false) fs -> filter (fun f => negb (is_na f)) fs = fs.
Proof.
  induction 1 as [|f fs Hf _ IH]; [done|]. rewrite filter_cons_True; [by rewrite IH|]. rewrite Hf. exact I.
Qed.

(** The cells of a float64 column read back from their text. *)
Lemma float_field_text x :
  match x with Some (VInt z) => in_range (- float_exact) float_exact z = true | None => True | _ => False end ->
  float_field (format_cell true x) = Some x.
Proof.
  destruct x as [[z|s]|]; simpl; [|done|done]. intros Hz. unfold float_field.
  rewrite is_na_float_text, parse_int_float_text, parse_integral_float_text. simpl. by rewrite Hz.
Qed.

(** A column of NaN only (float64). *)
Lemma infer_nan_column cs float :
  Forall (fun x => x = None) cs -> infer_column (format_cell float <$> cs) = Some cs.
Proof.
  intros Hcs. destruct cs as [|x cs']; [reflexivity|].
  assert (Hx : x = None) by (by inversion Hcs). subst x.
  unfold infer_column. rewrite filter_na_nil.
  - cbn [forallb]. destruct (existsb is_na _) eqn:E; [|vm_compute in E; discriminate E].
    apply mapM_fmap_Forall_Some. eapply Forall_impl; [exact Hcs|]. by intros ? ->.
  - apply Forall_fmap. eapply Forall_impl; [exact Hcs|]. by intros ? ->.
Qed.

(** A float64 column: integers and at least one NaN. *)
Lemma infer_float_column cs z :
  Forall (fun x => match x with Some (VInt z) => in_range (- float_exact) float_exact z = true
                                | None => True | _ => False end) cs ->
  Some (VInt z) ∈ cs -> infer_column (format_cell true <$> cs) = Some cs.
Proof.
  intros Hcs Hz. unfold infer_column.
  assert (Hin : chars_of (pretty z) ++ chars_of ".0" ∈ filter (fun f => negb (is_na f)) (format_cell true <$> cs)).
  { apply list_elem_of_filter. rewrite is_na_float_text. split; [done|].
    by apply (list_elem_of_fmap_2 (format_cell true) cs (Some (VInt z))). }
  rewrite (forallb_false_elem _ _ _ Hin) by (by rewrite parse_int_float_text).
  assert (Hfl : forallb float_like (filter (fun f => negb (is_na f)) (format_cell true <$> cs)) = true).
  { apply forallb_Forall, Forall_forall. intros f (Hna & Hf)%list_elem_of_filter.
    apply list_elem_of_fmap_1 in Hf as (x & -> & Hx).
    eapply Forall_forall in Hcs; [|exact Hx]. destruct x as [[z'|s]|]; simpl in *; try done.
    apply float_like_text. }
  rewrite Hfl. apply mapM_fmap_Forall_Some. eapply Forall_impl; [exact Hcs|]. apply float_field_text.
Qed.

Lemma omap_parse_int_pretty (zs : list Z) : omap parse_int ((fun z : Z => chars_of (pretty z)) <$> zs) = zs.
Proof.
  induction zs as [|z zs IH]; [done|]. simpl. rewrite parse_int_pretty. f_equal. exact IH.
Qed.

(** An int64 column: integers, no NaN. *)
Lemma infer_int_column cs :
  Forall (fun x => match x with Some (VInt z) => in_range int64_min int64_max z = true
                                | _ => False end) cs ->
  infer_column (format_cell false <$> cs) = Some cs.
Proof.
  intros Hcs. unfold infer_column.
  assert (Hshape : exists zs, cs = (fun z => Some (VInt z)) <$> zs /\ Forall (fun z => in_range int64_min int64_max z = true) zs).
  { induction Hcs as [|x cs Hx _ (zs & -> & Hzs)]; [by exists []|].
    destruct x as [[z|]|]; try done. exists (z :: zs). split; [done|by constructor]. }
  destruct Hshape as (zs & -> & Hzs).
  assert (Hfs : format_cell false <$> ((fun z => Some (VInt z)) <$> zs) = (fun z => chars_of (pretty z)) <$> zs).
  { rewrite <-list_fmap_compose. apply Forall_fmap_ext_1, Forall_forall. intros z _. simpl. by rewrite app_nil_r. }
  rewrite Hfs, filter_na_all by (apply Forall_fmap, Forall_forall; intros z _; apply is_na_pretty).
  assert (Hint : forallb (fun f => bool_decide (is_Some (parse_int f))) ((fun z => chars_of (pretty z)) <$> zs) = true).
  { apply forallb_Forall, Forall_fmap, Forall_forall. intros z _. simpl. rewrite parse_int_pretty.
    by apply bool_decide_eq_true. }
  rewrite Hint.
  assert (Hna : existsb is_na ((fun z => chars_of (pretty z)) <$> zs) = false).
  { apply not_true_iff_false. rewrite existsb_Exists, Exists_fmap, Exists_exists.
    intros (z & _ & Hz). simpl in Hz. by rewrite is_na_pretty in Hz. }
  rewrite Hna.
  rewrite omap_parse_int_pretty. apply forallb_Forall in Hzs. by rewrite Hzs.
Qed.

Lemma forallb_false_exists {A} (p : A -> bool) l : forallb p l = false -> exists x, x ∈ l /\ p x = false.
Proof.
  induction l as [|x l IH]; [done|]. simpl. intros [Hx|Hl]%andb_false_iff.
  - exists x. split; [left|done].
  - destruct (IH Hl) as (y & Hy & Hp). exists y. split; [by right|done].
Qed.

Lemma existsb_str_elem cs : existsb is_str_cell cs = true -> exists s, Some (VStr s) ∈ cs.
Proof.
  intros (x & Hx & Hs)%existsb_Exists%Exists_exists. destruct x as [[z|s]|]; try done. by exists s.
Qed.

(** Every column [csv_column] admits is read back as written. *)
Lemma infer_csv_column c :
  csv_column c = true -> infer_column (format_cell (is_float_column c.2) <$> c.2) = Some c.2.
Proof.
  destruct c as [name cs]. unfold csv_column, is_float_column. cbn [fst snd].
  intros [Hplain Hkind]%andb_true_iff. apply forallb_Forall in Hplain.
  destruct (forallb is_str_or_none cs) eqn:Hs.
  - apply forallb_Forall in Hs. destruct (existsb is_str_cell cs) eqn:Hstr.
    + apply infer_string_column; [|by apply existsb_str_elem].
      apply Forall_forall. intros [[z|s]|] Hx; [| |done].
      * by eapply Forall_forall in Hs; [|exact Hx].
      * by eapply Forall_forall in Hplain; [|exact Hx].
    + apply infer_nan_column, Forall_forall. intros [[z|s]|] Hx; [| |done].
      * by eapply Forall_forall in Hs; [|exact Hx].
      * exfalso. apply not_true_iff_false in Hstr. apply Hstr, existsb_Exists, Exists_exists.
        by exists (Some (VStr s)).
  - cbn [orb] in Hkind.
    assert (Hz : exists z, Some (VInt z) ∈ cs).
    { apply forallb_false_exists in Hs as ([[z|s]|] & Hx & Hp); try done. by exists z. }
    destruct Hz as [z Hz].
    destruct (existsb is_none_cell cs) eqn:Hn; apply forallb_Forall in Hkind.
    + assert (Hstr : existsb is_str_cell cs = false).
      { apply not_true_iff_false. intros (s & Hs')%existsb_str_elem.
        by eapply Forall_forall in Hkind; [|exact Hs']. }
      rewrite Hstr. apply (infer_float_column _ z); [|done].
      apply Forall_forall. intros [[z'|s]|] Hx; [| |done];
        by eapply Forall_forall in Hkind; [|exact Hx].
    + rewrite andb_false_r. apply infer_int_column, Forall_forall. intros [[z'|s]|] Hx.
      * by eapply Forall_forall in Hkind; [|exact Hx].
      * by eapply Forall_forall in Hkind; [|exact Hx].
      * apply not_true_iff_false in Hn. apply Hn, existsb_Exists, Exists_exists. by exists None.
Qed.

(** ** Reading back what [to_csv] writes *)

Lemma cells_seq (c : column) n : length c.2 = n -> (fun i => cell_at c i) <$> seq 0 n = c.2.
Proof.
  intros Hlen. apply list_eq. intros i. rewrite list_lookup_fmap.
  destruct (decide (i < n)) as [Hi|Hi].
  - rewrite lookup_seq_lt by done. simpl. unfold cell_at.
    destruct (c.2 !! i) eqn:E; [done|]. apply lookup_ge_None in E. unfold column, cell in *. lia.
  - rewrite lookup_seq_ge by lia. symmetry. apply lookup_ge_None. unfold column, cell in *. lia.
Qed.

Lemma row_fields_lookup df i j c :
  columns df !! j = Some c ->
  row_fields df i !! j = Some (format_cell (is_float_column c.2) (cell_at c i)).
Proof.
  intros Hc. unfold row_fields. rewrite list_lookup_fmap. unfold column, cell in *. by rewrite Hc.
Qed.

(** Column [j] of the rows [to_csv] writes is the text of column [j]. *)
Lemma column_fields_rows df j c :
  frame_wf df -> columns df !! j = Some c ->
  column_fields (row_fields df <$> seq 0 (nrows df)) j = format_cell (is_float_column c.2) <$> c.2.
Proof.
  intros Hwf Hc. unfold column_fields. rewrite <-list_fmap_compose.
  remember (is_float_column c.2) as fl eqn:Hfl.
  rewrite <-(cells_seq c (nrows df)), <-list_fmap_compose.
  - apply list_fmap_ext. intros _ i _. cbn. pose proof (row_fields_lookup df i j c Hc) as Hr.
    unfold chars in *. rewrite Hr. by subst fl.
  - eapply Forall_forall in Hwf; [exact Hwf|]. by eapply list_elem_of_lookup_2.
Qed.

Lemma imap_chars (g : nat -> chars -> string) names :
  (forall i n, chars_of n <> [] -> g i (chars_of n) = n) ->
  Forall (fun n => chars_of n <> []) names -> imap g (chars_of <$> names) = names.
Proof.
  intros Hg Hn. revert g Hg. induction Hn as [|n names Hn _ IH]; intros g Hg; [done|].
  rewrite fmap_cons, imap_cons. f_equal; [by apply Hg|]. apply IH. intros i m Hm. by apply Hg.
Qed.

Lemma header_names_chars names :
  Forall (fun n => chars_of n <> []) names -> header_names (chars_of <$> names) = names.
Proof.
  apply imap_chars. intros i n Hn. destruct (chars_of n) eqn:E; [done|].
  rewrite <-E. apply String.string_of_list_ascii_of_string.
Qed.

Lemma row_ok_long r : 2 <= length r -> row_ok r = true.
Proof. destruct r as [|a [|b r]]; simpl; [lia|lia|done]. Qed.

Lemma digit_not_blank ds : digit_chars ds -> Forall (fun c => is_blank c = false) ds.
Proof. apply digit_chars_Forall. decide_prop. Qed.

(** A cell [csv_column] admits, alone on its line, is not a blank line. *)
Lemma row_ok_cell fl x :
  match x with Some (VStr s) => plain_string s = true | _ => True end ->
  row_ok [format_cell fl x] = true.
Proof.
  destruct x as [[z|s]|]; simpl; intros Hx; [|..|done].
  - destruct (pretty_Z_shape z) as (ds & -> & Hne & Hds & _).
    apply orb_true_iff. right. apply existsb_Exists, Exists_app. left.
    apply Exists_app. right. destruct ds as [|d ds]; [done|]. apply Exists_cons_hd.
    apply Forall_cons in Hds as [Hd _].
    assert (Hb : is_blank d = false).
    { assert (Hb : Forall (fun c => is_blank c = false) [d]) by (apply digit_not_blank; by constructor).
      by inversion Hb. }
    by rewrite Hb.
  - apply orb_true_iff. right. unfold plain_string in Hx. by apply andb_true_iff in Hx as [_ Hx].
Qed.

Lemma csv_column_cell c x :
  csv_column c = true -> x ∈ c.2 -> match x with Some (VStr s) => plain_string s = true | _ => True end.
Proof.
  intros [Hc _]%andb_true_iff Hx. apply forallb_Forall in Hc.
  eapply Forall_forall in Hc; [|exact Hx]. destruct x as [[]|]; simpl in *; done.
Qed.

Lemma to_csv_chars_rows df :
  to_csv_chars df =
  mjoin (write_row <$> ((chars_of <$> col_names df) :: (row_fields df <$> seq 0 (nrows df)))).
Proof. unfold to_csv_chars. rewrite fmap_cons. cbn [mjoin list_join]. by rewrite <-list_fmap_compose. Qed.

(** The lines [to_csv] writes for a frame of [csv_frame]. *)
Lemma csv_lines_ok df :
  csv_frame df = true ->
  Forall (fun r => length r = length (columns df) /\ row_ok r = true)
         ((chars_of <$> col_names df) :: (row_fields df <$> seq 0 (nrows df))).
Proof.
  unfold csv_frame. rewrite !andb_true_iff.
  intros ((((Hwf & Hne) & Hnd) & Hnames) & Hcols).
  apply bool_decide_eq_true in Hne. apply forallb_Forall in Hnames, Hcols.
  constructor.
  - split; [unfold col_names; by rewrite !length_fmap|].
    unfold col_names. destruct (columns df) as [|[n cs] [|c2 cols]] eqn:Hc;
      [done| |apply row_ok_long; simpl; lia].
    simpl. apply orb_true_iff. right.
    unfold col_names in Hnames. rewrite Hc in Hnames. by inversion Hnames.
  - apply Forall_fmap, Forall_forall. intros i _. cbn. split; [by unfold row_fields; rewrite length_fmap|].
    unfold row_fields. destruct (columns df) as [|[n cs] [|c2 cols]] eqn:Hc; [done| |apply row_ok_long; simpl; lia].
    simpl. apply row_ok_cell. unfold cell_at. destruct ((n, cs).2 !! i) as [x|] eqn:Hx; [|done].
    apply (csv_column_cell (n, cs)); [by inversion Hcols|]. by eapply list_elem_of_lookup_2.
Qed.

(** The columns are read back from the lines. *)
Lemma csv_columns_back df :
  csv_frame df = true ->
  mapM (fun j => infer_column (column_fields (row_fields df <$> seq 0 (nrows df)) j))
       (seq 0 (length (chars_of <$> col_names df))) = Some (snd <$> columns df).
Proof.
  unfold csv_frame. rewrite !andb_true_iff. intros ((((Hwf & _) & _) & _) & Hcols).
  apply bool_decide_eq_true in Hwf. apply forallb_Forall in Hcols.
  apply mapM_Some_2, Forall2_lookup. intros j.
  unfold col_names. rewrite !length_fmap.
  destruct (columns df !! j) as [c|] eqn:Hc.
  - assert (Hj : (snd <$> columns df) !! j = Some c.2) by (rewrite list_lookup_fmap; unfold column in Hc; by rewrite Hc).
    rewrite Hj.
    rewrite lookup_seq_lt by (by apply lookup_lt_is_Some_1). constructor.
    pose proof (column_fields_rows df j c Hwf Hc) as Hcf. unfold chars, column, cell in *.
    change (0 + j) with j. rewrite Hcf. apply infer_csv_column.
    rewrite Forall_forall in Hcols. apply Hcols. by eapply list_elem_of_lookup_2.
  - assert (Hj : (snd <$> columns df) !! j = None) by (rewrite list_lookup_fmap; unfold column in Hc; by rewrite Hc).
    rewrite Hj, lookup_seq_ge by (by apply lookup_ge_None_1). constructor.
Qed.

Lemma read_to_csv df : csv_frame df = true -> read_csv (to_csv df) = Some (Ok df).
Proof.
  intros Hdf. unfold read_csv, to_csv. rewrite String.list_ascii_of_string_of_list_ascii.
  unfold read_csv_chars. rewrite to_csv_chars_rows, (tokenize_rows (length (columns df)))
    by (by apply csv_lines_ok).
  pose proof (csv_lines_ok df Hdf) as [[Hh _] Hrows]%Forall_cons.
  assert (Hlong : existsb (fun r => bool_decide (length (chars_of <$> col_names df) < length r))
                          (row_fields df <$> seq 0 (nrows df)) = false).
  { apply not_true_iff_false. intros (r & Hr & Hlt)%existsb_Exists%Exists_exists.
    eapply Forall_forall in Hrows as [Hlen _]; [|exact Hr]. apply bool_decide_eq_true in Hlt. lia. }
  rewrite Hlong. unfold csv_frame in Hdf. rewrite !andb_true_iff in Hdf.
  destruct Hdf as ((((Hwf & Hne) & Hnd) & Hnames) & Hcols).
  rewrite header_names_chars.
  - rewrite Hnd. pose proof (csv_columns_back df) as Hback.
    rewrite Hback by (unfold csv_frame; rewrite !andb_true_iff; tauto).
    cbn [mbind option_bind]. rewrite length_fmap, length_seq.
    unfold col_names. rewrite zip_fst_snd. by destruct df.
  - apply forallb_Forall in Hnames. eapply Forall_impl; [exact Hnames|].
    intros n Hn Hnil. revert Hn. cbv beta. by rewrite Hnil.
Qed.

(** ** Error paths of the reader *)

Lemma rows_from_start k rs :
  Forall (fun r => length r = k /\ row_ok r = true) rs ->
  tok_run tok_init (mjoin (write_row <$> rs)) = Ok (mk_tok StartRecord [] [] rs (length rs)).
Proof. intros Hrs. unfold tok_init. by rewrite (rows_run k) by auto. Qed.

Lemma last_uniform k rs :
  Forall (fun r => length r = k /\ row_ok r = true) rs -> rs <> [] ->
  length <$> last rs = Some k.
Proof.
  intros Hrs Hne. destruct (last rs) as [r|] eqn:Hl.
  - apply last_Some_elem_of in Hl. eapply Forall_forall in Hrs as [Hlen _]; [cbn; f_equal; exact Hlen|exact Hl].
  - by apply last_None in Hl.
Qed.

Lemma escape_quotes_id f : QUOTE ∉ f -> escape_quotes f = f.
Proof.
  induction f as [|c f IH]; [done|]. intros Hq. cbn [escape_quotes].
  rewrite decide_False by set_solver. f_equal. apply IH. set_solver.
Qed.

(** Where the tokenizer may be on a text of blanks and line ends: no
    line stored, and at the start of a line or among its blanks. *)
Definition blank_state (t : tokenizer) : Prop :=
  t_rows t = [] /\
  (t_state t = StartRecord \/ t_state t = EatCRNLNop \/ exists ws, t_state t = WhitespaceLine ws).

Lemma start_record_blank t c :
  t_rows t = [] -> c = LF \/ c = CR \/ is_blank c = true ->
  exists t', start_record c t = Ok t' /\ blank_state t'.
Proof.
  intros Hr Hc. unfold start_record, blank_state.
  destruct (decide (c = LF)); [eexists; split; [done|]; by split; [|left]|].
  destruct (decide (c = CR)); [eexists; split; [done|]; by split; [|right; left]|].
  destruct Hc as [? | [? | ->]]; [done|done|]. eexists; split; [done|]. split; [done|eauto].
Qed.

Lemma tok_step_blank t c :
  blank_state t -> c = LF \/ c = CR \/ is_blank c = true ->
  exists t', tok_step t c = Ok t' /\ blank_state t'.
Proof.
  destruct t as [st fd fds rows fl]. intros [Hr Hst] Hc. simpl in Hr, Hst. subst rows.
  destruct Hst as [->|[->|[ws ->]]]; cbn [tok_step t_state].
  - by apply start_record_blank.
  - unfold eat_crnl_nop. case_decide.
    + eexists; split; [done|]. by split; [|left].
    + by apply start_record_blank.
  - unfold whitespace_line, blank_state.
    destruct (decide (c = LF)); [eexists; split; [done|]; by split; [|left]|].
    destruct (decide (c = CR)); [eexists; split; [done|]; by split; [|right; left]|].
    destruct Hc as [? | [? | ->]]; [done|done|]. eexists; split; [done|]. split; [done|eauto].
Qed.

Lemma blank_run t cs :
  blank_state t -> Forall (fun c => c = LF \/ c = CR \/ is_blank c = true) cs ->
  exists t', tok_run t cs = Ok t' /\ blank_state t'.
Proof.
  revert t. induction cs as [|c cs IH]; intros t Ht Hcs; [by exists t|].
  apply Forall_cons in Hcs as [Hc Hcs]. destruct (tok_step_blank t c Ht Hc) as (t1 & Hs & Ht1).
  cbn [tok_run]. rewrite Hs. cbn [mbind result_bind]. by apply IH.
Qed.

(** An empty line, ended by [\n] or [\r\n]. *)
Definition blank_line (l : chars) : Prop := l = [LF] \/ l = [CR; LF].

Lemma blank_line_run fds acc fl l :
  blank_line l ->
  tok_run (mk_tok StartRecord [] fds acc fl) l = Ok (mk_tok StartRecord [] fds acc (S fl)).
Proof.
  intros [-> | ->]; reflexivity.
Qed.

Lemma blank_lines_run acc fl bs :
  Forall blank_line bs ->
  tok_run (mk_tok StartRecord [] [] acc fl) (mjoin bs) =
  Ok (mk_tok StartRecord [] [] acc (fl + length bs)).
Proof.
  revert fl. induction bs as [|b bs IH]; intros fl Hbs; [by rewrite Nat.add_0_r|].
  apply Forall_cons in Hbs as [Hb Hbs]. cbn [mjoin list_join]. rewrite tok_run_app.
  rewrite blank_line_run by done. cbn [mbind result_bind]. rewrite IH by done.
  do 2 f_equal. simpl. lia.
Qed.

(** Lines of one length, each after some empty lines. *)
Lemma rows_blank_run k rs bss acc fl :
  Forall (fun r => length r = k /\ row_ok r = true) rs -> length bss = length rs ->
  Forall (Forall blank_line) bss ->
  acc = [] \/ length <$> last acc = Some k ->
  exists fl', tok_run (mk_tok StartRecord [] [] acc fl)
                      (mjoin (zip_with (fun bs r => mjoin bs ++ write_row r) bss rs)) =
              Ok (mk_tok StartRecord [] [] (acc ++ rs) fl').
Proof.
  revert bss acc fl. induction rs as [|r rs IH]; intros [|bs bss] acc fl Hrs Hlen Hbss Hacc;
    try discriminate.
  - exists fl. cbn. by rewrite app_nil_r.
  - apply Forall_cons in Hrs as [[Hk Hok] Hrs]. apply Forall_cons in Hbss as [Hbs Hbss].
    cbn [zip_with mjoin list_join]. rewrite <-app_assoc, !tok_run_app, blank_lines_run by done.
    cbn [mbind result_bind]. rewrite tok_run_app, line_run by done. cbn [t_rows t_file_lines].
    rewrite end_line_uniform; [|rewrite Hk; exact Hacc]. cbn [mbind result_bind].
    destruct (IH bss (acc ++ [r]) (S (fl + length bs))) as [fl' Hfl'];
      [done|simpl in Hlen; lia|done|right; rewrite last_snoc; simpl; by rewrite Hk|].
    exists fl'. rewrite <-app_assoc in Hfl'. exact Hfl'.
Qed.

(** ** Theorems *)

(** C33: [df.to_csv(index=False)] followed by [pd.read_csv] is the
    identity on the frames the page produces: the tokenizer splits the
    text into the header and the written fields of each row, and dtype
    inference gives back each column, NaNs and integers included. *)
Theorem csv_roundtrip df :
  csv_frame df = true ->
  tokenize (to_csv_chars df) = Ok ((chars_of <$> col_names df) :: (row_fields df <$> seq 0 (nrows df))) /\
  read_csv (to_csv df) = Some (Ok df).
Proof.
  intros Hdf. split; [|by apply read_to_csv].
  rewrite to_csv_chars_rows. by apply (tokenize_rows (length (columns df))), csv_lines_ok.
Qed.

(** C34: after two lines of [k] fields, a line with more than [k]
    fields makes [pd.read_csv] raise the C tokenizer's [ParserError],
    naming the expected count, the line and the count it saw, whatever
    follows. *)
Theorem csv_long_line_raises k rs r rest :
  Forall (fun r => length r = k /\ row_ok r = true) rs -> 2 <= length rs ->
  k < length r -> row_ok r = true ->
  read_csv_chars (mjoin (write_row <$> rs) ++ write_row r ++ rest) =
  Some (Err (ValueError ("Error tokenizing data. C error: Expected " +:+ pretty (N.of_nat k) +:+
                         " fields in line " +:+ pretty (N.of_nat (S (length rs))) +:+
                         ", saw " +:+ pretty (N.of_nat (length r)) +:+ String.String LF EmptyString))).
Proof.
  intros Hrs Hlen Hk Hr. unfold read_csv_chars, tokenize.
  rewrite tok_run_app, (rows_from_start k) by done. cbn [mbind result_bind].
  rewrite tok_run_app, line_run by done. unfold end_line. cbn [t_fields t_rows t_file_lines].
  rewrite (last_uniform k); [|done|intros ->; simpl in Hlen; lia]. cbn [default].
  rewrite (decide_True (P := 2 <= length rs /\ k < length r)) by lia. reflexivity.
Qed.

(** A file holding only blanks and line ends has no header:
    [pd.read_csv] raises [EmptyDataError]. *)
Theorem csv_blank_text_raises cs :
  Forall (fun c => c = LF \/ c = CR \/ is_blank c = true) cs ->
  read_csv_chars cs = Some (Err (ValueError "No columns to parse from file")).
Proof.
  intros Hcs. unfold read_csv_chars, tokenize.
  destruct (blank_run tok_init cs) as (t & -> & Hr & Hst); [by split; [|left]|done|].
  cbn [mbind result_bind]. unfold tok_finish.
  destruct Hst as [Hs|[Hs|[ws Hs]]]; rewrite Hs; cbn [mbind result_bind]; by rewrite Hr.
Qed.

(** A quote opened after the complete lines [rs] and never
    closed makes [pd.read_csv] raise at the end of the file. *)
Theorem csv_open_quote_raises k rs cs :
  Forall (fun r => length r = k /\ row_ok r = true) rs -> QUOTE ∉ cs ->
  read_csv_chars (mjoin (write_row <$> rs) ++ QUOTE :: cs) =
  Some (Err (ValueError ("Error tokenizing data. C error: EOF inside string starting at row " +:+
                         pretty (N.of_nat (length rs))))).
Proof.
  intros Hrs Hq. unfold read_csv_chars, tokenize.
  rewrite tok_run_app, (rows_from_start k) by done. cbn [mbind result_bind].
  rewrite start_record_plain by done. tok_simp. cbn [tok_run tok_step t_state]. unfold start_field.
  rewrite !decide_False, decide_True by done. tok_simp.
  rewrite <-(escape_quotes_id cs Hq) at 1. rewrite quoted_run by done. reflexivity.
Qed.

(** C35: a line with fewer fields than the lines before it is not an
    error: the tokenizer pads it with empty fields, which the reader
    then takes as NaN. *)
Theorem csv_short_line_padded k rs r :
  Forall (fun r => length r = k /\ row_ok r = true) rs -> rs <> [] ->
  length r < k -> row_ok r = true ->
  tokenize (mjoin (write_row <$> rs) ++ write_row r) = Ok (rs ++ [r ++ replicate (k - length r) []]).
Proof.
  intros Hrs Hne Hk Hr. unfold tokenize.
  rewrite tok_run_app, (rows_from_start k) by done. cbn [mbind result_bind].
  rewrite line_run by done. unfold end_line. cbn [t_fields t_rows t_file_lines].
  rewrite (last_uniform k rs Hrs Hne). cbn [default].
  rewrite (decide_False (P := 2 <= length rs /\ k < length r)) by lia.
  rewrite decide_True by (destruct rs; [done|cbn; lia]). reflexivity.
Qed.

(** C21: empty lines are skipped ([skip_blank_lines=True]):
    a file whose lines are the written rows, each after any number of
    empty lines ended by [\n] or [\r\n], and with empty lines at its
    end, reads as the file of the rows alone. *)
Theorem csv_blank_lines_skipped k rs bss tail :
  Forall (fun r => length r = k /\ row_ok r = true) rs -> length bss = length rs ->
  Forall (Forall blank_line) bss -> Forall blank_line tail ->
  read_csv_chars (mjoin (zip_with (fun bs r => mjoin bs ++ write_row r) bss rs) ++ mjoin tail) =
  read_csv_chars (mjoin (write_row <$> rs)).
Proof.
  intros Hrs Hlen Hbss Htail. unfold read_csv_chars, tokenize.
  rewrite (rows_from_start k), tok_run_app by done.
  destruct (rows_blank_run k rs bss [] 0) as [fl Hfl]; [done|done|done|by left|].
  unfold tok_init. rewrite Hfl. cbn [mbind result_bind]. rewrite blank_lines_run by done. reflexivity.
Qed.

(** ** Witnesses *)

(** The table of predictions for two uploaded rows, the second with no
    workclass and no hours. *)
Definition example_results : frame :=
  mk_frame 2 [("age", [Some (VInt 39); Some (VInt 52)]);
              ("workclass", [Some (VStr "Private"); None]);
              ("hours_per_week", [Some (VInt 40); None]);
              ("Prediction", [Some (VStr "<=50K"); Some (VStr ">50K")])].

Definition example_lines : list (list chars) :=
  [[chars_of "age"; chars_of "hours_per_week"]; [chars_of "39"; chars_of "40"];
   [chars_of "52"; []]].

(** A file whose fourth line has one field too many. *)
Definition ragged_csv : string :=
  String.string_of_list_ascii
    (mjoin (write_row <$> example_lines) ++ write_row [chars_of "61"; []; []]).

Lemma csv_roundtrip_witness :
  csv_frame example_results = true /\
  read_csv (to_csv example_results) = Some (Ok example_results).
Proof.
  assert (H : csv_frame example_results = true) by (vm_compute; reflexivity).
  split; [exact H|exact (proj2 (csv_roundtrip example_results H))].
Defined.

Lemma csv_long_line_raises_witness :
  read_csv_chars (mjoin (write_row <$> example_lines) ++ write_row [chars_of "61"; []; []] ++ []) =
  Some (Err (ValueError ("Error tokenizing data. C error: Expected 2 fields in line 4, saw 3" +:+
                         String.String LF EmptyString))).
Proof.
  rewrite (csv_long_line_raises 2); [reflexivity|decide_prop|simpl; lia|simpl; lia|reflexivity].
Defined.

Lemma csv_blank_text_raises_witness :
  read_csv_chars [" "; LF; "009"; " "; CR; LF; CR]%char =
  Some (Err (ValueError "No columns to parse from file")).
Proof. apply csv_blank_text_raises. decide_prop. Defined.

Lemma csv_open_quote_raises_witness :
  read_csv_chars (mjoin (write_row <$> example_lines) ++ QUOTE :: chars_of "Sales,40") =
  Some (Err (ValueError "Error tokenizing data. C error: EOF inside string starting at row 3")).
Proof. rewrite (csv_open_quote_raises 2); [reflexivity|decide_prop|decide_prop]. Defined.

Lemma csv_short_line_padded_witness :
  tokenize (mjoin (write_row <$> example_lines) ++ write_row [chars_of "61"]) =
  Ok (example_lines ++ [[chars_of "61"; []]]).
Proof. rewrite (csv_short_line_padded 2); [reflexivity|decide_prop|discriminate|simpl; lia|reflexivity]. Defined.

Lemma csv_blank_lines_skipped_witness :
  Forall (fun r => length r = 2 /\ row_ok r = true) example_lines /\
  read_csv_chars (mjoin (zip_with (fun bs r => mjoin bs ++ write_row r)
                                  [[]; [[LF]]; [[CR; LF]; [LF]]] example_lines) ++ [CR; LF]) =
  read_csv_chars (mjoin (write_row <$> example_lines)).
Proof.
  assert (H : Forall (fun r => length r = 2 /\ row_ok r = true) example_lines) by decide_prop.
  split; [exact H|].
  rewrite (csv_blank_lines_skipped 2 example_lines _ [[CR; LF]] H);
    [reflexivity|reflexivity| |].
  - repeat (first [apply Forall_nil | apply Forall_cons; split]); unfold blank_line; auto.
  - repeat (first [apply Forall_nil | apply Forall_cons; split]); unfold blank_line; auto.
Defined.
