(* ===== verification/Dummies.v ===== *)
(** * Dummies: [pd.get_dummies] as the app calls it

    [src/main.py] line 142 ([pd.get_dummies(input_df)]) and line 178
    ([pd.get_dummies(df)]) call pandas with its defaults: every column
    of object dtype is replaced by one indicator column per level,
    named [<column>_<level>], with the levels sorted; the numeric
    columns are kept, in their order, before all indicator columns; a
    NaN cell gives 0 in every indicator ([dummy_na=False]).  pandas 2
    builds the indicators with dtype [bool]; the classifier sees them as
    1 and 0, which is how they are modelled.  On a frame with no column
    at all pandas' final [concat] raises [ValueError].

    [expand] is the expansion, [get_dummies] adds the error; the lemmas
    give the names of the expansion and the column found under each
    name. *)

From S2P Require Import Prelude Frame.
Open Scope string_scope.
Open Scope list_scope.

(** The text of a cell in an object column ([str(x)] for numbers). *)
Definition cell_label (c : cell) : option string :=
  match c with
  | Some (VStr s) => Some s
  | Some (VInt z) => Some (pretty z)
  | None => None
  end.

(** [factorize(..., sort=True)]: sorted distinct labels, NaN left out. *)
Definition levels (cs : list cell) : list string :=
  sort_uniq String.le (omap cell_label cs).

(** [f"{prefix}{prefix_sep}{level}"] with [prefix_sep="_"]. *)
Definition dummy_name (col lvl : string) : string := col +:+ "_" +:+ lvl.

Definition indicator (lvl : string) (c : cell) : cell :=
  Some (VInt (if decide (cell_label c = Some lvl) then 1 else 0)).

(** [_get_dummies_1d]: one indicator column per level. *)
Definition dummies_of (c : column) : list column :=
  (fun lvl => (dummy_name c.1 lvl, indicator lvl <$> c.2)) <$> levels c.2.

Definition numeric_columns (df : frame) : list column :=
  filter (fun c => negb (is_object_column c)) (columns df).

Definition object_columns (df : frame) : list column :=
  filter is_object_column (columns df).

(** [concat([numeric part] + [dummies of each object column], axis=1)] *)
Definition expand (df : frame) : frame :=
  mk_frame (nrows df) (numeric_columns df ++ (object_columns df ≫= dummies_of)).

Definition get_dummies (df : frame) : result frame :=
  if decide (columns df = []) then Err (ValueError "No objects to concatenate")
  else Ok (expand df).

(** ** Lemmas *)

Lemma elem_of_levels cs lvl : lvl ∈ levels cs <-> exists c, c ∈ cs /\ cell_label c = Some lvl.
Proof. unfold levels. rewrite elem_of_sort_uniq by apply _. apply list_elem_of_omap. Qed.

Lemma dummy_name_inj n a b : dummy_name n a = dummy_name n b -> a = b.
Proof. unfold dummy_name. intros H. by apply (inj (String.app n)), (inj (String.app "_")) in H. Qed.

Lemma NoDup_dummy_names n cs : NoDup (dummy_name n <$> levels cs).
Proof.
  apply NoDup_fmap_2_strong; [intros a b _ _; apply dummy_name_inj|].
  apply NoDup_sort_uniq; apply _.
Qed.

(** An indicator for a level the column never takes is a zero column. *)
Lemma indicator_unseen lvl cs :
  lvl ∉ levels cs -> indicator lvl <$> cs = replicate (length cs) (Some (VInt 0)).
Proof.
  rewrite elem_of_levels. intros Hl. induction cs as [|c cs IH]; simpl; [done|].
  f_equal.
  - unfold indicator. rewrite decide_False; [done|]. intros Hc. apply Hl. exists c. set_solver.
  - apply IH. intros (c' & ? & ?). apply Hl. exists c'. set_solver.
Qed.

Lemma col_names_expand df :
  col_names (expand df) =
  (fst <$> numeric_columns df) ++ (object_columns df ≫= fun c => dummy_name c.1 <$> levels c.2).
Proof.
  unfold col_names, expand. simpl. rewrite fmap_app, fmap_list_bind. f_equal.
  apply list_bind_ext; [|done]. intros c. unfold dummies_of.
  by rewrite <-list_fmap_compose.
Qed.

Lemma expand_wf df : frame_wf df -> frame_wf (expand df).
Proof.
  unfold frame_wf, expand, numeric_columns, object_columns. simpl. intros Hwf.
  apply Forall_app; split.
  { apply Forall_forall. intros c Hc. apply list_elem_of_filter in Hc as [_ Hc].
    by eapply Forall_forall in Hwf. }
  apply Forall_bind, Forall_forall. intros c Hc.
  apply list_elem_of_filter in Hc as [_ Hc]. eapply Forall_forall in Hwf; [|exact Hc].
  apply Forall_fmap, Forall_forall. intros lvl _. simpl. by rewrite length_fmap.
Qed.

Lemma expand_nrows df : nrows (expand df) = nrows df.
Proof. reflexivity. Qed.

Lemma get_dummies_Ok df : columns df <> [] -> get_dummies df = Ok (expand df).
Proof. intros H. unfold get_dummies. by rewrite decide_False. Qed.

Lemma get_dummies_Err df e : get_dummies df = Err e -> columns df = [].
Proof. unfold get_dummies. by case_decide. Qed.

(** The column found under a dummy name is the indicator of that level. *)
Lemma dict_get_expand_dummy df n cs lvl :
  NoDup (col_names (expand df)) -> (n, cs) ∈ columns df -> is_object_column (n, cs) ->
  lvl ∈ levels cs ->
  dict_get (dummy_name n lvl) (columns (expand df)) = Some (indicator lvl <$> cs).
Proof.
  intros Hnd Hin Hobj Hlvl. apply dict_get_NoDup_elem; [done|].
  unfold expand. simpl. apply elem_of_app. right. apply list_elem_of_bind.
  exists (n, cs). split; [|by apply list_elem_of_filter].
  unfold dummies_of. apply list_elem_of_fmap. by exists lvl.
Qed.

(** A numeric column is kept under its own name. *)
Lemma dict_get_expand_numeric df n cs :
  NoDup (col_names (expand df)) -> (n, cs) ∈ columns df -> ~ is_object_column (n, cs) ->
  dict_get n (columns (expand df)) = Some cs.
Proof.
  intros Hnd Hin Hnum. apply dict_get_NoDup_elem; [done|].
  unfold expand. simpl. apply elem_of_app. left.
  apply list_elem_of_filter. split; [|done]. by destruct (is_object_column (n, cs)).
Qed.

#[export] Hint Resolve expand_wf : salary.

(** ** Distinct names *)

Lemma head_dummy_name n lvl : n <> "" -> String.get 0 (dummy_name n lvl) = String.get 0 n.
Proof. destruct n; [done|reflexivity]. Qed.

(** When the columns' names are non-empty and start with distinct
    characters, the expansion's names are distinct: a dummy name starts
    as its column's name. *)
Lemma NoDup_expand_heads df :
  NoDup ((fun c => String.get 0 c.1) <$> columns df) -> Forall (fun c => c.1 <> "") (columns df) ->
  NoDup (col_names (expand df)).
Proof.
  intros Hh Hne. rewrite Forall_forall in Hne.
  assert (forall c c', c ∈ columns df -> c' ∈ columns df ->
            String.get 0 c.1 = String.get 0 c'.1 -> c = c') as Hinj
    by (intros; by eapply NoDup_fmap_inj_in).
  pose proof (NoDup_fmap_1 _ _ Hh) as Hcols.
  rewrite col_names_expand. apply NoDup_app. unfold numeric_columns, object_columns. split_and!.
  - apply NoDup_fmap_2_strong; [|by apply NoDup_filter].
    intros c c' (_ & Hc)%list_elem_of_filter (_ & Hc')%list_elem_of_filter Heq.
    apply Hinj; [done|done|by rewrite Heq].
  - intros x (c & -> & Hc)%list_elem_of_fmap_1 Hx.
    apply list_elem_of_filter in Hc as [Hnum Hc].
    apply list_elem_of_bind in Hx as (c' & Hx & Hc'). apply list_elem_of_filter in Hc' as [Hobj Hc'].
    apply list_elem_of_fmap_1 in Hx as (lvl & Heq & _).
    assert (c = c') as <-.
    { apply Hinj; [done|done|]. rewrite Heq. apply head_dummy_name. by apply Hne. }
    by destruct (is_object_column c).
  - apply NoDup_bind; [|intros; apply NoDup_dummy_names|by apply NoDup_filter].
    intros c1 c2 y (_ & H1)%list_elem_of_filter (_ & H2)%list_elem_of_filter
      (l1 & -> & _)%list_elem_of_fmap_1 (l2 & Heq & _)%list_elem_of_fmap_1.
    apply Hinj; [done|done|]. rewrite <-(head_dummy_name c1.1 l1) by auto.
    rewrite Heq. apply head_dummy_name. auto.
Qed.
