(* ===== verification/Reindex.v ===== *)
(** * Reindex: projecting the encoded frame onto the model's columns

    [src/main.py] lines 143 and 179 call
    [df.reindex(columns=model_columns, fill_value=0)].  pandas'
    [Index.reindex] returns the frame unchanged when its columns already
    equal the target; otherwise it raises [ValueError] when the frame's
    own column labels repeat, and else builds one column per target
    label: the frame's column of that name, or a column of [fill_value].

    [align] is the composition the app performs on both paths (lines
    142-143 and 178-179): [get_dummies] then [reindex] with fill 0. *)

From S2P Require Import Prelude Frame Dummies.
Open Scope string_scope.
Open Scope list_scope.

Definition fill_column (n : nat) (fill : Z) : list cell :=
  replicate n (Some (VInt fill)).

Definition reindex (df : frame) (target : list string) (fill : Z) : result frame :=
  if decide (col_names df = target) then Ok df
  else if decide (NoDup (col_names df)) then
    Ok (mk_frame (nrows df)
          ((fun t => (t, default (fill_column (nrows df) fill)
                                 (dict_get t (columns df)))) <$> target))
  else Err (ValueError "cannot reindex on an axis with duplicate labels").

(** [pd.get_dummies(df).reindex(columns=model_columns, fill_value=0)] *)
Definition align (df : frame) (schema : list string) : result frame :=
  enc ← get_dummies df; reindex enc schema 0.

(** ** Lemmas on [reindex] *)

Section ReindexLemmas.
Context (df : frame) (target : list string) (fill : Z).

Lemma reindex_names out : reindex df target fill = Ok out -> col_names out = target.
Proof.
  unfold reindex. repeat case_decide; intros [=<-]; [done|].
  unfold col_names. simpl. rewrite <-list_fmap_compose. apply list_fmap_id.
Qed.

Lemma reindex_nrows out : reindex df target fill = Ok out -> nrows out = nrows df.
Proof. unfold reindex. by repeat case_decide; intros [=<-]. Qed.

Lemma reindex_wf out : frame_wf df -> reindex df target fill = Ok out -> frame_wf out.
Proof.
  intros Hwf. unfold reindex. repeat case_decide; intros [=<-]; [done|].
  unfold frame_wf. simpl. apply Forall_fmap, Forall_forall. intros t _. simpl.
  destruct (dict_get t (columns df)) as [cs|] eqn:Hget; simpl.
  - apply dict_get_Some_in in Hget.
    eapply Forall_forall in Hwf; [|exact Hget]. exact Hwf.
  - apply length_replicate.
Qed.

Lemma reindex_get out k :
  reindex df target fill = Ok out -> k ∈ target ->
  dict_get k (columns out) =
  Some (default (fill_column (nrows df) fill) (dict_get k (columns df))).
Proof.
  unfold reindex. repeat case_decide; intros [=<-] Hk.
  - subst target. destruct (dict_get_elem_is_Some (columns df) k Hk) as [cs ->].
    done.
  - simpl. by apply (dict_get_fmap_key (fun t => _)).
Qed.

Lemma reindex_Err :
  (exists e, reindex df target fill = Err e) <->
  col_names df <> target /\ ~ NoDup (col_names df).
Proof.
  unfold reindex. repeat case_decide; split; naive_solver.
Qed.

  (** Without repeated labels, [reindex] is the projection with fill. *)
Lemma reindex_NoDup :
  NoDup (col_names df) ->
  reindex df target fill =
  Ok (mk_frame (nrows df)
         ((fun t => (t, default (fill_column (nrows df) fill)
                                (dict_get t (columns df)))) <$> target)).
Proof.
  intros Hnd. unfold reindex. case_decide as Heq; [|by rewrite decide_True].
  rewrite <-Heq. unfold col_names. rewrite dict_rebuild; [by destruct df|done].
Qed.
End ReindexLemmas.

#[export] Hint Resolve reindex_wf : salary.

(** ** Alignment *)

Lemma align_Ok_inv df schema out :
  align df schema = Ok out -> columns df <> [] /\ reindex (expand df) schema 0 = Ok out.
Proof.
  unfold align, get_dummies. case_decide; [discriminate|]. intros Hre. by split.
Qed.

Lemma align_nrows df schema out : align df schema = Ok out -> nrows out = nrows df.
Proof. intros [_ Hre]%align_Ok_inv. exact (reindex_nrows _ _ _ _ Hre). Qed.

(** Every name of the expansion that reads [n_<x>] is a dummy of column
    [n] itself, not a column that happens to carry such a name. *)
Definition dummy_prefix_owned (df : frame) (n : string) (cs : list cell) : Prop :=
  forall lvl, dummy_name n lvl ∈ col_names (expand df) -> lvl ∈ levels cs.

Lemma align_get df schema out t :
  align df schema = Ok out -> t ∈ schema ->
  dict_get t (columns out) =
  Some (default (fill_column (nrows df) 0) (dict_get t (columns (expand df)))).
Proof.
  intros Hal Ht. apply align_Ok_inv in Hal as [_ Hre].
  by rewrite (reindex_get _ _ _ _ _ Hre Ht).
Qed.

(** C1: when alignment succeeds on a well-formed frame, the result has
    exactly the schema's columns, in the schema's order, one row per input
    row, and every column has one cell per row. *)
Theorem align_schema df schema out :
  frame_wf df -> align df schema = Ok out ->
  col_names out = schema /\ nrows out = nrows df /\ frame_wf out.
Proof.
  intros Hwf Hal. apply align_Ok_inv in Hal as [_ Hre].
  split; [exact (reindex_names _ _ _ _ Hre)|split; [exact (reindex_nrows _ _ _ _ Hre)|]].
  eapply reindex_wf; [|exact Hre]. by apply expand_wf.
Qed.

Lemma align_dummy_column df schema out n cs lvl :
  frame_wf df -> NoDup (col_names (expand df)) ->
  (n, cs) ∈ columns df -> is_object_column (n, cs) -> dummy_prefix_owned df n cs ->
  dummy_name n lvl ∈ schema -> align df schema = Ok out ->
  dict_get (dummy_name n lvl) (columns out) = Some (indicator lvl <$> cs).
Proof.
  intros Hwf Hnd Hin Hobj Hown Ht Hal. rewrite (align_get _ _ _ _ Hal Ht).
  destruct (decide (lvl ∈ levels cs)) as [Hl|Hl].
  - by rewrite (dict_get_expand_dummy _ _ _ _ Hnd Hin Hobj Hl).
  - rewrite dict_get_None by (intros Hn; by apply Hl, Hown).
    simpl. rewrite indicator_unseen by done. unfold fill_column.
    by rewrite (wf_column_length _ _ _ Hwf Hin).
Qed.

(** C3: for an object column [n] whose dummy names are its own, the
    aligned column [n_<lvl>] holds 1 on the rows whose value is [lvl] and
    0 elsewhere (NaN rows included), whether or not [lvl] occurs in the
    input. *)
Theorem align_onehot df schema out n cs lvl :
  frame_wf df -> NoDup (col_names (expand df)) ->
  (n, cs) ∈ columns df -> is_object_column (n, cs) -> dummy_prefix_owned df n cs ->
  n +:+ "_" +:+ lvl ∈ schema -> align df schema = Ok out ->
  dict_get (n +:+ "_" +:+ lvl) (columns out) =
  Some ((fun c => Some (VInt (if decide (cell_label c = Some lvl) then 1 else 0))) <$> cs).
Proof. apply align_dummy_column. Qed.

(** C4: a numeric input column named in the schema reaches the output
    unchanged. *)
Theorem align_numeric df schema out n cs :
  NoDup (col_names (expand df)) -> (n, cs) ∈ columns df -> ~ is_object_column (n, cs) ->
  n ∈ schema -> align df schema = Ok out -> dict_get n (columns out) = Some cs.
Proof.
  intros Hnd Hin Hnum Ht Hal. rewrite (align_get _ _ _ _ Hal Ht).
  by rewrite (dict_get_expand_numeric _ _ _ Hnd Hin Hnum).
Qed.

(** C5: a schema column that the expansion does not produce is filled
    with zeros, one per row. *)
Theorem align_zero_fill df schema out t :
  t ∈ schema -> t ∉ col_names (expand df) -> align df schema = Ok out ->
  dict_get t (columns out) = Some (replicate (nrows df) (Some (VInt 0))).
Proof.
  intros Ht Hn Hal. apply align_Ok_inv in Hal as [_ Hre]. revert Hre.
  unfold reindex. case_decide as Heq; [by rewrite Heq in Hn|].
  case_decide; intros [=<-]; simpl.
  rewrite (dict_get_fmap_key (fun t => _) _ _ Ht). by rewrite dict_get_None.
Qed.

(** C6: alignment raises exactly when the input has no column at all
    (pandas' [concat] of nothing) or when the expanded columns repeat a
    label and differ from the schema ([reindex] on duplicate labels). *)
Theorem align_error df schema :
  (exists e, align df schema = Err e) <->
  columns df = [] \/
  (col_names (expand df) <> schema /\ ~ NoDup (col_names (expand df))).
Proof.
  unfold align, get_dummies. case_decide as Hc.
  - split; [by left|]. intros _. by eexists.
  - rewrite bind_Ok_l, reindex_Err. naive_solver.
Qed.

(** ** The scenarios of the specification *)

(** The names of a concrete expansion that read [n_<x>] are its dummies. *)
Ltac solve_prefix_owned :=
  let lvl := fresh "lvl" in let Hl := fresh "Hl" in
  intros lvl Hl; apply list_elem_of_In in Hl; simpl in Hl;
  repeat match goal with H : _ \/ _ |- _ => destruct H as [H|H] end;
  try contradiction; simplify_eq; decide_prop.

Definition spec_schema : list string :=
  ["age"; "gender_Male"; "gender_Female"; "workclass_Private"].

Definition scenario_batch : frame :=
  from_records [[("age", VInt 30); ("gender", VStr "Male"); ("workclass", VStr "Private")];
                [("age", VInt 45); ("gender", VStr "Female"); ("workclass", VStr "Government")];
                [("age", VInt 52); ("workclass", VStr "Private")]].

Example scenario_batch_aligned :
  align scenario_batch spec_schema =
  Ok (mk_frame 3 [("age", [Some (VInt 30); Some (VInt 45); Some (VInt 52)]);
                  ("gender_Male", [Some (VInt 1); Some (VInt 0); Some (VInt 0)]);
                  ("gender_Female", [Some (VInt 0); Some (VInt 1); Some (VInt 0)]);
                  ("workclass_Private", [Some (VInt 1); Some (VInt 0); Some (VInt 1)])]).
Proof. reflexivity. Qed.

Lemma align_schema_witness :
  exists out, align scenario_batch spec_schema = Ok out /\
              col_names out = spec_schema /\ nrows out = 3 /\ frame_wf out.
Proof.
  eexists. split; [reflexivity|].
  apply (align_schema scenario_batch spec_schema); [apply from_records_wf|reflexivity].
Defined.


Lemma align_onehot_witness :
  exists out, align scenario_batch spec_schema = Ok out /\
    dict_get "gender_Male" (columns out) =
    Some (indicator "Male" <$> [Some (VStr "Male"); Some (VStr "Female"); None]).
Proof.
  eexists. split; [reflexivity|].
  apply (align_onehot scenario_batch spec_schema _ "gender"
           [Some (VStr "Male"); Some (VStr "Female"); None] "Male");
    [apply from_records_wf|decide_prop|decide_prop|decide_prop|solve_prefix_owned
    |decide_prop|reflexivity].
Defined.

Lemma align_numeric_witness :
  exists out, align scenario_batch spec_schema = Ok out /\
    dict_get "age" (columns out) = Some [Some (VInt 30); Some (VInt 45); Some (VInt 52)].
Proof.
  eexists. split; [reflexivity|].
  apply (align_numeric scenario_batch spec_schema _ "age");
    [decide_prop|decide_prop|vm_compute; intros []|decide_prop|reflexivity].
Defined.

(** Scenario 2: a workclass never seen at training time. *)
Definition scenario_government : frame :=
  from_records [[("age", VInt 45); ("gender", VStr "Female"); ("workclass", VStr "Government")]].

Example scenario_government_aligned :
  align scenario_government spec_schema =
  Ok (mk_frame 1 [("age", [Some (VInt 45)]); ("gender_Male", [Some (VInt 0)]);
                  ("gender_Female", [Some (VInt 1)]); ("workclass_Private", [Some (VInt 0)])]).
Proof. reflexivity. Qed.

Lemma align_zero_fill_witness :
  exists out, align scenario_government spec_schema = Ok out /\
    dict_get "workclass_Private" (columns out) = Some [Some (VInt 0)].
Proof.
  eexists. split; [reflexivity|].
  apply (align_zero_fill scenario_government spec_schema _ "workclass_Private");
    [decide_prop|decide_prop|reflexivity].
Defined.

(** An upload whose header already holds a dummy name. *)
Definition collision_upload : frame :=
  from_records [[("age", VInt 30); ("gender", VStr "Male"); ("gender_Male", VInt 1)]].

(** An upload whose header already contains a dummy name (a
    numeric column [gender_Male] next to [gender]) makes alignment raise
    [ValueError], although the specification says a schema mismatch is
    never an error. *)
Example align_collision_raises :
  exists e, align collision_upload spec_schema = Err e.
Proof. eexists. reflexivity. Qed.
