(* ===== verification/Contract.v ===== *)
(** * Contract: the alignment as the specification describes it

    [spec_column df t cs] says which columns the specification admits
    under the schema name [t] for an input frame [df], without reference
    to how pandas computes them: a numeric input column named [t] as it
    is; for a categorical column [n] and a value [lvl] with
    [t = n_lvl], the column that is 1 where the row's value is [lvl] and
    0 elsewhere (NaN included); and when [t] names neither, zeros.
    [align_spec] asks that every schema column, in order, be admitted.

    [align_refines] is the refinement theorem: every result of [align]
    (get_dummies then reindex, lines 142-143 and 178-179 of
    [src/main.py]) meets [align_spec]. *)

From S2P Require Import Prelude Frame Dummies Reindex.
Open Scope string_scope.
Open Scope list_scope.

Inductive spec_column (df : frame) (t : string) : list cell -> Prop :=
| spec_numeric cs :
    (t, cs) ∈ columns df -> ~ is_object_column (t, cs) -> spec_column df t cs
| spec_onehot n cs lvl :
    (n, cs) ∈ columns df -> is_object_column (n, cs) -> t = n +:+ "_" +:+ lvl ->
    spec_column df t
      ((fun c => Some (VInt (if decide (cell_label c = Some lvl) then 1 else 0))) <$> cs)
| spec_missing :
    (forall n cs, (n, cs) ∈ columns df -> ~ is_object_column (n, cs) -> t <> n) ->
    (forall n cs lvl, (n, cs) ∈ columns df -> is_object_column (n, cs) -> lvl ∈ levels cs ->
                      t <> n +:+ "_" +:+ lvl) ->
    spec_column df t (replicate (nrows df) (Some (VInt 0))).

Definition align_spec (df : frame) (schema : list string) (out : frame) : Prop :=
  nrows out = nrows df /\
  Forall2 (fun t c => c.1 = t /\ spec_column df t c.2) schema (columns out).

(** ** Lemmas *)

(** Every column of the expansion is admitted under its own name. *)
Lemma expand_entry df t cs : (t, cs) ∈ columns (expand df) -> spec_column df t cs.
Proof.
  unfold expand, numeric_columns, object_columns. cbn [columns]. rewrite elem_of_app.
  intros [(Hnum & Hin)%list_elem_of_filter|(c & Hd & Hc)%list_elem_of_bind].
  - apply spec_numeric; [done|]. destruct (is_object_column (t, cs)); simpl in *; tauto.
  - apply list_elem_of_filter in Hc as [Hobj Hc]. destruct c as [n cs0].
    unfold dummies_of in Hd. apply list_elem_of_fmap_1 in Hd as (lvl & [= -> ->] & _).
    by apply (spec_onehot df _ n cs0 lvl).
Qed.

(** A name the expansion lacks is admitted with zeros. *)
Lemma missing_entry df t :
  t ∉ col_names (expand df) -> spec_column df t (fill_column (nrows df) 0).
Proof.
  intros Ht. rewrite col_names_expand, elem_of_app in Ht. apply spec_missing.
  - intros n cs Hin Hnum ->. apply Ht. left. apply list_elem_of_fmap.
    exists (n, cs). split; [done|]. apply list_elem_of_filter. split; [|done].
    destruct (is_object_column (n, cs)); simpl in *; tauto.
  - intros n cs lvl Hin Hobj Hlvl ->. apply Ht. right. apply list_elem_of_bind.
    exists (n, cs). split; [|by apply list_elem_of_filter]. apply list_elem_of_fmap. by exists lvl.
Qed.

(** Each column [reindex] returns is a column of its input or the fill
    under a name the input lacks. *)
Lemma reindex_entries E target fill out :
  reindex E target fill = Ok out ->
  Forall2 (fun t c => c.1 = t /\
             (c ∈ columns E \/ (c.2 = fill_column (nrows E) fill /\ t ∉ col_names E)))
          target (columns out).
Proof.
  unfold reindex. case_decide as Heq; [|case_decide; [|discriminate]]; intros [= <-].
  - rewrite <-Heq. unfold col_names. apply Forall2_fmap_l, Forall_Forall2_diag.
    apply Forall_forall. intros c Hc. by split; [|left].
  - apply Forall2_fmap_r, Forall_Forall2_diag, Forall_forall. intros t _. split; [done|].
    cbn [snd]. destruct (dict_get t (columns E)) as [cs|] eqn:Ht.
    + left. by apply dict_get_Some_in.
    + right. split; [done|]. intros Hin. apply dict_get_elem_is_Some in Hin.
      rewrite Ht in Hin. by destruct Hin.
Qed.

(** ** Refinement *)

(** C2: every result of [align] meets the specification: one row per
    input row, and under each schema name, in schema order, a column the
    specification admits (the numeric input column, the one-hot column
    of a categorical value, or zeros). *)
Theorem align_refines df schema out : align df schema = Ok out -> align_spec df schema out.
Proof.
  intros (_ & Hre)%align_Ok_inv. split.
  - by rewrite (reindex_nrows _ _ _ _ Hre), expand_nrows.
  - eapply Forall2_impl; [exact (reindex_entries _ _ _ _ Hre)|].
    intros t [n cs] [Hn [Hin|[Hfill Ht]]]; cbn [fst snd] in *; subst n; split; try done.
    + by apply expand_entry.
    + rewrite Hfill, expand_nrows. by apply missing_entry.
Qed.

Lemma align_refines_witness :
  exists out, align scenario_batch spec_schema = Ok out /\
              align_spec scenario_batch spec_schema out.
Proof.
  destruct (align scenario_batch spec_schema) as [out|e] eqn:Hal;
    [|vm_compute in Hal; discriminate].
  exists out. split; [reflexivity|]. exact (align_refines _ _ _ Hal).
Defined.
