(* ===== verification/Predictor.v ===== *)
(** * Predictor: what a fitted classifier offers the app

    The app calls [model.predict(X)] on the aligned frame (lines 145 and
    180).  The classifier is the scikit-learn estimator selected by the
    trainer; its fitting algorithm is library code and stays opaque.  The
    class [Predictor] states what the app relies on: the feature names
    seen at fit time ([feature_names_in_]), whether the estimator accepts
    missing values, and a deterministic per-row decision function.

    [predict] adds scikit-learn's input validation, in its order: the
    column names must equal the fitted ones ([_check_feature_names]),
    every cell must convert to a number ([check_array]: a string raises,
    NaN raises unless the estimator handles missing values), and there
    must be at least one row and one column ([ensure_min_samples],
    [ensure_min_features]).  The labels come back one per row, in row
    order. *)

From S2P Require Import Prelude Frame.
Open Scope string_scope.
Open Scope list_scope.

Class Predictor (M : Type) := {
  feature_names_in : M -> list string;
  allow_nan : M -> bool;
  predict_row : M -> list (option Z) -> string
}.

(** [check_array]: the numeric value of a cell, NaN as [None]. *)
Definition cell_number (nan_ok : bool) (c : cell) : result (option Z) :=
  match c with
  | Some (VInt z) => Ok (Some z)
  | Some (VStr _) => Err (ValueError "could not convert string to float")
  | None => if nan_ok then Ok None else Err (ValueError "Input X contains NaN.")
  end.

(** The rows of a frame, each as its cells in column order. *)
Definition frame_rows (X : frame) : list (list cell) :=
  (fun i => (fun c => cell_at c i) <$> columns X) <$> seq 0 (nrows X).

Definition predict `{Predictor M} (m : M) (X : frame) : result (list string) :=
  if decide (col_names X = feature_names_in m) then
    rows ← mapM (mapM (cell_number (allow_nan m))) (frame_rows X);
    if decide (nrows X = 0) then Err (ValueError "Found array with 0 sample(s)")
    else if decide (columns X = []) then Err (ValueError "Found array with 0 feature(s)")
    else mret (predict_row m <$> rows)
  else Err (ValueError "The feature names should match those that were passed during fit.").

(** ** Lemmas *)

Lemma length_frame_rows X : length (frame_rows X) = nrows X.
Proof. unfold frame_rows. by rewrite length_fmap, length_seq. Qed.

Lemma frame_rows_lookup X i :
  i < nrows X -> frame_rows X !! i = Some ((fun c => cell_at c i) <$> columns X).
Proof.
  intros Hi. unfold frame_rows. rewrite list_lookup_fmap, lookup_seq_lt by done.
  reflexivity.
Qed.

Section PredictLemmas.
Context `{Predictor M} (m : M).

Lemma predict_Ok X ls :
  predict m X = Ok ls <->
  col_names X = feature_names_in m /\ nrows X <> 0 /\ columns X <> [] /\
  exists rows, mapM (mapM (cell_number (allow_nan m))) (frame_rows X) = Ok rows /\
               ls = predict_row m <$> rows.
Proof.
  unfold predict. case_decide; [|split; [discriminate|naive_solver]].
  destruct (mapM (mapM (cell_number (allow_nan m))) (frame_rows X)) as [rows|e] eqn:Hm;
    simpl.
  - case_decide; [split; [discriminate|naive_solver]|].
    case_decide; [split; [discriminate|naive_solver]|].
    split; [intros [= <-]; naive_solver|].
    intros (_ & _ & _ & rows' & [= <-] & ->). reflexivity.
  - split; [discriminate|]. intros (_ & _ & _ & rows' & [=] & _).
Qed.

(** One label per row, in row order, each computed from its own row. *)
Lemma predict_rows X ls :
  predict m X = Ok ls ->
  Forall2 (fun r l => exists v, mapM (cell_number (allow_nan m)) r = Ok v /\
                                l = predict_row m v) (frame_rows X) ls.
Proof.
  intros (_ & _ & _ & rows & Hm & ->)%predict_Ok. apply mapM_Ok in Hm.
  induction Hm as [|r v rs vs Hr Hrs IH]; simpl; constructor; eauto.
Qed.

Lemma predict_length X ls : predict m X = Ok ls -> length ls = nrows X.
Proof.
  intros Hp. apply predict_rows, Forall2_length in Hp.
  by rewrite <-Hp, length_frame_rows.
Qed.
End PredictLemmas.
