(* ===== verification/App.v ===== *)
(** * App: the two handlers of [src/main.py]

    The manual tab (lines 123-156) reads six widgets, builds the dict
    [input_data] (the label text before the first space of each select
    box, [x.split(" ")[0]]), aligns the one-row frame on the model's
    columns, predicts and offers the row with its prediction for
    download.  The bulk tab (lines 172-185) aligns an uploaded frame,
    predicts one label per row and appends them as column [Prediction].
    [manual_feature] is the encoded vector as the specification
    describes it; the theorems relate the handlers to it.  The widget
    state and the reruns are in [Session]; the charts (lines 158-169 and
    186-194) are not modelled. *)

From Stdlib Require Import Ascii.
From S2P Require Import Prelude Translations Frame Dummies Reindex Predictor.
Open Scope string_scope.
Open Scope list_scope.

(** ** The form (lines 125-130) *)

Record form := mk_form {
  f_age : Z;
  f_gender : string;
  f_workclass : string;
  f_education : string;
  f_occupation : string;
  f_hours : Z
}.

Definition age_min : Z := 18.
Definition age_max : Z := 100.
Definition hours_min : Z := 1.
Definition hours_max : Z := 100.
Definition hours_default : Z := 40.

Definition gender_options : list string := ["Male ♂️"; "Female ♀️"].
Definition workclass_options : list string := ["Private 🏢"; "Self-emp 🔧"; "Government 🏛️"].
Definition education_options : list string := ["Bachelors 🎓"; "HS-grad 🏫"; "Masters 🎓"].
Definition occupation_options : list string := ["Tech-support 💻"; "Craft-repair 🔨"; "Sales 💼"].

(** What the widgets can hold. *)
Definition form_valid (f : form) : Prop :=
  (age_min <= f_age f <= age_max)%Z /\ f_gender f ∈ gender_options /\
  f_workclass f ∈ workclass_options /\ f_education f ∈ education_options /\
  f_occupation f ∈ occupation_options /\ (hours_min <= f_hours f <= hours_max)%Z.

#[export] Instance form_valid_dec f : Decision (form_valid f).
Proof. unfold form_valid. apply _. Defined.

(** [st.number_input] starts at its minimum, a select box at its first
    option, the slider at its given value. *)
Definition form_init : form :=
  mk_form age_min "Male ♂️" "Private 🏢" "Bachelors 🎓" "Tech-support 💻" hours_default.

(** ** The manual handler (lines 132-156) *)

(** [s.split(" ")[0]] *)
Fixpoint split_head (s : string) : string :=
  match s with
  | EmptyString => EmptyString
  | String c s' => if Ascii.eqb c " "%char then EmptyString else String c (split_head s')
  end.

Definition input_data (f : form) : record :=
  [("age", VInt (f_age f));
   ("gender", VStr (split_head (f_gender f)));
   ("workclass", VStr (split_head (f_workclass f)));
   ("education", VStr (split_head (f_education f)));
   ("occupation", VStr (split_head (f_occupation f)));
   ("hours_per_week", VInt (f_hours f))].

Definition input_df (f : form) : frame := from_records [input_data f].

(** [model.predict(...)[0]] *)
Definition first_label (ls : list string) : result string :=
  match ls with
  | l :: _ => Ok l
  | [] => Err (IndexError "index 0 is out of bounds for axis 0 with size 0")
  end.

Record manual_result := mk_manual_result {
  prediction : string;
  result_csv : frame
}.

Definition manual_predict `{Predictor M} (model : M) (model_columns : list string)
    (f : form) : result manual_result :=
  input_encoded ← align (input_df f) model_columns;
  preds ← predict model input_encoded;
  p ← first_label preds;
  mret (mk_manual_result p (set_scalar (input_df f) "prediction" (Some (VStr p)))).

(** ** The bulk handler (lines 176-185) *)

Definition bulk_predict `{Predictor M} (model : M) (model_columns : list string)
    (df : frame) : result frame :=
  df_encoded ← align df model_columns;
  predictions ← predict model df_encoded;
  set_column df "Prediction" ((fun p => Some (VStr p)) <$> predictions).

(** ** Specification of the encoded form *)

(** The dummy columns a form switches on, one per categorical field. *)
Definition form_dummies (f : form) : list string :=
  ["gender_" +:+ split_head (f_gender f); "workclass_" +:+ split_head (f_workclass f);
   "education_" +:+ split_head (f_education f);
   "occupation_" +:+ split_head (f_occupation f)].

(** The value of feature [t] for a form, as the specification describes
    the encoded vector: numeric fields under their names, 1 under the
    dummy of each categorical value, 0 for every other column. *)
Definition manual_feature (f : form) (t : string) : Z :=
  if decide (t = "age") then f_age f
  else if decide (t = "hours_per_week") then f_hours f
  else if decide (t ∈ form_dummies f) then 1
  else 0.

(** ** Lemmas on the manual path *)

Lemma col_names_expand_input f :
  col_names (expand (input_df f)) = ["age"; "hours_per_week"] ++ form_dummies f.
Proof. reflexivity. Qed.

Lemma NoDup_expand_input f : NoDup (col_names (expand (input_df f))).
Proof.
  rewrite col_names_expand_input. unfold form_dummies. simpl.
  repeat (apply NoDup_cons; split; [rewrite ?elem_of_cons, ?elem_of_nil;
    intros ?; destruct_or!; first [discriminate|contradiction]|]).
  constructor.
Qed.

(** The expansion of a form, column by column. *)
Definition one_hot (s : string) : list cell := [indicator s (Some (VStr s))].

Lemma expand_input_columns f :
  columns (expand (input_df f)) =
  [("age", [Some (VInt (f_age f))]); ("hours_per_week", [Some (VInt (f_hours f))]);
   ("gender_" +:+ split_head (f_gender f), one_hot (split_head (f_gender f)));
   ("workclass_" +:+ split_head (f_workclass f), one_hot (split_head (f_workclass f)));
   ("education_" +:+ split_head (f_education f), one_hot (split_head (f_education f)));
   ("occupation_" +:+ split_head (f_occupation f), one_hot (split_head (f_occupation f)))].
Proof. reflexivity. Qed.

Lemma indicator_self s : indicator s (Some (VStr s)) = Some (VInt 1).
Proof. unfold indicator. by rewrite decide_True. Qed.

(** Looking a feature up in the expanded form gives the specified value. *)
Lemma expand_input_get f t :
  default [Some (VInt 0)] (dict_get t (columns (expand (input_df f)))) =
  [Some (VInt (manual_feature f t))].
Proof.
  rewrite expand_input_columns. unfold manual_feature, form_dummies, one_hot.
  cbn [dict_get default].
  destruct (decide (t = "age")) as [->|H1]; [done|].
  destruct (decide (t = "hours_per_week")) as [->|H2]; [done|].
  destruct (decide (t = _)) as [->|H3];
    [rewrite decide_True by (left; done); by rewrite indicator_self|].
  destruct (decide (t = _)) as [->|H4];
    [rewrite decide_True by (right; left; done); by rewrite indicator_self|].
  destruct (decide (t = _)) as [->|H5];
    [rewrite decide_True by (do 2 right; left; done); by rewrite indicator_self|].
  destruct (decide (t = _)) as [->|H6];
    [rewrite decide_True by (do 3 right; left; done); by rewrite indicator_self|].
  rewrite decide_False; [done|]. rewrite !elem_of_cons, elem_of_nil. intuition.
Qed.

Lemma manual_align f schema :
  align (input_df f) schema =
  Ok (mk_frame 1 ((fun t => (t, [Some (VInt (manual_feature f t))])) <$> schema)).
Proof.
  unfold align. rewrite get_dummies_Ok by discriminate. simpl.
  rewrite reindex_NoDup by apply NoDup_expand_input. do 2 f_equal.
  apply list_fmap_ext. intros _ t _. f_equal. apply expand_input_get.
Qed.

Lemma frame_rows_single (cols : list column) :
  frame_rows (mk_frame 1 cols) = [(fun c => cell_at c 0) <$> cols].
Proof. reflexivity. Qed.

(** The classifier labels the aligned form with the specified vector. *)
Lemma predict_manual_frame `{Predictor M} (m : M) schema f :
  feature_names_in m = schema -> schema <> [] ->
  predict m (mk_frame 1 ((fun t => (t, [Some (VInt (manual_feature f t))])) <$> schema)) =
  Ok [predict_row m ((fun t => Some (manual_feature f t)) <$> schema)].
Proof.
  intros Hfn Hne. unfold predict. rewrite decide_True.
  2:{ unfold col_names. simpl. rewrite <-list_fmap_compose, Hfn. apply list_fmap_id. }
  rewrite frame_rows_single, <-list_fmap_compose.
  replace (mapM (mapM (cell_number (allow_nan m))) _)
    with (Ok [(fun t => Some (manual_feature f t)) <$> schema] : result (list (list (option Z)))).
  2:{ symmetry. apply mapM_Ok. constructor; [|constructor]. apply mapM_Ok.
      clear Hfn Hne. induction schema as [|t ts IH]; simpl; constructor; [done|exact IH]. }
  rewrite bind_Ok_l. cbn [nrows columns]. rewrite decide_False by lia.
  rewrite decide_False; [reflexivity|]. intros Hn. apply fmap_nil_inv in Hn. contradiction.
Qed.

Lemma manual_predict_eq `{Predictor M} (m : M) schema f :
  feature_names_in m = schema -> schema <> [] ->
  manual_predict m schema f =
  Ok (mk_manual_result (predict_row m ((fun t => Some (manual_feature f t)) <$> schema))
        (set_scalar (input_df f) "prediction"
           (Some (VStr (predict_row m ((fun t => Some (manual_feature f t)) <$> schema)))))).
Proof.
  intros Hfn Hne. unfold manual_predict.
  rewrite manual_align, bind_Ok_l, predict_manual_frame by done. reflexivity.
Qed.

(** A column of the upload with a NaN cell at row [i], numeric and kept
    by the schema, reaches the classifier as NaN. *)
Lemma predict_rejects_nan `{Predictor M} (m : M) X n cs i :
  allow_nan m = false -> (n, cs) ∈ columns X -> i < nrows X -> cs !! i = Some None ->
  forall ls, predict m X <> Ok ls.
Proof.
  intros Hnan Hin Hi Hc ls Hp. apply predict_rows in Hp.
  destruct (Forall2_lookup_l _ _ _ i _ Hp (frame_rows_lookup X i Hi)) as (l & _ & v & Hv & _).
  destruct (mapM_Ok_elem _ _ _ (cell_at (n, cs) i) Hv) as [y Hy].
  - apply list_elem_of_fmap. by exists (n, cs).
  - unfold cell_at in Hy. simpl in Hy. rewrite Hc, Hnan in Hy. discriminate.
Qed.

Lemma bulk_predict_Ok_inv `{Predictor M} (m : M) schema df out :
  bulk_predict m schema df = Ok out ->
  exists enc ls, align df schema = Ok enc /\ predict m enc = Ok ls /\
    out = mk_frame (nrows df) (dict_set "Prediction" ((fun p => Some (VStr p)) <$> ls)
                                        (columns df)).
Proof.
  unfold bulk_predict.
  destruct (align df schema) as [enc|e] eqn:Hal; [|discriminate]. simpl.
  destruct (predict m enc) as [ls|e] eqn:Hp; [|discriminate]. simpl.
  rewrite set_column_Ok.
  - intros [= <-]. by exists enc, ls.
  - rewrite length_fmap, (predict_length _ _ _ Hp). exact (align_nrows _ _ _ Hal).
Qed.

(** ** Theorems on the handlers *)

(** C23: for every form and every schema, the manual path's alignment
    never raises and yields the one-row vector the specification
    describes: age and hours under their names, 1 under
    [<field>_<value>] for each categorical choice, 0 under every other
    schema column, in schema order. *)
Theorem manual_encoding f schema :
  align (input_df f) schema =
  Ok (mk_frame 1 ((fun t => (t, [Some (VInt (manual_feature f t))])) <$> schema)).
Proof. apply manual_align. Qed.

(** C7: when the model was fitted on the (non-empty) column list the
    app aligns to, the manual handler returns the classifier's label for
    the specified vector, and the downloadable row is the input row with
    that label in column [prediction]. *)
Theorem manual_predict_returns `{Predictor M} (m : M) schema f :
  feature_names_in m = schema -> schema <> [] ->
  manual_predict m schema f =
  Ok (mk_manual_result (predict_row m ((fun t => Some (manual_feature f t)) <$> schema))
        (set_scalar (input_df f) "prediction"
           (Some (VStr (predict_row m ((fun t => Some (manual_feature f t)) <$> schema)))))).
Proof. apply manual_predict_eq. Qed.

(** C8: a successful bulk prediction keeps the uploaded rows and
    columns, appends one column [Prediction], and its i-th cell is the
    label the classifier gives to the i-th aligned row. *)
Theorem bulk_one_label_per_row `{Predictor M} (m : M) schema df out :
  frame_wf df -> "Prediction" ∉ col_names df -> bulk_predict m schema df = Ok out ->
  col_names out = col_names df ++ ["Prediction"] /\ nrows out = nrows df /\
  frame_wf out /\
  exists enc preds, align df schema = Ok enc /\
    dict_get "Prediction" (columns out) = Some preds /\
    Forall2 (fun r p => exists v, mapM (cell_number (allow_nan m)) r = Ok v /\
                                  p = Some (VStr (predict_row m v))) (frame_rows enc) preds.
Proof.
  intros Hwf Hp Hb. destruct (bulk_predict_Ok_inv _ _ _ _ Hb) as (enc & ls & Hal & Hpr & ->).
  split; [unfold col_names; simpl; rewrite dict_set_keys; by rewrite decide_False|].
  split; [done|]. split.
  - eapply set_column_wf; [exact Hwf|]. apply set_column_Ok.
    rewrite length_fmap, (predict_length _ _ _ Hpr). exact (align_nrows _ _ _ Hal).
  - eexists enc, _. split; [done|]. split; [apply dict_get_set_eq|].
    apply Forall2_fmap_r. eapply Forall2_impl; [exact (predict_rows _ _ _ Hpr)|].
    intros r l (v & Hv & ->). eauto.
Qed.

(** C24: a bulk upload whose numeric column kept by the schema has an
    empty cell raises [ValueError] at prediction with any classifier that
    rejects missing values, although missing categorical fields are
    zero-filled. *)
Theorem bulk_missing_numeric_raises `{Predictor M} (m : M) schema df n cs i :
  allow_nan m = false -> frame_wf df -> NoDup (col_names (expand df)) ->
  (n, cs) ∈ columns df -> ~ is_object_column (n, cs) -> n ∈ schema ->
  cs !! i = Some None ->
  exists e, bulk_predict m schema df = Err e.
Proof.
  intros Hnan Hwf Hnd Hin Hnum Hn Hc. unfold bulk_predict.
  destruct (align df schema) as [enc|e] eqn:Hal; [|by eexists]. simpl.
  destruct (predict m enc) as [ls|e] eqn:Hp; [exfalso|by eexists].
  eapply (predict_rejects_nan m enc n cs i); [done| |idtac|done|exact Hp].
  - apply dict_get_Some_in. rewrite (align_get _ _ _ _ Hal Hn).
    by rewrite (dict_get_expand_numeric _ _ _ Hnd Hin Hnum).
  - rewrite (align_nrows _ _ _ Hal), <-(wf_column_length _ _ _ Hwf Hin).
    by apply lookup_lt_Some with None.
Qed.

(** C25: an upload with a header and no data row always raises in the
    bulk tab: the aligned frame has no row and [predict] rejects it (or
    an earlier step raises). *)
Theorem bulk_empty_upload_raises `{Predictor M} (m : M) schema df :
  nrows df = 0 -> exists e, bulk_predict m schema df = Err e.
Proof.
  intros Hn. unfold bulk_predict.
  destruct (align df schema) as [enc|e] eqn:Hal; [|by eexists]. rewrite bind_Ok_l.
  destruct (predict m enc) as [ls|e] eqn:Hp; [|by eexists]. exfalso.
  apply predict_Ok in Hp as (_ & Hn' & _). by rewrite (align_nrows _ _ _ Hal) in Hn'.
Qed.

(** ** Examples *)

(** A classifier for the examples: above the line when the first
    feature, the age, exceeds a cut. *)
Record age_rule := mk_age_rule { rule_columns : list string; rule_cut : Z }.

#[export] Instance age_rule_predictor : Predictor age_rule := {|
  feature_names_in := rule_columns;
  allow_nan := fun _ => false;
  predict_row := fun r row =>
    match row with
    | Some a :: _ => if (rule_cut r <? a)%Z then ">50K" else "<=50K"
    | _ => "<=50K"
    end
|}.

Definition example_rule : age_rule := mk_age_rule spec_schema 40.

Example form_init_encoded :
  align (input_df form_init) spec_schema =
  Ok (mk_frame 1 [("age", [Some (VInt 18)]); ("gender_Male", [Some (VInt 1)]);
                  ("gender_Female", [Some (VInt 0)]); ("workclass_Private", [Some (VInt 1)])]).
Proof. reflexivity. Qed.

Lemma manual_predict_returns_witness :
  exists r, manual_predict example_rule spec_schema form_init = Ok r /\
            prediction r = "<=50K".
Proof.
  eexists. split; [apply manual_predict_returns; [reflexivity|discriminate]|reflexivity].
Defined.

(** Scenario 3 of the specification: three rows, one without gender. *)
Lemma bulk_one_label_per_row_witness :
  exists out, bulk_predict example_rule spec_schema scenario_batch = Ok out /\
    nrows out = 3 /\ col_names out = col_names scenario_batch ++ ["Prediction"].
Proof.
  eexists. split; [reflexivity|].
  destruct (bulk_one_label_per_row example_rule spec_schema scenario_batch _
              (from_records_wf _) ltac:(decide_prop) eq_refl) as (Hn & Hr & _).
  split; [exact Hr|exact Hn].
Defined.

(** An upload whose second row has no age. *)
Definition upload_missing_age : frame :=
  from_records [[("age", VInt 30); ("gender", VStr "Male"); ("workclass", VStr "Private")];
                [("gender", VStr "Female"); ("workclass", VStr "Private")]].

Lemma bulk_missing_numeric_raises_witness :
  exists e, bulk_predict example_rule spec_schema upload_missing_age = Err e.
Proof.
  apply (bulk_missing_numeric_raises example_rule spec_schema upload_missing_age
           "age" [Some (VInt 30); None] 1);
    [reflexivity|apply from_records_wf|decide_prop|decide_prop|vm_compute; intros []
    |decide_prop|reflexivity].
Defined.

(** The header of an upload without rows. *)
Definition empty_upload : frame := mk_frame 0 [("age", []); ("gender", [])].

Lemma bulk_empty_upload_raises_witness :
  nrows empty_upload = 0 /\ exists e, bulk_predict example_rule spec_schema empty_upload = Err e.
Proof. split; [reflexivity|]. by apply bulk_empty_upload_raises. Defined.
