(* ===== verification/Session.v ===== *)
(** * Session: the Streamlit page as a state machine

    Streamlit keeps the widgets' values between interactions and reruns
    [src/main.py] from the top after each one.  [session] is the widget
    state: the language select box (line 97), the six form widgets
    (lines 125-130) and the uploaded file (line 174).  An [event] is one
    interaction; a widget only takes values it offers (its options, its
    range), so an out-of-range value leaves the widget as it was.  The
    form widgets carry translated labels and no key: a language pick
    re-creates those whose label changes, at their defaults.
    [rerun] is one execution of the script: the translation lookups, the
    manual tab (the prediction and its charts only on the rerun the
    button triggers) and the upload tab, in that order.  It runs in the
    [page] monad: the elements rendered so far and the outcome, since an
    exception stops the script but leaves what was rendered on screen.
    The model and its column list are parameters: lines 8-9 load them
    from files on each rerun.  A download button carries the text
    [to_csv] writes (lines 153 and 197); the uploaded file is kept as
    its text and parsed by [parse_csv] ([Csv.CsvParser], pandas'
    [read_csv]) on every rerun (line 177).

    The theorems: the reachable states are exactly those within the
    widgets' bounds, a language switch resets the form,
    a session without an upload never raises, a file the parser rejects
    ends the run at line 177, and an upload without an [age] column
    raises at the histogram of line 187, after its table and before its
    download. *)

From S2P Require Import Prelude Translations Frame Csv Dummies Reindex Predictor App.
Open Scope string_scope.
Open Scope list_scope.

Record session := mk_session {
  s_lang : string;
  s_form : form;
  s_upload : option string      (** the text of the uploaded file *)
}.

Definition session_init : session := mk_session "en" form_init None.

Inductive event :=
| SelectLang (l : string)
| SetAge (z : Z)
| SelectGender (s : string)
| SelectWorkclass (s : string)
| SelectEducation (s : string)
| SelectOccupation (s : string)
| SetHours (z : Z)
| UploadFile (data : string)
| RemoveFile
| ClickPredict.

(** A select box keeps its value unless an offered option is picked. *)
Definition choose (opts : list string) (s old : string) : string :=
  if decide (s ∈ opts) then s else old.

(** [number_input] and [slider] keep their value outside their range. *)
Definition within (lo hi z old : Z) : Z :=
  if decide (lo <= z <= hi)%Z then z else old.

Definition set_form (s : session) (f : form) : session :=
  mk_session (s_lang s) f (s_upload s).

(** The label of the form widget [k] in language [l]: lines 125-130
    label each widget with [lang[k]], the table of line 98. *)
Definition widget_label (l k : string) : option string :=
  match get_translations l with Ok t => dict_get k t | Err _ => None end.

(** Streamlit identifies a widget without a [key] by its parameters,
    its label among them: a widget whose label changes is a new widget,
    which starts at its default value. *)
Definition relabel {A} (l l' k : string) (v dflt : A) : A :=
  if decide (widget_label l k = widget_label l' k) then v else dflt.

(** A pick in the language select box of line 97: the form widgets
    whose label the new table changes restart at their defaults, the
    file uploader (its label is the constant [""]) keeps its file. *)
Definition switch_lang (s : session) (l : string) : session :=
  let l' := choose lang_options l (s_lang s) in
  let f := s_form s in
  let keep {A} (k : string) (v dflt : A) := relabel (s_lang s) l' k v dflt in
  mk_session l'
    (mk_form (keep "age" (f_age f) (f_age form_init))
             (keep "gender" (f_gender f) (f_gender form_init))
             (keep "workclass" (f_workclass f) (f_workclass form_init))
             (keep "education" (f_education f) (f_education form_init))
             (keep "occupation" (f_occupation f) (f_occupation form_init))
             (keep "hours" (f_hours f) (f_hours form_init)))
    (s_upload s).

Definition apply_event (s : session) (e : event) : session :=
  let f := s_form s in
  match e with
  | SelectLang l => switch_lang s l
  | SetAge z => set_form s (mk_form (within age_min age_max z (f_age f)) (f_gender f)
                              (f_workclass f) (f_education f) (f_occupation f) (f_hours f))
  | SelectGender g => set_form s (mk_form (f_age f) (choose gender_options g (f_gender f))
                              (f_workclass f) (f_education f) (f_occupation f) (f_hours f))
  | SelectWorkclass w => set_form s (mk_form (f_age f) (f_gender f)
                              (choose workclass_options w (f_workclass f))
                              (f_education f) (f_occupation f) (f_hours f))
  | SelectEducation d => set_form s (mk_form (f_age f) (f_gender f) (f_workclass f)
                              (choose education_options d (f_education f))
                              (f_occupation f) (f_hours f))
  | SelectOccupation o => set_form s (mk_form (f_age f) (f_gender f) (f_workclass f)
                              (f_education f) (choose occupation_options o (f_occupation f))
                              (f_hours f))
  | SetHours z => set_form s (mk_form (f_age f) (f_gender f) (f_workclass f)
                              (f_education f) (f_occupation f)
                              (within hours_min hours_max z (f_hours f)))
  | UploadFile data => mk_session (s_lang s) f (Some data)
  | RemoveFile => mk_session (s_lang s) f None
  | ClickPredict => s
  end.

(** The states a user can reach. *)
Inductive reachable : session -> Prop :=
| reach_init : reachable session_init
| reach_step s e : reachable s -> reachable (apply_event s e).

(** What one run of the script shows. *)
Inductive output :=
| OSuccess (msg : string)
| OTable (df : frame)
| OChart (title : string)
| ODownload (file_name : string) (data : string).

(** One run renders elements in order until it ends or raises: the
    elements shown so far and the outcome.  Streamlit keeps what was
    rendered before an exception and shows the exception below it. *)
Definition page (A : Type) : Type := (list output * result A)%type.

#[export] Instance page_ret : MRet page := fun A a => ([], Ok a).
#[export] Instance page_bind : MBind page := fun A B f p =>
  match p.2 with
  | Ok a => ((p.1 ++ (f a).1), (f a).2)
  | Err e => (p.1, Err e)
  end.

Definition lift {A} (r : result A) : page A := ([], r).

Definition emit (o : output) : page unit := ([o], Ok tt).

(** A plotly express chart of [df] whose arguments ([x=], [names=], ...)
    name columns: plotly raises [ValueError] when one is not a column. *)
Definition chart (df : frame) (args : list (string * string)) (title : string) : page unit :=
  match find (fun a => bool_decide (a.2 ∉ col_names df)) args with
  | Some (arg, col) =>
      lift (Err (ValueError ("Value of '" +:+ arg +:+ "' is not the name of a column in 'data_frame'. Received: " +:+ col)))
  | None => emit (OChart title)
  end.

(** The labels the manual tab reads before the button (lines 125-132). *)
Definition manual_tab_keys : list string :=
  ["age"; "gender"; "workclass"; "education"; "occupation"; "hours"; "predict"].

(** Lines 132-169, after the button was clicked. *)
Definition manual_tab `{Predictor M} (model : M) (model_columns : list string)
    (lang : table) (f : form) : page unit :=
  r ← lift (manual_predict model model_columns f);
  label ← lift (dict_index lang "predicted_income");
  emit (OSuccess (label +:+ ": **" +:+ prediction r +:+ "**"));;
  emit (ODownload "single_prediction.csv" (to_csv (result_csv r)));;
  chart (input_df f) [("names", "workclass")] "Workclass Distribution";;
  chart (input_df f) [("x", "occupation"); ("y", "hours_per_week")] "Occupation vs Weekly Hours";;
  chart (input_df f) [("x", "age")] "Age Distribution".

(** Lines 176-198, with a file uploaded. *)
Definition upload_tab `{Predictor M} (model : M) (model_columns : list string)
    (lang : table) (df : frame) : page unit :=
  out ← lift (bulk_predict model model_columns df);
  emit (OSuccess "✅ Predictions completed");;
  emit (OTable out);;
  chart out [("x", "age")] "Age Distribution";;
  (if decide ("occupation" ∈ col_names out)
   then chart out [("x", "occupation"); ("color", "occupation")] "Occupation Count"
   else mret tt);;
  _ ← lift (dict_index lang "download");
  emit (ODownload "predicted_results.csv" (to_csv out)).

(** One run of the script body (lines 96-198). *)
Definition rerun `{Predictor M} `{CsvParser} (model : M) (model_columns : list string)
    (s : session) (clicked : bool) : page unit :=
  lang ← lift (get_translations (s_lang s));
  _ ← lift (mapM (dict_index lang) manual_tab_keys);
  (if clicked then manual_tab model model_columns lang (s_form s) else mret tt);;
  _ ← lift (dict_index lang "upload_csv");
  match s_upload s with
  | Some data => df ← lift (parse_csv data); upload_tab model model_columns lang df
  | None => mret tt
  end.

(** ** Invariant *)

Definition session_ok (s : session) : Prop :=
  form_valid (s_form s) /\ s_lang s ∈ lang_options.

Lemma relabel_cases {A} l l' k (v dflt : A) : relabel l l' k v dflt = v \/ relabel l l' k v dflt = dflt.
Proof. unfold relabel. case_decide; auto. Qed.

Lemma relabel_same {A} l l' k (v : A) : relabel l l' k v v = v.
Proof. unfold relabel. by case_decide. Qed.

Lemma switch_lang_ok s l : session_ok s -> session_ok (switch_lang s l).
Proof.
  destruct s as [l0 [a g w d o h] u].
  intros ((Ha & Hg & Hw & Hd & Ho & Hh) & Hl). unfold session_ok, form_valid, switch_lang.
  cbn [s_form s_lang f_age f_gender f_workclass f_education f_occupation f_hours form_init] in *.
  repeat match goal with
         | |- context [relabel ?l1 ?l2 ?k ?v ?dflt] =>
             destruct (relabel_cases l1 l2 k v dflt) as [-> | ->]
         end;
  unfold choose, age_min, age_max, hours_min, hours_max, hours_default in *;
  case_decide; split_and!; (done || lia || decide_prop).
Qed.

Lemma apply_event_ok s e : session_ok s -> session_ok (apply_event s e).
Proof.
  intros Hs. destruct e; [by apply switch_lang_ok|..]; revert Hs;
  destruct s as [l [a g w d o h] u];
  intros ((Ha & Hg & Hw & Hd & Ho & Hh) & Hl); unfold session_ok, form_valid; simpl in *;
    unfold choose, within, age_min, age_max, hours_min, hours_max in *;
    repeat case_decide; split_and!;
    try done; lia.
Qed.

Lemma session_init_ok : session_ok session_init.
Proof. unfold session_ok, form_valid. simpl. repeat split; try lia; decide_prop. Qed.

(** The label the classifier gives to the encoded form. *)
Definition expected_label `{Predictor M} (m : M) (cols : list string) (f : form) : string :=
  predict_row m ((fun t => Some (manual_feature f t)) <$> cols).

(** ** The page monad *)

Lemma lift_Ok_bind {A B} (a : A) (f : A -> page B) : (lift (Ok a) ≫= f) = f a.
Proof. cbv [mbind page_bind lift]. simpl. by destruct (f a). Qed.

Lemma lift_Err_bind {A B} e (f : A -> page B) : (lift (Err e) ≫= f) = ([], Err e).
Proof. reflexivity. Qed.

Lemma emit_bind {B} o (f : unit -> page B) : (emit o ≫= f) = (o :: (f tt).1, (f tt).2).
Proof. reflexivity. Qed.

Lemma ret_bind {A B} (a : A) (f : A -> page B) : (mret a ≫= f) = f a.
Proof. cbv [mbind page_bind mret page_ret]. simpl. by destruct (f a). Qed.

Lemma page_bind_assoc {A B C} (p : page A) (f : A -> page B) (g : B -> page C) :
  ((p ≫= f) ≫= g) = (p ≫= fun a => f a ≫= g).
Proof.
  destruct p as [o [a|e]]; cbv [mbind page_bind]; simpl; [|done].
  destruct (f a) as [o1 [b|e]]; simpl; [|done]. by rewrite app_assoc.
Qed.

Lemma page_bind_ext {A B} (p : page A) (f g : A -> page B) :
  (forall a, f a = g a) -> (p ≫= f) = (p ≫= g).
Proof. intros Hfg. destruct p as [o [a|e]]; cbv [mbind page_bind]; simpl; [by rewrite Hfg|done]. Qed.

#[export] Hint Rewrite @lift_Ok_bind @lift_Err_bind @emit_bind @ret_bind @page_bind_assoc : salary.

Lemma chart_ok df args title :
  Forall (fun a => a.2 ∈ col_names df) args -> chart df args title = emit (OChart title).
Proof.
  intros Hargs. unfold chart. destruct (find _ args) as [[arg col]|] eqn:Hf; [|done].
  apply find_some in Hf as [Hin Hn]. apply bool_decide_eq_true in Hn.
  rewrite Forall_forall in Hargs. exfalso. apply Hn, (Hargs (arg, col)). by apply list_elem_of_In.
Qed.

Lemma chart_err df args title arg col :
  (arg, col) ∈ args -> col ∉ col_names df -> exists e, chart df args title = ([], Err e).
Proof.
  intros Hin Hcol. unfold chart. destruct (find _ args) as [[a c]|] eqn:Hf; [by eexists|].
  apply list_elem_of_In in Hin. pose proof (find_none _ _ Hf _ Hin) as Hn.
  apply bool_decide_eq_false in Hn. simpl in Hn. tauto.
Qed.

Lemma col_names_input_df f :
  col_names (input_df f) =
  ["age"; "gender"; "workclass"; "education"; "occupation"; "hours_per_week"].
Proof. reflexivity. Qed.

(** The manual tab after a click, with a model fitted on its columns. *)
Lemma manual_tab_eq `{Predictor M} (m : M) cols lang f label :
  feature_names_in m = cols -> cols <> [] -> dict_index lang "predicted_income" = Ok label ->
  manual_tab m cols lang f =
  ([OSuccess (label +:+ ": **" +:+ expected_label m cols f +:+ "**");
    ODownload "single_prediction.csv"
      (to_csv (set_scalar (input_df f) "prediction" (Some (VStr (expected_label m cols f)))));
    OChart "Workclass Distribution"; OChart "Occupation vs Weekly Hours";
    OChart "Age Distribution"], Ok tt).
Proof.
  intros Hfn Hne Hl. unfold manual_tab. rewrite manual_predict_eq by done.
  rewrite lift_Ok_bind, Hl, lift_Ok_bind.
  rewrite !chart_ok by (rewrite col_names_input_df; decide_prop). reflexivity.
Qed.

Lemma manual_tab_keys_ui k : k ∈ manual_tab_keys -> k ∈ ui_keys.
Proof.
  intros Hk. apply list_elem_of_In in Hk. simpl in Hk.
  destruct_or! Hk; try contradiction; subst; decide_prop.
Qed.

Lemma reachable_ok s : reachable s -> session_ok s.
Proof.
  induction 1 as [|s e _ IH]; [apply session_init_ok|by apply apply_event_ok].
Qed.

(** The translations and the labels read before the tabs never raise. *)
Lemma rerun_prefix `{Predictor M} `{CsvParser} (m : M) cols s :
  exists lang, get_translations (s_lang s) = Ok lang /\
  (forall k, k ∈ ui_keys -> exists v, dict_index lang k = Ok v) /\
  forall clicked, rerun m cols s clicked =
    ((if clicked then manual_tab m cols lang (s_form s) else mret tt) ≫= fun _ =>
     match s_upload s with
     | Some data => df ← lift (parse_csv data); upload_tab m cols lang df
     | None => mret tt
     end).
Proof.
  destruct (get_translations_ok (s_lang s)) as [lang [Hget Hk]].
  exists lang. split_and!; [done|done|]. intros clicked. unfold rerun.
  rewrite Hget, lift_Ok_bind.
  destruct (mapM_Ok_all (dict_index lang) manual_tab_keys) as [vs ->].
  { intros k Hk'. by apply Hk, manual_tab_keys_ui. }
  rewrite lift_Ok_bind.
  destruct (Hk "upload_csv") as [u Hu]; [decide_prop|].
  apply page_bind_ext. intros _. by rewrite Hu, lift_Ok_bind.
Qed.

(** An upload without an [age] column: the table is shown, then the
    age histogram raises. *)
Lemma upload_tab_no_age `{Predictor M} (m : M) cols lang df out :
  bulk_predict m cols df = Ok out -> "age" ∉ col_names df ->
  exists e, upload_tab m cols lang df =
            ([OSuccess "✅ Predictions completed"; OTable out], Err e).
Proof.
  intros Hb Hage. unfold upload_tab. rewrite Hb, lift_Ok_bind, !emit_bind.
  destruct (chart_err out [("x", "age")] "Age Distribution" "x" "age") as [e He];
    [by left| |].
  - destruct (bulk_predict_Ok_inv m cols df out Hb) as (enc & ls & _ & _ & ->).
    unfold col_names. cbn [columns]. rewrite dict_set_keys.
    case_decide; [done|]. rewrite elem_of_app, list_elem_of_singleton. intros [?|?]; done.
  - exists e. rewrite He. reflexivity.
Qed.

(** Every valid widget state is reached from the initial one: set the
    language and each widget, then upload the file if there is one. *)
Lemma session_ok_reachable s : session_ok s -> reachable s.
Proof.
  destruct s as [l [a g w d o h] u]. intros ((Ha & Hg & Hw & Hd & Ho & Hh) & Hl).
  cbn [s_form s_lang f_age f_gender f_workclass f_education f_occupation f_hours] in *.
  pose (es := [SelectLang l; SetAge a; SelectGender g; SelectWorkclass w; SelectEducation d;
               SelectOccupation o; SetHours h] ++
              match u with Some data => [UploadFile data] | None => [] end).
  assert (Hr : reachable (foldl apply_event session_init es)).
  { generalize session_init reach_init. clear. induction es as [|e es IH]; [done|].
    intros s0 Hs0. apply IH. by apply reach_step. }
  enough (foldl apply_event session_init es = mk_session l (mk_form a g w d o h) u) as <-
    by exact Hr.
  unfold es. destruct u; cbn; unfold switch_lang; cbn; rewrite !relabel_same;
    unfold choose, within, set_form; cbn; repeat case_decide; tauto || reflexivity.
Qed.

(** The form widgets' labels differ between any two languages of the
    selector. *)
Lemma widget_labels_differ l l' k :
  l ∈ lang_options -> l' ∈ lang_options -> l <> l' ->
  k ∈ ["age"; "gender"; "workclass"; "education"; "occupation"; "hours"] ->
  widget_label l k <> widget_label l' k.
Proof.
  intros Hl Hl' Hne Hk. apply list_elem_of_In in Hl, Hl', Hk. simpl in Hl, Hl', Hk.
  destruct_or! Hl; destruct_or! Hl'; destruct_or! Hk; try contradiction; subst;
    try congruence; intros Heq; vm_compute in Heq; discriminate.
Qed.

(** ** Theorems *)

(** C26: the states a user can reach are exactly the valid ones: the
    form widgets hold values they offer (age in 18..100, hours in
    1..100, each select box on one of its options) and the language is
    one of en, hi, te; conversely every such state, with or without an
    upload, is reached by some sequence of interactions. *)
Theorem reachable_session_ok s : reachable s <-> session_ok s.
Proof. split; [apply reachable_ok|apply session_ok_reachable]. Qed.

(** C20: picking another language in the selector of line 97 resets
    the six form widgets to their defaults (age 18, Male, Private,
    Bachelors, Tech-support, 40 hours), since their labels come from the
    new translation table; the uploaded file stays.  Picking the
    language already selected changes nothing. *)
Theorem select_lang_resets_form s l :
  s_lang s ∈ lang_options -> l ∈ lang_options ->
  apply_event s (SelectLang l) =
  if decide (l = s_lang s) then s else mk_session l form_init (s_upload s).
Proof.
  destruct s as [l0 [] u]. cbn [s_lang s_upload]. intros Hs Hl.
  cbn [apply_event]. unfold switch_lang, choose. cbn [s_lang s_form s_upload].
  rewrite decide_True by done. unfold relabel. destruct (decide (l = l0)) as [<-|Hne].
  - by rewrite !decide_True.
  - rewrite !decide_False by (apply widget_labels_differ; [done|done|congruence|decide_prop]).
    reflexivity.
Qed.

(** In every reachable state, every feature the manual path sends
    to the classifier lies in 0..100, whatever the model's columns. *)
Theorem reachable_features_bounded s t :
  reachable s -> (0 <= manual_feature (s_form s) t <= 100)%Z.
Proof.
  intros [[Ha [_ [_ [_ [_ Hh]]]]] _]%reachable_ok.
  unfold manual_feature, age_min, age_max, hours_min, hours_max in *.
  repeat case_decide; lia.
Qed.

(** C27: with a model fitted on the app's (non-empty) column list and no
    file uploaded, no rerun raises: without a click the page shows
    nothing computed, with a click it shows the translated
    "Predicted Income" message with the classifier's label for the
    encoded form, and offers the one-row download. *)
Theorem rerun_without_upload `{Predictor M} `{CsvParser} (m : M) cols s clicked :
  feature_names_in m = cols -> cols <> [] -> s_upload s = None ->
  exists label, rerun m cols s clicked =
    ((if clicked
      then [OSuccess (label +:+ ": **" +:+ expected_label m cols (s_form s) +:+ "**");
            ODownload "single_prediction.csv"
              (to_csv (set_scalar (input_df (s_form s)) "prediction"
                 (Some (VStr (expected_label m cols (s_form s))))));
            OChart "Workclass Distribution"; OChart "Occupation vs Weekly Hours";
            OChart "Age Distribution"]
      else []), Ok tt).
Proof.
  intros Hfn Hne Hup. destruct (rerun_prefix m cols s) as (lang & _ & Hk & Hrun).
  destruct (Hk "predicted_income") as [label Hl]; [decide_prop|].
  exists label. rewrite Hrun, Hup. destruct clicked.
  - rewrite (manual_tab_eq m cols lang _ label) by done. reflexivity.
  - reflexivity.
Qed.

(** C36: an upload without an [age] column never gets its download: the
    run shows the success message and the table, then [px.histogram(df,
    x='age')] (line 187, unguarded unlike the occupation chart of line
    191) raises, so the download button of line 198 is never offered. *)
Theorem upload_without_age_no_download `{Predictor M} `{CsvParser} (m : M) cols s data df out :
  s_upload s = Some data -> parse_csv data = Ok df ->
  bulk_predict m cols df = Ok out -> "age" ∉ col_names df ->
  exists e, rerun m cols s false = ([OSuccess "✅ Predictions completed"; OTable out], Err e).
Proof.
  intros Hup Hp Hb Hage. destruct (rerun_prefix m cols s) as (lang & _ & _ & Hrun).
  rewrite Hrun, ret_bind, Hup, Hp, lift_Ok_bind. by apply upload_tab_no_age.
Qed.

(** C29: an uploaded file that [pd.read_csv] rejects (line 177) ends
    the run with the parser's exception: the page shows what it shows
    without an upload (the manual tab's prediction after a click) and
    nothing of the upload tab. *)
Theorem upload_parse_error `{Predictor M} `{CsvParser} (m : M) cols s data e clicked :
  feature_names_in m = cols -> cols <> [] ->
  s_upload s = Some data -> read_csv data = Some (Err e) ->
  rerun m cols s clicked = ((rerun m cols (mk_session (s_lang s) (s_form s) None) clicked).1, Err e).
Proof.
  intros Hfn Hne Hup Hread.
  destruct (rerun_prefix m cols s) as (lang & Hget & Hk & Hrun).
  destruct (rerun_prefix m cols (mk_session (s_lang s) (s_form s) None)) as (lang' & Hget' & _ & Hrun').
  cbn [s_lang] in Hget'. rewrite Hget in Hget'. injection Hget' as <-.
  rewrite Hrun, Hrun', Hup. cbn [s_upload s_form].
  rewrite (parse_csv_read data (Err e) Hread).
  destruct (Hk "predicted_income") as [label Hl]; [decide_prop|].
  destruct clicked; [|reflexivity].
  rewrite (manual_tab_eq m cols lang _ label) by done. reflexivity.
Qed.

(** ** Examples *)

#[local] Existing Instance read_csv_parser.

(** Typing 200 into the age box and picking a workclass the box does not
    offer change nothing; picking Female does. *)
Definition example_session : session :=
  apply_event (apply_event (apply_event session_init (SetAge 200))
                           (SelectGender "Female ♀️"))
              (SelectWorkclass "Unemployed").

Example example_session_form :
  s_form example_session =
  mk_form 18 "Female ♀️" "Private 🏢" "Bachelors 🎓" "Tech-support 💻" 40.
Proof. reflexivity. Qed.

Lemma reachable_session_ok_witness :
  reachable example_session /\ session_ok example_session.
Proof.
  assert (Hr : reachable example_session) by (repeat apply reach_step; apply reach_init).
  split; [exact Hr|exact (proj1 (reachable_session_ok _) Hr)].
Defined.

Lemma reachable_features_bounded_witness :
  reachable example_session /\
  (0 <= manual_feature (s_form example_session) "gender_Female" <= 100)%Z.
Proof.
  assert (Hr : reachable example_session) by (repeat apply reach_step; apply reach_init).
  split; [exact Hr|exact (reachable_features_bounded _ _ Hr)].
Defined.

Lemma rerun_without_upload_witness :
  exists label, rerun example_rule spec_schema session_init true =
    ([OSuccess (label +:+ ": **" +:+ expected_label example_rule spec_schema form_init +:+ "**");
      ODownload "single_prediction.csv"
        (to_csv (set_scalar (input_df form_init) "prediction"
           (Some (VStr (expected_label example_rule spec_schema form_init)))));
      OChart "Workclass Distribution"; OChart "Occupation vs Weekly Hours";
      OChart "Age Distribution"], Ok tt).
Proof.
  apply (rerun_without_upload example_rule spec_schema session_init true);
    [reflexivity|discriminate|reflexivity].
Defined.

(** An upload of two categorical fields and no age. *)
Definition no_age_upload : frame :=
  from_records [[("gender", VStr "Male"); ("workclass", VStr "Private")]].

Lemma upload_without_age_no_download_witness :
  parse_csv (to_csv no_age_upload) = Ok no_age_upload /\
  exists out, bulk_predict example_rule spec_schema no_age_upload = Ok out /\
  exists e, rerun example_rule spec_schema
              (mk_session "en" form_init (Some (to_csv no_age_upload))) false =
            ([OSuccess "✅ Predictions completed"; OTable out], Err e).
Proof.
  assert (Hp : parse_csv (to_csv no_age_upload) = Ok no_age_upload) by (vm_compute; reflexivity).
  split; [exact Hp|].
  destruct (bulk_predict example_rule spec_schema no_age_upload) as [out|e] eqn:Hb;
    [|vm_compute in Hb; discriminate].
  exists out. split; [reflexivity|].
  apply (upload_without_age_no_download example_rule spec_schema
           (mk_session "en" form_init (Some (to_csv no_age_upload))) (to_csv no_age_upload) no_age_upload);
    [reflexivity|exact Hp|exact Hb|decide_prop].
Defined.

Lemma upload_parse_error_witness :
  exists e, read_csv ragged_csv = Some (Err e) /\
  rerun example_rule spec_schema (mk_session "en" form_init (Some ragged_csv)) true =
    ((rerun example_rule spec_schema (mk_session "en" form_init None) true).1, Err e).
Proof.
  eexists. split; [vm_compute; reflexivity|].
  apply (upload_parse_error example_rule spec_schema
           (mk_session "en" form_init (Some ragged_csv)) ragged_csv); [reflexivity|discriminate|reflexivity|].
  vm_compute. reflexivity.
Defined.

Lemma select_lang_resets_form_witness :
  "en" ∈ lang_options /\ "te" ∈ lang_options /\
  apply_event (mk_session "en" (mk_form 45 "Female ♀️" "Self-emp 🔧" "Masters 🎓" "Sales 💼" 50)
                          (Some "age"))
              (SelectLang "te") =
  mk_session "te" form_init (Some "age").
Proof.
  split_and!; [decide_prop|decide_prop|].
  exact (select_lang_resets_form
           (mk_session "en" (mk_form 45 "Female ♀️" "Self-emp 🔧" "Masters 🎓" "Sales 💼" 50)
                       (Some "age")) "te" ltac:(decide_prop) ltac:(decide_prop)).
Defined.
