(* ===== verification/Trainer.v ===== *)
(** * Trainer: [src/model_training.py]

    The script reads [adult.csv] (here the data frame is an argument;
    [Script] models the read and the script's other effects), keeps the rows with [17 <= age <= 75] (line 15), drops
    [education] (line 16), replaces seven categorical columns by
    [LabelEncoder] codes with one shared encoder (lines 19-21), splits
    features and label (lines 23-24) and rows 80/20 (line 26), fits the
    five classifiers of the [models] dict (lines 28-34) in insertion
    order, scores each on the held-out rows (lines 36-43), and keeps the
    first with the highest accuracy (lines 45-47).

    pandas and scikit-learn semantics modelled: a boolean mask keeps the
    rows in order and a NaN age compares false; [drop] raises [KeyError]
    on a missing column; [LabelEncoder.fit_transform] codes each value by
    its rank among the sorted distinct values (NaN last, as the [nan]
    that ends [classes_]) and raises [TypeError] on a column mixing
    numbers and strings; the split takes [ceil(0.2 n)] test rows from a
    seeded permutation, which is an argument here, and raises when that
    leaves no training row; [fit] mutates the estimator stored in the
    dict.

    The theorems: the object saved is the dict's fitted estimator of the
    first name with the best held-out accuracy; a text age raises at
    line 15; a data set with at most one row in the age range raises at
    the split. *)

From S2P Require Import Prelude Frame Predictor.
From Stdlib Require Import QArith.
Close Scope Q_scope.
Open Scope string_scope.
Open Scope list_scope.

(** ** Row selection (line 15) *)

(** [df[mask]]: the rows whose mask entry is true, in order. *)
Fixpoint mask_cells (keep : list bool) (cs : list cell) : list cell :=
  match keep, cs with
  | b :: keep', c :: cs' => if b then c :: mask_cells keep' cs' else mask_cells keep' cs'
  | _, _ => []
  end.

Definition select_rows (df : frame) (keep : list bool) : frame :=
  mk_frame (length (filter (fun b : bool => b) keep))
           ((fun c => (c.1, mask_cells keep c.2)) <$> columns df).

Definition age_lo : Z := 17.
Definition age_hi : Z := 75.

(** [(data['age'] >= 17) & (data['age'] <= 75)] on one cell: NaN compares
    false, a string cannot be compared with an int. *)
Definition age_in_range (c : cell) : result bool :=
  match c with
  | Some (VInt a) => Ok (bool_decide (age_lo <= a)%Z && bool_decide (a <= age_hi)%Z)
  | Some (VStr _) => Err (TypeError "'>=' not supported between instances of 'str' and 'int'")
  | None => Ok false
  end.

Definition filter_age (df : frame) : result frame :=
  ages ← dict_index (columns df) "age";
  keep ← mapM age_in_range ages;
  mret (select_rows df keep).

(** ** [data.drop(columns=[name])] (lines 16 and 23) *)

Definition drop_column (df : frame) (name : string) : result frame :=
  if decide (name ∈ col_names df)
  then Ok (mk_frame (nrows df) (filter (fun c => c.1 <> name) (columns df)))
  else Err (KeyError ("['" +:+ name +:+ "'] not found in axis")).

(** ** [LabelEncoder.fit_transform] (lines 19-21) *)

Definition str_of (c : cell) : option string :=
  match c with Some (VStr s) => Some s | _ => None end.

Definition int_of (c : cell) : option Z :=
  match c with Some (VInt z) => Some z | _ => None end.

(** Codes: the rank among the sorted distinct values, NaN after them. *)
Definition encode_with {A} `{EqDecision A} (R : relation A) `{RelDecision A A R}
    (proj : cell -> option A) (cs : list cell) : list A * list cell :=
  let classes := sort_uniq R (omap proj cs) in
  (classes,
   (fun c => Some (VInt (Z.of_nat (match proj c with
                                   | Some a => index_of a classes
                                   | None => length classes
                                   end)))) <$> cs).

(** [classes_]: the sorted distinct values, then [nan] when the column
    holds a NaN (scikit-learn puts missing values last, so the code of a
    NaN is the index of that [nan]). *)
Inductive classes :=
| StrClasses (cl : list string) (has_nan : bool)
| IntClasses (cl : list Z) (has_nan : bool).

(** The fitted classes and the codes, or [TypeError] on a column that
    mixes numbers and strings. *)
Definition fit_transform (cs : list cell) : result (classes * list cell) :=
  if decide (omap int_of cs = []) then
    let '(cl, codes) := encode_with String.le str_of cs in
    Ok (StrClasses cl (bool_decide (None ∈ cs)), codes)
  else if decide (omap str_of cs = []) then
    let '(cl, codes) := encode_with Z.le int_of cs in
    Ok (IntClasses cl (bool_decide (None ∈ cs)), codes)
  else Err (TypeError "Encoders require their input argument must be uniformly strings or numbers.").

(** Lines 20-21: the seven columns, in the order of the loop. *)
Definition categorical_columns : list string :=
  ["workclass"; "marital-status"; "occupation"; "relationship"; "race"; "gender";
   "native-country"].

(** The loop refits the one [encoder] object on each column; [enc] is
    the state it holds, the classes of the column it last saw. *)
Fixpoint encode_columns (enc : option classes) (cols : list string) (df : frame)
    : result (option classes * frame) :=
  match cols with
  | [] => Ok (enc, df)
  | col :: rest =>
      cs ← dict_index (columns df) col;
      '(cl, codes) ← fit_transform cs;
      df' ← set_column df col codes;
      encode_columns (Some cl) rest df'
  end.

(** Lines 15-24: the prepared features [x], the label column [y], and
    the encoder's final state. *)
Definition prepare (data : frame) : result (option classes * frame * list cell) :=
  data1 ← filter_age data;
  data2 ← drop_column data1 "education";
  '(enc, data3) ← encode_columns None categorical_columns data2;
  x ← drop_column data3 "income";
  y ← dict_index (columns data3) "income";
  mret (enc, x, y).

(** ** [train_test_split(x, y, test_size=0.2, random_state=42)] (line 26) *)

(** [ceil(0.2 * n)]: the product in floating point rounds to the exact
    quotient for every row count a data frame can have, so the ceiling
    is the integer one. *)
Definition test_count (n : nat) : nat := (n + 4) / 5.

Definition split_sizes (n : nat) : result (nat * nat) :=
  let n_test := test_count n in
  let n_train := n - n_test in
  if decide (n_train = 0)
  then Err (ValueError ("With n_samples=" +:+ pretty (N.of_nat n) +:+
                        ", test_size=0.2 and train_size=None, the resulting train set will be empty. Adjust any of the aforementioned parameters."))
  else Ok (n_train, n_test).

(** [x.iloc[idx]] *)
Definition take_rows (df : frame) (idx : list nat) : frame :=
  mk_frame (length idx) ((fun c => (c.1, (fun i => cell_at c i) <$> idx)) <$> columns df).

Definition take_cells (cs : list cell) (idx : list nat) : list cell :=
  (fun i => default None (cs !! i)) <$> idx.

(** [ShuffleSplit]: with [perm] the seeded permutation of the rows, the
    first [n_test] entries are the test rows and the next [n_train] the
    training rows. *)
Definition split_indices (perm : list nat) (n_train n_test : nat) : list nat * list nat :=
  (take n_train (drop n_test perm), take n_test perm).

Definition train_test_split (perm : list nat) (x : frame) (y : list cell)
    : result (frame * frame * list cell * list cell) :=
  if decide (length y <> nrows x)
  then Err (ValueError "Found input variables with inconsistent numbers of samples")
  else
    '(n_train, n_test) ← split_sizes (nrows x);
    let '(tr, te) := split_indices perm n_train n_test in
    mret (take_rows x tr, take_rows x te, take_cells y tr, take_cells y te).

(** ** [accuracy_score] (line 41) *)

Definition count_equal (ys ps : list cell) : nat :=
  length (filter (fun p : cell * cell => p.1 = p.2) (zip ys ps)).

Definition accuracy_score (ys ps : list cell) : result Q :=
  if decide (length ys <> length ps)
  then Err (ValueError "Found input variables with inconsistent numbers of samples")
  else Ok (inject_Z (Z.of_nat (count_equal ys ps)) / inject_Z (Z.of_nat (length ys)))%Q.

(** ** The five classifiers and the training loop (lines 28-47) *)

Inductive estimator_kind :=
| LogisticRegression
| RandomForest
| KNN
| SVM
| GradientBoosting.

(** An estimator object: its class and, once [fit] ran, its fitted state. *)
Record estimator (F : Type) := mk_estimator {
  est_kind : estimator_kind;
  est_fitted : option F
}.
Arguments mk_estimator {F}.
Arguments est_kind {F}.
Arguments est_fitted {F}.

Definition models_init {F} : list (string * estimator F) :=
  [("LogisticRegression", mk_estimator LogisticRegression None);
   ("RandomForest", mk_estimator RandomForest None);
   ("KNN", mk_estimator KNN None);
   ("SVM", mk_estimator SVM None);
   ("GradientBoosting", mk_estimator GradientBoosting None)].

(** [max(results, key=results.get)]: the first key whose value no later
    key exceeds strictly; [ValueError] on an empty dict. *)
Definition max_step (best : string * Q) (kv : string * Q) : string * Q :=
  if Qlt_le_dec best.2 kv.2 then kv else best.

Definition py_max_key (d : list (string * Q)) : result string :=
  match d with
  | [] => Err (ValueError "max() iterable argument is empty")
  | kv :: rest => Ok (foldl max_step kv rest).1
  end.

Section Training.
Context {F : Type} `{Predictor F}.

(** [model.fit(X_train, y_train)]: scikit-learn's fitting, opaque. *)
Variable fit : estimator_kind -> frame -> list cell -> F.

(** Lines 38-43, one iteration per name of [models.items()]: [fit]
    mutates the estimator object the dict holds, so the dict entry is
    the fitted object afterwards. *)
Fixpoint train_all (names : list string) (models : list (string * estimator F))
    (results : list (string * Q)) (X_train X_test : frame) (y_train y_test : list cell)
    : result (list (string * estimator F) * list (string * Q)) :=
  match names with
  | [] => Ok (models, results)
  | name :: rest =>
      est ← dict_index models name;
      let fitted := fit (est_kind est) X_train y_train in
      let models' := dict_set name (mk_estimator (est_kind est) (Some fitted)) models in
      preds ← predict fitted X_test;
      acc ← accuracy_score y_test ((fun p => Some (VStr p)) <$> preds);
      train_all rest models' (dict_set name acc results) X_train X_test y_train y_test
  end.

(** The whole script for a data set and the split's permutation: the
    name and the object [joblib.dump] writes. *)
Definition train_and_select (perm : list nat) (data : frame)
    : result (string * estimator F) :=
  '(_, x, y) ← prepare data;
  '(X_train, X_test, y_train, y_test) ← train_test_split perm x y;
  '(models, results) ← train_all (fst <$> models_init (F:=F)) models_init []
                                 X_train X_test y_train y_test;
  best_model_name ← py_max_key results;
  best_model ← dict_index models best_model_name;
  mret (best_model_name, best_model).
End Training.

(** ** Lemmas on the label encoder *)

Section EncodeWith.
Context {A : Type} `{EqDecision A} (R : relation A) `{RelDecision A A R}.
Context `{!stdpp.base.PartialOrder R} `{!Total R}.

Lemma encode_with_lookup proj cs i c :
  cs !! i = Some c ->
  (encode_with R proj cs).2 !! i =
  Some (Some (VInt (Z.of_nat (match proj c with
                              | Some a => index_of a (encode_with R proj cs).1
                              | None => length (encode_with R proj cs).1
                              end)))).
Proof. intros Hi. unfold encode_with. simpl. by rewrite list_lookup_fmap, Hi. Qed.

Lemma encode_with_class proj cs i c a :
  cs !! i = Some c -> proj c = Some a -> a ∈ (encode_with R proj cs).1.
Proof.
  intros Hi Hc. unfold encode_with. simpl. rewrite elem_of_sort_uniq by apply _.
  apply list_elem_of_omap. exists c. split; [by apply list_elem_of_lookup_2 with i|done].
Qed.
End EncodeWith.

Lemma fit_transform_str cs cl nan codes :
  fit_transform cs = Ok (StrClasses cl nan, codes) ->
  (cl, codes) = encode_with String.le str_of cs.
Proof.
  unfold fit_transform. repeat case_decide;
    destruct (encode_with _ _ cs) eqn:He; intros Hf; simplify_eq; done.
Qed.

Lemma fit_transform_str_code cs cl nan codes i s :
  fit_transform cs = Ok (StrClasses cl nan, codes) -> cs !! i = Some (Some (VStr s)) ->
  codes !! i = Some (Some (VInt (Z.of_nat (index_of s cl)))) /\ s ∈ cl.
Proof.
  intros Hf Hi. apply fit_transform_str in Hf. injection Hf as Hcl Hcodes. subst.
  split; [exact (encode_with_lookup _ _ _ _ _ Hi)|].
  by eapply encode_with_class; [apply _|apply _|exact Hi|].
Qed.

(** ** Theorems on the label encoder *)

(** [LabelEncoder] round trip: the code of a string value indexes
    that value in the fitted classes, so [inverse_transform] gives the
    value back. *)
Theorem label_encoder_roundtrip cs cl nan codes i s :
  fit_transform cs = Ok (StrClasses cl nan, codes) -> cs !! i = Some (Some (VStr s)) ->
  exists k, codes !! i = Some (Some (VInt (Z.of_nat k))) /\ cl !! k = Some s.
Proof.
  intros Hf Hi. destruct (fit_transform_str_code _ _ _ _ _ _ Hf Hi) as [Hc Hs].
  exists (index_of s cl). split; [done|]. by apply index_of_lookup.
Qed.

(** the codes follow the sorted order of the values: a value
    sorting strictly before another gets a smaller code, and every code
    of a string value is below the number of classes. *)
Theorem label_encoder_order cs cl nan codes i j s t :
  fit_transform cs = Ok (StrClasses cl nan, codes) ->
  cs !! i = Some (Some (VStr s)) -> cs !! j = Some (Some (VStr t)) ->
  s <> t -> String.le s t ->
  exists ki kj, codes !! i = Some (Some (VInt (Z.of_nat ki))) /\
                codes !! j = Some (Some (VInt (Z.of_nat kj))) /\ ki < kj < length cl.
Proof.
  intros Hf Hi Hj Hne Hle.
  destruct (fit_transform_str_code _ _ _ _ _ _ Hf Hi) as [Hci Hs].
  destruct (fit_transform_str_code _ _ _ _ _ _ Hf Hj) as [Hcj Ht].
  exists (index_of s cl), (index_of t cl). split_and!; [done|done| |by apply index_of_lt].
  apply fit_transform_str in Hf. injection Hf as -> _.
  apply (index_of_mono String.le); [apply (StronglySorted_sort_uniq String.le)|..]; done.
Qed.

(** ** The split *)

Lemma split_sizes_Ok n n_train n_test :
  split_sizes n = Ok (n_train, n_test) ->
  n_test = test_count n /\ n_train = n - n_test /\ n_train <> 0.
Proof. unfold split_sizes. case_decide; [discriminate|]. intros [= <- <-]. lia. Qed.

Lemma test_count_bounds n : n <= 5 * test_count n < n + 5.
Proof.
  unfold test_count. pose proof (Nat.div_mod (n + 4) 5 ltac:(lia)).
  pose proof (Nat.mod_upper_bound (n + 4) 5 ltac:(lia)). lia.
Qed.

(** [train_test_split] partitions the rows: the training and test
    index lists together are a permutation of all rows, the test part
    has [ceil(n/5)] rows, the training part the rest and at least one;
    features and labels are taken at the same indices. *)
Theorem split_partition perm x y X_train X_test y_train y_test :
  perm ≡ₚ seq 0 (nrows x) ->
  train_test_split perm x y = Ok (X_train, X_test, y_train, y_test) ->
  exists tr te, tr ++ te ≡ₚ seq 0 (nrows x) /\
    X_train = take_rows x tr /\ X_test = take_rows x te /\
    y_train = take_cells y tr /\ y_test = take_cells y te /\
    nrows x <= 5 * length te < nrows x + 5 /\ length tr = nrows x - length te /\
    0 < length tr.
Proof.
  intros Hperm. unfold train_test_split. case_decide; [discriminate|].
  destruct (split_sizes (nrows x)) as [[ntr nt]|e] eqn:Hs; [|discriminate].
  apply split_sizes_Ok in Hs as (-> & -> & Hntr). simpl.
  intros [= <- <- <- <-].
  pose proof (Permutation_length Hperm) as Hlen. rewrite length_seq in Hlen.
  exists (take (nrows x - test_count (nrows x)) (drop (test_count (nrows x)) perm)),
         (take (test_count (nrows x)) perm).
  rewrite (take_ge (drop _ perm)) by (rewrite length_drop; lia).
  rewrite length_drop, length_take. pose proof (test_count_bounds (nrows x)).
  split_and!; try done; try lia.
  rewrite <-Hperm, Permutation_app_comm. by rewrite take_drop.
Qed.

(** ** Accuracy *)

Lemma count_equal_le ys ps : count_equal ys ps <= length ys.
Proof.
  unfold count_equal. etrans; [apply length_filter|]. rewrite length_zip. lia.
Qed.

(** The held-out accuracy lies between 0 and 1. *)
Theorem accuracy_bounds ys ps a : accuracy_score ys ps = Ok a -> (0 <= a <= 1)%Q.
Proof.
  unfold accuracy_score. case_decide; [discriminate|]. intros [= <-].
  pose proof (count_equal_le ys ps) as Hle.
  destruct (length ys) as [|n] eqn:Hn.
  - assert (count_equal ys ps = 0) as -> by lia. split; vm_compute; discriminate.
  - split.
    + apply Qle_shift_div_l; [unfold Qlt; simpl; lia|].
      unfold Qle, Qmult; simpl. lia.
    + apply Qle_shift_div_r; [unfold Qlt; simpl; lia|].
      unfold Qle, Qmult; simpl. lia.
Qed.

(** ** Selection *)

(** Entry [i], key [k] with value [a], is the first entry of [d] whose
    value no entry exceeds. *)
Definition first_max (d : list (string * Q)) (i : nat) (k : string) (a : Q) : Prop :=
  d !! i = Some (k, a) /\
  (forall j kv, d !! j = Some kv -> (kv.2 <= a)%Q) /\
  (forall j kv, j < i -> d !! j = Some kv -> (kv.2 < a)%Q).

Lemma first_max_snoc pre i k a kv :
  first_max pre i k a ->
  first_max (pre ++ [kv]) (if Qlt_le_dec a kv.2 then length pre else i)
            (max_step (k, a) kv).1 (max_step (k, a) kv).2.
Proof.
  intros (Hi & Hle & Hlt). pose proof (lookup_lt_Some _ _ _ Hi) as Hilen.
  unfold max_step. simpl. destruct (Qlt_le_dec a kv.2) as [Hv|Hv]; simpl.
  - split_and!.
    + rewrite lookup_app_r, Nat.sub_diag by lia. by destruct kv.
    + intros j kv' Hj. apply lookup_app_Some in Hj as [Hj|[Hj1 Hj2]].
      * apply Qlt_le_weak. eapply Qle_lt_trans; [exact (Hle _ _ Hj)|exact Hv].
      * apply list_lookup_singleton_Some in Hj2 as [_ <-]. apply Qle_refl.
    + intros j kv' Hj Hj'. rewrite lookup_app_l in Hj' by done.
      eapply Qle_lt_trans; [exact (Hle _ _ Hj')|exact Hv].
  - split_and!.
    + by rewrite lookup_app_l.
    + intros j kv' Hj. apply lookup_app_Some in Hj as [Hj|[Hj1 Hj2]]; [by eapply Hle|].
      by apply list_lookup_singleton_Some in Hj2 as [_ <-].
    + intros j kv' Hj Hj'. rewrite lookup_app_l in Hj' by lia. by eapply Hlt.
Qed.

Lemma foldl_max_step pre rest i k a :
  first_max pre i k a ->
  exists i', first_max (pre ++ rest) i' (foldl max_step (k, a) rest).1
                                        (foldl max_step (k, a) rest).2.
Proof.
  revert pre i k a. induction rest as [|kv rest IH]; intros pre i k a Hm; simpl.
  - exists i. by rewrite app_nil_r.
  - pose proof (first_max_snoc _ _ _ _ kv Hm) as Hm'.
    destruct (max_step (k, a) kv) as [k' a'] eqn:Hs. simpl in Hm'.
    destruct (IH _ _ _ _ Hm') as [i' Hi']. exists i'. by rewrite <-app_assoc in Hi'.
Qed.

Lemma py_max_key_spec d k :
  py_max_key d = Ok k -> exists i a, first_max d i k a.
Proof.
  destruct d as [|[k0 a0] rest]; simpl; [discriminate|]. intros [= <-].
  assert (Hm : first_max [(k0, a0)] 0 k0 a0).
  { split_and!; [done| |lia].
    intros j kv Hj. apply list_lookup_singleton_Some in Hj as [_ <-]. apply Qle_refl. }
  destruct (foldl_max_step _ rest _ _ _ Hm) as [i Hi].
  destruct (foldl max_step (k0, a0) rest) as [k a]. by exists i, a.
Qed.

Lemma py_max_key_elem d k : py_max_key d = Ok k -> k ∈ fst <$> d.
Proof.
  intros (i & a & Hi & _)%py_max_key_spec. apply list_elem_of_fmap.
  exists (k, a). split; [done|]. by apply list_elem_of_lookup_2 with i.
Qed.

(** [max(results, key=results.get)] returns the key of the first
    entry, in insertion order, whose accuracy no other entry exceeds. *)
Theorem py_max_key_first_max d k :
  py_max_key d = Ok k -> exists i a, first_max d i k a.
Proof. apply py_max_key_spec. Qed.

(** ** The estimators of the [models] dict *)

Section TrainingLemmas.
Context {F : Type} `{Predictor F} (fit : estimator_kind -> frame -> list cell -> F).
Context (X_train X_test : frame) (y_train y_test : list cell).

Lemma train_all_spec names models results models' results' :
  train_all fit names models results X_train X_test y_train y_test = Ok (models', results') ->
  (forall n, n ∈ fst <$> results' -> n ∈ fst <$> results \/ n ∈ names) /\
  (forall n est0, n ∈ names -> dict_get n models = Some est0 ->
     dict_get n models' =
     Some (mk_estimator (est_kind est0) (Some (fit (est_kind est0) X_train y_train)))) /\
  (forall n, n ∉ names -> dict_get n models' = dict_get n models).
Proof.
  revert models results. induction names as [|name rest IH]; intros models results; simpl.
  - intros [= <- <-]. split_and!; [by left|set_solver|done].
  - unfold dict_index. destruct (dict_get name models) as [est|] eqn:Hest; [|discriminate].
    simpl. destruct (predict _ X_test) as [preds|e]; [|discriminate]. simpl.
    destruct (accuracy_score _ _) as [acc|e]; [|discriminate]. simpl.
    intros (Hres & Hfit & Hout)%IH. split_and!.
    + intros n Hn. destruct (Hres n Hn) as [Hn'|]; [|set_solver].
      rewrite dict_set_keys in Hn'. case_decide; set_solver.
    + intros n est0 Hn Hn0. destruct (decide (n ∈ rest)) as [Hr|Hr].
      * destruct (decide (n = name)) as [->|Hne].
        -- rewrite (Hfit name _ Hr (dict_get_set_eq _ _ _)). simpl. congruence.
        -- apply Hfit; [done|]. by rewrite dict_get_set_ne.
      * assert (n = name) as -> by set_solver. rewrite Hout by done.
        rewrite dict_get_set_eq. congruence.
    + intros n Hn. rewrite Hout by set_solver. apply dict_get_set_ne. set_solver.
Qed.
(** The held-out accuracy of one class: fitted on the training split,
    scored on the test split (lines 39-41). *)
Definition held_out_accuracy (k : estimator_kind) : result Q :=
  preds ← predict (fit k X_train y_train) X_test;
  accuracy_score y_test ((fun p => Some (VStr p)) <$> preds).

(** The loop appends one accuracy per name, in order. *)
Lemma train_all_results names models results models' results' :
  NoDup names -> (forall n, n ∈ names -> n ∉ fst <$> results) ->
  train_all fit names models results X_train X_test y_train y_test = Ok (models', results') ->
  exists accs, results' = results ++ zip names accs /\
    Forall2 (fun n a => exists est0, dict_get n models = Some est0 /\
                                     held_out_accuracy (est_kind est0) = Ok a) names accs.
Proof.
  revert models results. induction names as [|name rest IH]; intros models results Hnd Hfresh; simpl.
  - intros [= <- <-]. exists []. by rewrite app_nil_r.
  - apply NoDup_cons in Hnd as [Hname Hnd].
    unfold dict_index. destruct (dict_get name models) as [est|] eqn:Hest; [|discriminate].
    simpl. destruct (predict _ X_test) as [preds|e] eqn:Hp; [|discriminate]. simpl.
    destruct (accuracy_score _ _) as [acc|e] eqn:Ha; [|discriminate]. simpl.
    rewrite (dict_set_new results name acc) by (apply Hfresh; by left).
    intros (accs & -> & Hall)%IH; [|done|].
    + exists (acc :: accs). split; [by rewrite <-app_assoc|]. constructor.
      * exists est. split; [done|]. unfold held_out_accuracy. by rewrite Hp.
      * clear IH Hp Ha Hfresh. induction Hall as [|n a ns as' Hna Hall' IHall]; constructor.
        -- destruct Hna as (est0 & Hn & Hacc). exists est0. split; [|done].
           rewrite dict_get_set_ne in Hn; [done|]. intros ->. apply Hname. by left.
        -- apply IHall; [|by apply NoDup_cons in Hnd as [_ ?]].
           intros Hin. apply Hname. by right.
    + intros n Hn. rewrite fmap_app, elem_of_app. intros [Hn'|Hn'].
      * by apply (Hfresh n); [right|].
      * simpl in Hn'. rewrite list_elem_of_singleton in Hn'. subst. contradiction.
Qed.
End TrainingLemmas.

Lemma train_and_select_best {F} `{Predictor F} fit perm data name est :
  train_and_select fit perm data = Ok (name, est) ->
  exists enc x y X_train X_test y_train y_test accs i a,
    prepare data = Ok (enc, x, y) /\
    train_test_split perm x y = Ok (X_train, X_test, y_train, y_test) /\
    Forall2 (fun ne acc => held_out_accuracy fit X_train X_test y_train y_test (est_kind ne.2) = Ok acc)
            (models_init (F:=F)) accs /\
    first_max (zip (fst <$> models_init (F:=F)) accs) i name a.
Proof.
  unfold train_and_select. remember (models_init (F:=F)) as models0 eqn:Hm0.
  destruct (prepare data) as [[[enc x] y]|e] eqn:Hprep; [|discriminate]. simpl.
  destruct (train_test_split perm x y) as [[[[Xtr Xte] ytr] yte]|e] eqn:Hsplit;
    [|discriminate]. simpl.
  destruct (train_all fit (fst <$> models0) models0 [] Xtr Xte ytr yte)
    as [[models results]|e] eqn:Htrain; [|discriminate].
  simpl. destruct (py_max_key results) as [best|e] eqn:Hbest; [|discriminate]. simpl.
  unfold dict_index. destruct (dict_get best models) as [est'|]; [|discriminate].
  simpl. intros [= <- _].
  apply train_all_results in Htrain as (accs & -> & Hall); [|subst; decide_prop|set_solver].
  apply py_max_key_spec in Hbest as (i & a & Hmax).
  exists enc, x, y, Xtr, Xte, ytr, yte, accs, i, a. split_and!; [done|done| |done].
  apply (Forall2_dict_get_keys (fun e acc => held_out_accuracy fit Xtr Xte ytr yte (est_kind e) = Ok acc));
    [subst; decide_prop|exact Hall].
Qed.

Lemma train_and_select_spec {F} `{Predictor F} fit perm data name est :
  train_and_select fit perm data = Ok (name, est) ->
  exists enc x y X_train X_test y_train y_test,
    prepare data = Ok (enc, x, y) /\
    train_test_split perm x y = Ok (X_train, X_test, y_train, y_test) /\
    dict_get name (models_init (F:=F)) = Some (mk_estimator (est_kind est) None) /\
    est_fitted est = Some (fit (est_kind est) X_train y_train).
Proof.
  unfold train_and_select.
  remember (models_init (F:=F)) as models0 eqn:Hm0.
  destruct (prepare data) as [[[enc x] y]|e] eqn:Hprep; [|discriminate]. simpl.
  destruct (train_test_split perm x y) as [[[[Xtr Xte] ytr] yte]|e] eqn:Hsplit;
    [|discriminate]. simpl.
  destruct (train_all fit (fst <$> models0) models0 [] Xtr Xte ytr yte)
    as [[models results]|e] eqn:Htrain; [|discriminate].
  simpl. destruct (py_max_key results) as [best|e] eqn:Hbest; [|discriminate]. simpl.
  unfold dict_index. destruct (dict_get best models) as [est'|] eqn:Hget; [|discriminate].
  simpl. intros [= <- <-].
  destruct (train_all_spec _ _ _ _ _ _ _ _ _ _ Htrain) as (Hres & Hfit & _).
  apply py_max_key_elem in Hbest. destruct (Hres _ Hbest) as [Hn|Hn]; [set_solver|].
  destruct (dict_get_elem_is_Some models0 best Hn) as [est0 Hest0].
  rewrite (Hfit _ _ Hn Hest0) in Hget. injection Hget as <-.
  exists enc, x, y, Xtr, Xte, ytr, yte. split_and!; [done|done| |done].
  rewrite Hest0. f_equal. simpl.
  assert (est_fitted est0 = None) as Hnone.
  { subst models0. apply dict_get_Some_in in Hest0.
    repeat (apply elem_of_cons in Hest0 as [Hest0|Hest0];
      [by simplify_eq|]). set_solver. }
  destruct est0. simpl in *. by subst.
Qed.

(** C22: the model [joblib.dump] writes is the estimator of the
    [models] dict whose held-out accuracy is the first of the highest:
    each of the five classes is fitted on the training split and scored
    on the test split, [max(results, key=results.get)] keeps the first
    of the best, and the object saved is the dict's entry for that name,
    of that name's class, fitted in place on the training split. *)
Theorem selected_model_best {F} `{Predictor F} fit perm data name est :
  train_and_select fit perm data = Ok (name, est) ->
  exists enc x y X_train X_test y_train y_test accs i a,
    prepare data = Ok (enc, x, y) /\
    train_test_split perm x y = Ok (X_train, X_test, y_train, y_test) /\
    Forall2 (fun ne acc => held_out_accuracy fit X_train X_test y_train y_test (est_kind ne.2) = Ok acc)
            (models_init (F:=F)) accs /\
    first_max (zip (fst <$> models_init (F:=F)) accs) i name a /\
    dict_get name (models_init (F:=F)) = Some (mk_estimator (est_kind est) None) /\
    est_fitted est = Some (fit (est_kind est) X_train y_train).
Proof.
  intros Ht.
  destruct (train_and_select_best _ _ _ _ _ Ht)
    as (enc & x & y & Xtr & Xte & ytr & yte & accs & i & a & Hp & Hs & Hacc & Hmax).
  destruct (train_and_select_spec _ _ _ _ _ Ht)
    as (enc' & x' & y' & Xtr' & Xte' & ytr' & yte' & Hp' & Hs' & Hk & Hfit).
  rewrite Hp in Hp'. injection Hp' as <- <- <-.
  rewrite Hs in Hs'. injection Hs' as <- <- <- <-.
  exists enc, x, y, Xtr, Xte, ytr, yte, accs, i, a. done.
Qed.

(** ** The age filter *)

(** The rows line 15 keeps: an integer age in [17, 75]. *)
Definition age_kept (c : cell) : bool :=
  match c with
  | Some (VInt a) => bool_decide (age_lo <= a)%Z && bool_decide (a <= age_hi)%Z
  | _ => false
  end.

Lemma age_in_range_Ok c b : age_in_range c = Ok b -> b = age_kept c.
Proof. destruct c as [[a|s]|]; simpl; congruence. Qed.

Lemma age_in_range_Err c e :
  age_in_range c = Err e -> e = TypeError "'>=' not supported between instances of 'str' and 'int'".
Proof. destruct c as [[a|s]|]; simpl; congruence. Qed.

Lemma mask_cells_self (p : cell -> bool) cs : mask_cells (p <$> cs) cs = filter p cs.
Proof.
  induction cs as [|c cs IH]; [done|]. rewrite fmap_cons. cbn [mask_cells].
  rewrite IH, filter_cons. destruct (p c); simpl; repeat case_decide; naive_solver.
Qed.

Lemma length_mask_cells keep cs :
  length cs = length keep -> length (mask_cells keep cs) = length (filter (fun b : bool => b) keep).
Proof.
  revert cs. induction keep as [|b keep IH]; intros [|c cs] Hlen; simpl in *; try lia.
  destruct b; simpl; rewrite IH; [done|lia|done|lia].
Qed.

Lemma filter_age_Ok df df' :
  filter_age df = Ok df' ->
  exists ages, dict_get "age" (columns df) = Some ages /\
               df' = select_rows df (age_kept <$> ages).
Proof.
  unfold filter_age, dict_index. destruct (dict_get "age" (columns df)) as [ages|];
    [|discriminate]. simpl.
  destruct (mapM age_in_range ages) as [keep|e] eqn:Hm; [|discriminate]. simpl.
  intros [= <-]. exists ages. split; [done|]. f_equal.
  apply mapM_Ok in Hm. induction Hm as [|c b cs bs Hc _ IH]; [done|].
  simpl. by rewrite IH, (age_in_range_Ok _ _ Hc).
Qed.

Lemma filter_age_wf df df' : frame_wf df -> filter_age df = Ok df' -> frame_wf df'.
Proof.
  intros Hwf (ages & Hages & ->)%filter_age_Ok.
  pose proof (dict_get_Some_in _ _ _ Hages) as Hin.
  assert (Hlen : length ages = nrows df) by (by eapply Forall_forall in Hwf; [|exact Hin]).
  unfold frame_wf, select_rows. simpl. apply Forall_fmap, Forall_forall. intros c Hc. simpl.
  apply length_mask_cells. rewrite length_fmap, Hlen. by eapply Forall_forall in Hwf.
Qed.

(** The age filter keeps exactly the rows whose age is an integer
    in 17..75, in their order, with every column cut the same way: the
    frame stays well formed, keeps its column names, and a NaN age is
    dropped. *)
Theorem filter_age_rows df df' :
  frame_wf df -> filter_age df = Ok df' ->
  frame_wf df' /\ col_names df' = col_names df /\
  exists ages, dict_get "age" (columns df) = Some ages /\
    dict_get "age" (columns df') = Some (filter (fun c => age_kept c) ages) /\
    Forall (fun c => exists a, c = Some (VInt a) /\ (17 <= a <= 75)%Z)
           (filter (fun c => age_kept c) ages).
Proof.
  intros Hwf Hf. split; [exact (filter_age_wf _ _ Hwf Hf)|].
  apply filter_age_Ok in Hf as (ages & Hages & ->). unfold select_rows. split_and!.
  - unfold col_names. simpl. by rewrite <-list_fmap_compose.
  - exists ages. split_and!; [done| |].
    + simpl. rewrite dict_get_fmap_val, Hages. simpl. by rewrite mask_cells_self.
    + apply Forall_forall. intros c Hc. apply list_elem_of_filter in Hc as [Hk _].
      destruct c as [[a|str]|]; simpl in Hk; try done. exists a. split; [done|].
      apply andb_True in Hk as [H1 H2]. apply bool_decide_unpack in H1, H2.
      unfold age_lo, age_hi in *. lia.
Qed.

(** ** Column names and shapes through the preparation *)

Lemma drop_column_names df name df' :
  drop_column df name = Ok df' -> col_names df' = filter (fun c => c <> name) (col_names df).
Proof.
  unfold drop_column. case_decide; [|discriminate]. intros [= <-].
  unfold col_names. simpl. induction (columns df) as [|[k v] cols IH]; [done|].
  rewrite filter_cons, fmap_cons, filter_cons. simpl.
  repeat case_decide; try tauto. rewrite fmap_cons. f_equal. exact IH.
Qed.

Lemma filter_age_names df df' : filter_age df = Ok df' -> col_names df' = col_names df.
Proof.
  intros (ages & _ & ->)%filter_age_Ok. unfold col_names, select_rows. simpl.
  by rewrite <-list_fmap_compose.
Qed.

Lemma encode_columns_names enc cols df enc' df' :
  encode_columns enc cols df = Ok (enc', df') -> col_names df' = col_names df.
Proof.
  revert enc df. induction cols as [|c cols IH]; intros enc df; simpl.
  - by intros [= _ <-].
  - unfold dict_index. destruct (dict_get c (columns df)) as [cs|] eqn:Hc; [|discriminate].
    simpl. destruct (fit_transform cs) as [[cl codes]|e]; [|discriminate]. simpl.
    unfold set_column. case_decide; [|discriminate]. simpl.
    intros ->%IH. unfold col_names. simpl. rewrite dict_set_keys.
    by rewrite decide_True by (eapply dict_get_Some_elem; exact Hc).
Qed.

(** The trainer's feature columns: the header without [education] and
    [income]. *)
Lemma prepare_columns data enc x y :
  prepare data = Ok (enc, x, y) ->
  col_names x = filter (fun c => c <> "income") (filter (fun c => c <> "education") (col_names data)).
Proof.
  unfold prepare.
  intros (d1 & H1 & (d2 & H2 & ([enc3 d3] & H3 & (x3 & H4 & (y3 & _ & Hr)%bind_Ok)%bind_Ok)
    %bind_Ok)%bind_Ok)%bind_Ok.
  injection Hr as _ <- _.
  rewrite (drop_column_names _ _ _ H4), (encode_columns_names _ _ _ _ _ H3).
  by rewrite (drop_column_names _ _ _ H2), (filter_age_names _ _ H1).
Qed.

Lemma prepare_columns_elem data enc x y t :
  prepare data = Ok (enc, x, y) -> t ∈ col_names x -> t ∈ col_names data.
Proof.
  intros Hp. rewrite (prepare_columns _ _ _ _ Hp), !list_elem_of_filter. tauto.
Qed.

Lemma take_rows_names x idx : col_names (take_rows x idx) = col_names x.
Proof. unfold col_names, take_rows. cbn [columns]. by rewrite <-list_fmap_compose. Qed.

Lemma train_test_split_names perm x y X_train X_test y_train y_test :
  train_test_split perm x y = Ok (X_train, X_test, y_train, y_test) ->
  col_names X_train = col_names x.
Proof.
  unfold train_test_split. case_decide; [discriminate|].
  destruct (split_sizes (nrows x)) as [[ntr nte]|e]; [|discriminate]. simpl.
  intros [= <- _ _ _]. apply take_rows_names.
Qed.

(** The age column survives the preparation. *)
Lemma prepare_has_age data enc x y : prepare data = Ok (enc, x, y) -> "age" ∈ col_names x.
Proof.
  intros Hp. rewrite (prepare_columns _ _ _ _ Hp), !list_elem_of_filter.
  split; [discriminate|split; [discriminate|]].
  unfold prepare in Hp. apply bind_Ok in Hp as (d1 & Hf & _).
  apply filter_age_Ok in Hf as (ages & Hages & _). by eapply dict_get_Some_elem.
Qed.

Lemma drop_column_wf df name df' : frame_wf df -> drop_column df name = Ok df' -> frame_wf df'.
Proof.
  unfold drop_column. case_decide; [|discriminate]. intros Hwf [= <-].
  unfold frame_wf in *. simpl. rewrite Forall_forall in *.
  intros c (_ & Hc)%list_elem_of_filter. by apply Hwf.
Qed.

Lemma encode_columns_wf enc cols df enc' df' :
  frame_wf df -> encode_columns enc cols df = Ok (enc', df') -> frame_wf df'.
Proof.
  revert enc df. induction cols as [|c cols IH]; intros enc df Hwf; simpl; [by intros [= _ <-]|].
  destruct (dict_index (columns df) c) as [cs|e]; [|discriminate]. simpl.
  destruct (fit_transform cs) as [[cl codes]|e]; [|discriminate]. simpl.
  destruct (set_column df c codes) as [df1|e] eqn:Hs; [|discriminate]. simpl.
  apply IH. exact (set_column_wf _ _ _ _ Hwf Hs).
Qed.

Lemma drop_column_nrows df name df' : drop_column df name = Ok df' -> nrows df' = nrows df.
Proof. unfold drop_column. case_decide; [|discriminate]. by intros [= <-]. Qed.

(** The features the classifiers are fitted on are the data set's
    columns without [education] and [income], in their order: the label
    does not leak into the features; and on a well-formed data set the
    features stay well formed with one label per row. *)
Theorem prepare_features data enc x y :
  frame_wf data -> prepare data = Ok (enc, x, y) ->
  col_names x = filter (fun c => c <> "income") (filter (fun c => c <> "education") (col_names data)) /\
  frame_wf x /\ length y = nrows x.
Proof.
  intros Hwf Hp. split; [exact (prepare_columns _ _ _ _ Hp)|]. unfold prepare in Hp.
  apply bind_Ok in Hp as (d1 & H1 & (d2 & H2 & ([enc3 d3] & H3 & (x3 & H4 & (y3 & H5 & Hr)%bind_Ok)%bind_Ok)
    %bind_Ok)%bind_Ok).
  injection Hr as _ <- <-.
  pose proof (encode_columns_wf _ _ _ _ _ (drop_column_wf _ _ _ (filter_age_wf _ _ Hwf H1) H2) H3)
    as Hwf3.
  split; [exact (drop_column_wf _ _ _ Hwf3 H4)|].
  rewrite (drop_column_nrows _ _ _ H4). unfold dict_index in H5.
  destruct (dict_get "income" (columns d3)) as [cs|] eqn:Hy; [|discriminate]. injection H5 as <-.
  exact (wf_column_length d3 "income" cs Hwf3 (dict_get_Some_in _ _ _ Hy)).
Qed.

Lemma encode_columns_nrows enc cols df enc' df' :
  encode_columns enc cols df = Ok (enc', df') -> nrows df' = nrows df.
Proof.
  revert enc df. induction cols as [|c cols IH]; intros enc df; simpl; [by intros [= _ <-]|].
  destruct (dict_index (columns df) c) as [cs|e]; [|discriminate]. simpl.
  destruct (fit_transform cs) as [[cl codes]|e]; [|discriminate]. simpl.
  unfold set_column. case_decide; [|discriminate]. simpl. by intros ->%IH.
Qed.

Lemma length_filter_fmap_id {A} (p : A -> bool) (l : list A) :
  length (filter (fun b : bool => b) (p <$> l)) = length (filter p l).
Proof.
  induction l as [|a l IH]; [done|]. rewrite fmap_cons, !filter_cons.
  destruct (p a); simpl; repeat case_decide; naive_solver.
Qed.

(** The rows the classifiers see are the rows of the data set whose
    age passes the filter of line 15. *)
Lemma prepare_nrows data enc x y :
  prepare data = Ok (enc, x, y) ->
  exists ages, dict_get "age" (columns data) = Some ages /\
               nrows x = length (filter (fun c => age_kept c) ages).
Proof.
  unfold prepare.
  intros (d1 & H1 & (d2 & H2 & ([enc3 d3] & H3 & (x3 & H4 & (y3 & _ & Hr)%bind_Ok)%bind_Ok)
    %bind_Ok)%bind_Ok)%bind_Ok.
  injection Hr as _ <- _.
  apply filter_age_Ok in H1 as (ages & Hages & ->). exists ages. split; [done|].
  rewrite (drop_column_nrows _ _ _ H4), (encode_columns_nrows _ _ _ _ _ H3),
    (drop_column_nrows _ _ _ H2).
  apply length_filter_fmap_id.
Qed.

(** C15: when at most one row of the data set has an age in
    17..75, [train_test_split] of line 26 raises scikit-learn's
    [ValueError]: the test part takes [ceil(0.2 n)] rows, which leaves
    no training row; nothing is fitted and no model is selected. *)
Theorem trainer_too_few_rows {F} `{Predictor F} fit perm data enc x y :
  frame_wf data -> prepare data = Ok (enc, x, y) -> nrows x <= 1 ->
  exists ages, dict_get "age" (columns data) = Some ages /\
    nrows x = length (filter (fun c => age_kept c) ages) /\
    train_and_select fit perm data =
      Err (ValueError ("With n_samples=" +:+ pretty (N.of_nat (nrows x)) +:+
                       ", test_size=0.2 and train_size=None, the resulting train set will be empty. Adjust any of the aforementioned parameters.")).
Proof.
  intros Hwf Hp Hn. destruct (prepare_nrows _ _ _ _ Hp) as (ages & Hages & Hx).
  exists ages. split_and!; [done|done|].
  destruct (prepare_features _ _ _ _ Hwf Hp) as (_ & _ & Hy).
  unfold train_and_select. rewrite Hp. cbn [mbind result_bind].
  unfold train_test_split. rewrite decide_False by lia.
  unfold split_sizes, test_count. rewrite decide_True; [reflexivity|].
  destruct (nrows x) as [|[|]]; [done|done|lia].
Qed.

(** C16: a text entry in the [age] column (pandas then reads the
    whole column as strings) makes the comparison [data['age'] >= 17] of
    line 15 raise [TypeError], before anything is encoded, split or
    fitted. *)
Theorem trainer_text_age_raises {F} `{Predictor F} fit perm data ages s :
  dict_get "age" (columns data) = Some ages -> Some (VStr s) ∈ ages ->
  train_and_select fit perm data =
    Err (TypeError "'>=' not supported between instances of 'str' and 'int'").
Proof.
  intros Hages Hs. unfold train_and_select, prepare, filter_age, dict_index.
  rewrite Hages. cbn [mbind result_bind].
  rewrite (mapM_Err_uniform _ _ _ _ (fun c e' Hc => age_in_range_Err c e' Hc) Hs) by (by eexists).
  reflexivity.
Qed.

(** ** Examples *)

Definition adult_row (age : Z) (wc edu ms occ rel race gender : string) (hours : Z)
    (country income : string) : record :=
  [("age", VInt age); ("workclass", VStr wc); ("fnlwgt", VInt 100000);
   ("education", VStr edu); ("educational-num", VInt 10); ("marital-status", VStr ms);
   ("occupation", VStr occ); ("relationship", VStr rel); ("race", VStr race);
   ("gender", VStr gender); ("capital-gain", VInt 0); ("capital-loss", VInt 0);
   ("hours-per-week", VInt hours); ("native-country", VStr country);
   ("income", VStr income)].

(** Seven rows in the layout of [adult.csv]; the ages 16 and 80 fall
    outside the filter. *)
Definition sample_data : frame :=
  from_records
    [adult_row 25 "Private" "11th" "Never-married" "Machine-op-inspct" "Own-child" "Black" "Male" 40 "United-States" "<=50K";
     adult_row 38 "Private" "HS-grad" "Married-civ-spouse" "Farming-fishing" "Husband" "White" "Male" 50 "United-States" "<=50K";
     adult_row 16 "Private" "10th" "Never-married" "Other-service" "Own-child" "White" "Female" 20 "United-States" "<=50K";
     adult_row 44 "Local-gov" "Masters" "Married-civ-spouse" "Prof-specialty" "Husband" "White" "Male" 45 "United-States" ">50K";
     adult_row 80 "Self-emp-inc" "Bachelors" "Widowed" "Exec-managerial" "Unmarried" "White" "Female" 10 "Canada" "<=50K";
     adult_row 52 "Self-emp-not-inc" "HS-grad" "Married-civ-spouse" "Craft-repair" "Husband" "White" "Male" 60 "Mexico" ">50K";
     adult_row 34 "Private" "Bachelors" "Never-married" "Sales" "Not-in-family" "Asian-Pac-Islander" "Female" 40 "India" "<=50K"].

(** A stand-in for scikit-learn's classifiers: each class answers a
    fixed label. *)
Record constant_model := mk_constant_model { cm_columns : list string; cm_label : string }.

#[export] Instance constant_model_predictor : Predictor constant_model := {|
  feature_names_in := cm_columns;
  allow_nan := fun _ => false;
  predict_row := fun m _ => cm_label m
|}.

Definition constant_fit (k : estimator_kind) (X : frame) (y : list cell) : constant_model :=
  mk_constant_model (col_names X)
    (match k with RandomForest | GradientBoosting => ">50K" | _ => "<=50K" end).

Definition sample_perm : list nat := [3; 0; 4; 1; 2].

Example sample_selected :
  (fun r => match r with Ok (n, e) => Ok (n, est_kind e) | Err e => Err e end)
    (train_and_select constant_fit sample_perm sample_data) =
  Ok ("RandomForest", RandomForest).
Proof. vm_compute. reflexivity. Qed.

Definition sample_workclass : list cell :=
  [Some (VStr "Private"); Some (VStr "Local-gov"); None; Some (VStr "Private")].

Example sample_workclass_codes :
  fit_transform sample_workclass =
  Ok (StrClasses ["Local-gov"; "Private"] true,
      [Some (VInt 1); Some (VInt 0); Some (VInt 2); Some (VInt 1)]).
Proof. reflexivity. Qed.

Lemma label_encoder_roundtrip_witness :
  exists k, [Some (VInt 1); Some (VInt 0); Some (VInt 2); Some (VInt 1)] !! 3 =
              Some (Some (VInt (Z.of_nat k))) /\ ["Local-gov"; "Private"] !! k = Some "Private".
Proof. apply (label_encoder_roundtrip sample_workclass _ true); reflexivity. Defined.

Lemma label_encoder_order_witness :
  exists ki kj, [Some (VInt 1); Some (VInt 0); Some (VInt 2); Some (VInt 1)] !! 1 =
                  Some (Some (VInt (Z.of_nat ki))) /\
                [Some (VInt 1); Some (VInt 0); Some (VInt 2); Some (VInt 1)] !! 0 =
                  Some (Some (VInt (Z.of_nat kj))) /\ ki < kj < 2.
Proof.
  apply (label_encoder_order sample_workclass ["Local-gov"; "Private"] true _ 1 0
           "Local-gov" "Private"); [reflexivity|reflexivity|reflexivity|discriminate|decide_prop].
Defined.

Lemma split_partition_witness :
  exists enc x y X_train X_test y_train y_test,
    prepare sample_data = Ok (enc, x, y) /\
    train_test_split sample_perm x y = Ok (X_train, X_test, y_train, y_test) /\
    exists tr te, tr ++ te ≡ₚ seq 0 (nrows x) /\
      X_train = take_rows x tr /\ X_test = take_rows x te /\
      y_train = take_cells y tr /\ y_test = take_cells y te /\
      nrows x <= 5 * length te < nrows x + 5 /\ length tr = nrows x - length te /\
      0 < length tr.
Proof.
  destruct (prepare sample_data) as [[[enc x] y]|e] eqn:Hp;
    [|vm_compute in Hp; discriminate].
  destruct (train_test_split sample_perm x y) as [[[[Xtr Xte] ytr] yte]|e] eqn:Hs.
  - exists enc, x, y, Xtr, Xte, ytr, yte. split; [reflexivity|]. split; [exact Hs|].
    apply (split_partition sample_perm x y); [|exact Hs].
    assert (Hn : nrows x = 5) by (vm_compute in Hp; injection Hp as _ <- _; reflexivity).
    rewrite Hn. decide_prop.
  - vm_compute in Hp. injection Hp as _ <- <-. vm_compute in Hs. discriminate.
Defined.

Lemma accuracy_bounds_witness :
  accuracy_score [Some (VStr ">50K"); Some (VStr "<=50K")]
                 [Some (VStr ">50K"); Some (VStr ">50K")] = Ok (1 # 2)%Q /\
  (0 <= 1 # 2 <= 1)%Q.
Proof.
  split; [reflexivity|]. apply (accuracy_bounds [Some (VStr ">50K"); Some (VStr "<=50K")]
                                [Some (VStr ">50K"); Some (VStr ">50K")]). reflexivity.
Defined.

Lemma py_max_key_first_max_witness :
  exists i a, first_max [("LogisticRegression", 0%Q); ("RandomForest", 1%Q);
                         ("GradientBoosting", 1%Q)] i "RandomForest" a.
Proof. apply py_max_key_first_max. reflexivity. Defined.

Lemma selected_model_best_witness :
  exists name est, train_and_select constant_fit sample_perm sample_data = Ok (name, est) /\
  exists enc x y X_train X_test y_train y_test accs i a,
    prepare sample_data = Ok (enc, x, y) /\
    train_test_split sample_perm x y = Ok (X_train, X_test, y_train, y_test) /\
    Forall2 (fun ne acc => held_out_accuracy constant_fit X_train X_test y_train y_test
                             (est_kind ne.2) = Ok acc)
            (models_init (F:=constant_model)) accs /\
    first_max (zip (fst <$> models_init (F:=constant_model)) accs) i name a /\
    dict_get name (models_init (F:=constant_model)) = Some (mk_estimator (est_kind est) None) /\
    est_fitted est = Some (constant_fit (est_kind est) X_train y_train).
Proof.
  destruct (train_and_select constant_fit sample_perm sample_data) as [[name est]|e] eqn:Ht;
    [|vm_compute in Ht; discriminate].
  exists name, est. split; [reflexivity|]. exact (selected_model_best _ _ _ _ _ Ht).
Defined.

Lemma filter_age_rows_witness :
  exists df', filter_age sample_data = Ok df' /\
  frame_wf df' /\ col_names df' = col_names sample_data /\
  exists ages, dict_get "age" (columns sample_data) = Some ages /\
    dict_get "age" (columns df') = Some (filter (fun c => age_kept c) ages) /\
    Forall (fun c => exists a, c = Some (VInt a) /\ (17 <= a <= 75)%Z)
           (filter (fun c => age_kept c) ages).
Proof.
  destruct (filter_age sample_data) as [df'|e] eqn:Hf.
  - exists df'. split; [reflexivity|]. exact (filter_age_rows _ _ (from_records_wf _) Hf).
  - vm_compute in Hf. discriminate.
Defined.

Lemma prepare_features_witness :
  exists enc x y, prepare sample_data = Ok (enc, x, y) /\
  col_names x = filter (fun c => c <> "income")
                  (filter (fun c => c <> "education") (col_names sample_data)) /\
  frame_wf x /\ length y = nrows x.
Proof.
  destruct (prepare sample_data) as [[[enc x] y]|e] eqn:Hp; [|vm_compute in Hp; discriminate].
  exists enc, x, y. split; [reflexivity|]. exact (prepare_features _ _ _ _ (from_records_wf _) Hp).
Defined.

Definition minors_and_seniors : frame :=
  from_records
    [adult_row 16 "Private" "10th" "Never-married" "Other-service" "Own-child" "White" "Female" 20 "United-States" "<=50K";
     adult_row 38 "Private" "HS-grad" "Married-civ-spouse" "Farming-fishing" "Husband" "White" "Male" 50 "United-States" "<=50K";
     adult_row 80 "Self-emp-inc" "Bachelors" "Widowed" "Exec-managerial" "Unmarried" "White" "Female" 10 "Canada" "<=50K"].

Lemma trainer_too_few_rows_witness :
  exists enc x y, prepare minors_and_seniors = Ok (enc, x, y) /\ nrows x <= 1 /\
  exists ages, dict_get "age" (columns minors_and_seniors) = Some ages /\
    nrows x = length (filter (fun c => age_kept c) ages) /\
    train_and_select constant_fit [0] minors_and_seniors =
      Err (ValueError ("With n_samples=" +:+ pretty (N.of_nat (nrows x)) +:+
                       ", test_size=0.2 and train_size=None, the resulting train set will be empty. Adjust any of the aforementioned parameters.")).
Proof.
  destruct (prepare minors_and_seniors) as [[[enc x] y]|e] eqn:Hp;
    [|vm_compute in Hp; discriminate].
  assert (Hn : nrows x = 1) by (vm_compute in Hp; injection Hp as _ <- _; reflexivity).
  exists enc, x, y. split_and!; [reflexivity|lia|].
  apply (trainer_too_few_rows constant_fit [0] minors_and_seniors enc x y);
    [apply from_records_wf|exact Hp|lia].
Defined.

Definition unknown_age_data : frame :=
  from_records
    [[("age", VStr "39"); ("workclass", VStr "Private"); ("income", VStr "<=50K")];
     [("age", VStr "?"); ("workclass", VStr "Private"); ("income", VStr ">50K")]].

Lemma trainer_text_age_raises_witness :
  dict_get "age" (columns unknown_age_data) = Some [Some (VStr "39"); Some (VStr "?")] /\
  train_and_select constant_fit [1; 0] unknown_age_data =
    Err (TypeError "'>=' not supported between instances of 'str' and 'int'").
Proof.
  split; [reflexivity|].
  apply (trainer_text_age_raises constant_fit [1; 0] unknown_age_data
           [Some (VStr "39"); Some (VStr "?")] "?"); [reflexivity|decide_prop].
Defined.
