(* ===== verification/Float.v ===== *)
(** * Float: the accuracy as a float64 and its [{acc:.4f}] printing

    [accuracy_score] (line 41 of [src/model_training.py]) returns the
    mean of the boolean vector [y_true == y_pred] as a numpy float64:
    the count of matches, exact in a double, divided by the number of
    samples with one correctly rounded division.  Line 43 prints it with
    the format [.4f], which writes the exact decimal value of that double
    rounded to four places, ties to even.

    [to_double] is the IEEE 754 binary64 rounding of a rational, to
    nearest with ties to even: a mantissa of 53 bits, the exponent of
    the leading bit ([flog2]) bounded below by the subnormal range
    (2^-1074) and [DInf] from 2^1024 on.  [fixed4] is Python's [.4f] on
    a double; [format_acc] is their composition, the text line 43
    prints.

    The lemmas: the mantissa of a positive double holds 53 bits
    (2^52 <= m < 2^53 for a normal value) and rounding a rational to a
    double is off by at most half a unit of its last place.  The
    theorem: when the test set
    has fewer than 2^38 rows, the printed text equals the exact
    accuracy rounded to four places, except when the exact accuracy is
    itself a tie at the fifth decimal: then the binary error, not the
    tie rule, decides the last digit ([3/20000] prints [0.0001]). *)

From S2P Require Import Prelude Frame Trainer.
From Stdlib Require Import QArith Ascii.
From Stdlib Require String.
Close Scope Q_scope.
Open Scope Z_scope.

(** ** Rounding to an integer *)

(** The integer nearest to [a / b] ([b > 0]), ties to even. *)
Definition round_half_even (a b : Z) : Z :=
  let q := a / b in
  let r := a mod b in
  match Z.compare (2 * r) b with
  | Lt => q
  | Gt => q + 1
  | Eq => if Z.even q then q else q + 1
  end.

(** ** Binary64 *)

Inductive double :=
| DFin (m u : Z)   (** the value [m * 2^u] *)
| DInf.

(** [2^e <= a / b], for [a, b > 0]. *)
Definition pow2_le (e a b : Z) : bool :=
  if 0 <=? e then b * 2 ^ e <=? a else b <=? a * 2 ^ (- e).

(** The exponent of the leading bit of [a / b]: [floor (log2 (a / b))]. *)
Definition flog2 (a b : Z) : Z :=
  let e := Z.log2 a - Z.log2 b in
  if pow2_le e a b then e else e - 1.

Definition emin : Z := -1022.
Definition precision : Z := 53.
Definition emax : Z := 1024.

(** The exponent of the last place of a positive [a / b]. *)
Definition ulp_exp (a b : Z) : Z := Z.max (flog2 a b - (precision - 1)) (emin - (precision - 1)).

(** Round [a / b > 0] to a multiple of [2^u]. *)
Definition round_to (u a b : Z) : Z :=
  if 0 <=? u then round_half_even a (b * 2 ^ u) else round_half_even (a * 2 ^ (- u)) b.

(** A mantissa rounded up to [2^53] is renormalized; a value from
    [2^1024] on is infinite. *)
Definition normalize (m u : Z) : Z * Z :=
  if m =? 2 ^ precision then (2 ^ (precision - 1), u + 1) else (m, u).

Definition round_pos (a b : Z) : double :=
  let '(m, u) := normalize (round_to (ulp_exp a b) a b) (ulp_exp a b) in
  if emax - precision <? u then DInf else DFin m u.

(** [float(q)], correctly rounded: the sign of a negative value is kept
    on the mantissa (no negative value arises from [accuracy_score]). *)
Definition to_double (q : Q) : double :=
  let a := Qnum q in
  let b := Zpos (Qden q) in
  match Z.compare a 0 with
  | Eq => DFin 0 0
  | Gt => round_pos a b
  | Lt => match round_pos (- a) b with
          | DFin m u => DFin (- m) u
          | DInf => DInf
          end
  end.

(** ** Python's [.4f] *)

Definition pad4 (s : string) : string :=
  String.string_of_list_ascii (replicate (4 - String.length s) "0"%char) +:+ s.

(** A count [j >= 0] of ten-thousandths, written with four decimals. *)
Definition show4 (j : Z) : string :=
  pretty (Z.to_N (j / 10000)) +:+ "." +:+ pad4 (pretty (Z.to_N (j mod 10000))).

(** The double [m * 2^u] rounded to four decimals, ties to even, on its
    exact value. *)
Definition fixed4 (d : double) : string :=
  match d with
  | DInf => "inf"
  | DFin m u =>
      let num := 10000 * Z.abs m * (if 0 <=? u then 2 ^ u else 1) in
      let den := if 0 <=? u then 1 else 2 ^ (- u) in
      (if m <? 0 then "-" else EmptyString) +:+ show4 (round_half_even num den)
  end.

(** [k/n] lies exactly halfway between two multiples of [10^-4]. *)
Definition tie4 (k n : Z) : bool := (2 * (10000 * k)) mod (2 * n) =? n.

(** [f"{acc:.4f}"] with [acc = float(acc)]. *)
Definition format_acc (acc : Q) : string := fixed4 (to_double acc).

(** ** Rounding lemmas *)

Lemma round_half_even_spec a b : 0 < b -> 2 * Z.abs (a - b * round_half_even a b) <= b.
Proof.
  intros Hb. unfold round_half_even.
  pose proof (Z.div_mod a b ltac:(lia)) as Hd. pose proof (Z.mod_pos_bound a b Hb) as Hr.
  destruct (Z.compare_spec (2 * (a mod b)) b); [destruct (Z.even (a / b))|..]; lia.
Qed.

(** Away from a tie, the rounding is the integer within a half. *)
Lemma round_half_even_unique a b j :
  0 < b -> 2 * Z.abs (a - b * j) < b -> round_half_even a b = j.
Proof.
  intros Hb Hj. pose proof (round_half_even_spec a b Hb) as Hs.
  assert (Habs : Z.abs (b * (j - round_half_even a b)) < b) by lia.
  rewrite Z.abs_mul, (Z.abs_eq b) in Habs by lia.
  assert (Z.abs (j - round_half_even a b) < 1) by nia. lia.
Qed.

Lemma pow2_le_iff e a b c :
  0 <= c -> 0 <= e + c -> 0 < b ->
  pow2_le e a b = true <-> b * 2 ^ (e + c) <= a * 2 ^ c.
Proof.
  intros Hc Hec Hb. unfold pow2_le. rewrite <-Z.leb_le. destruct (Z.leb_spec 0 e).
  - rewrite Z.pow_add_r by lia. pose proof (Z.pow_pos_nonneg 2 c ltac:(lia) Hc).
    rewrite !Z.leb_le. split; nia.
  - replace c with ((e + c) + - e) at 2 by lia. rewrite (Z.pow_add_r 2 (e + c) (- e)) by lia.
    pose proof (Z.pow_pos_nonneg 2 (e + c) ltac:(lia) Hec). rewrite !Z.leb_le. split; nia.
Qed.

(** [flog2] is the exponent of the leading bit: [2^e <= a/b < 2^(e+1)]. *)
Lemma flog2_spec a b :
  0 < a -> 0 < b -> pow2_le (flog2 a b) a b = true /\ pow2_le (flog2 a b + 1) a b = false.
Proof.
  intros Ha Hb. pose proof (Z.log2_spec a Ha) as [Ha1 Ha2]. pose proof (Z.log2_spec b Hb) as [Hb1 Hb2].
  pose proof (Z.log2_nonneg a). pose proof (Z.log2_nonneg b).
  set (la := Z.log2 a) in *. set (lb := Z.log2 b) in *.
  rewrite Z.pow_succ_r in Ha2, Hb2 by lia.
  set (A := 2 ^ la) in *. set (B := 2 ^ lb) in *.
  assert (Hlo : pow2_le (la - lb - 1) a b = true).
  { apply (pow2_le_iff _ _ _ (lb + 2)); [lia|lia|lia|].
    replace (la - lb - 1 + (lb + 2)) with (Z.succ la) by lia.
    rewrite Z.pow_succ_r, Z.pow_add_r by lia. fold A B. nia. }
  assert (Hhi : pow2_le (la - lb + 1) a b = false).
  { apply not_true_iff_false. rewrite (pow2_le_iff _ _ _ (lb + 2)) by lia.
    replace (la - lb + 1 + (lb + 2)) with (la + 3) by lia.
    rewrite !Z.pow_add_r by lia. fold A B. cbn. nia. }
  unfold flog2. fold la lb. destruct (pow2_le (la - lb) a b) eqn:He.
  - by split.
  - split; [done|]. by replace (la - lb - 1 + 1) with (la - lb) by lia.
Qed.

(** The exponent of an accuracy [k/n] in [(0, 1]]: at most 0, and
    normal for fewer than 2^1021 samples. *)
Lemma flog2_unit k n :
  0 < k <= n -> n < 2 ^ 1021 -> -1021 <= flog2 k n <= 0.
Proof.
  intros Hk Hn. destruct (flog2_spec k n ltac:(lia) ltac:(lia)) as [Hlo Hhi].
  set (e := flog2 k n) in *. unfold pow2_le in Hlo, Hhi. split.
  - destruct (Z.leb_spec 0 (e + 1)) as [He|He]; [lia|].
    apply Z.leb_gt in Hhi. replace (- (e + 1)) with (Z.pred (- e)) in Hhi by lia.
    destruct (Z.lt_ge_cases (- e - 1) 1021) as [|Hge]; [lia|].
    assert (2 ^ 1021 <= 2 ^ (Z.pred (- e))) by (apply Z.pow_le_mono_r; lia). nia.
  - destruct (Z.leb_spec 0 e) as [He|He]; [|lia]. apply Z.leb_le in Hlo.
    destruct (Z.eq_dec e 0) as [|Hne]; [lia|].
    assert (2 ^ 1 <= 2 ^ e) by (apply Z.pow_le_mono_r; lia). cbn in *. nia.
Qed.

Lemma normalize_cases m u :
  normalize m u = (m, u) \/ (m = 2 ^ 53 /\ normalize m u = (2 ^ 52, u + 1)).
Proof. unfold normalize. destruct (Z.eqb_spec m (2 ^ precision)); [right|left]; done. Qed.

(** Unit roundoff: the double nearest to an accuracy [k/n] differs
    from it by at most [2^-53 * k/n], written without division: [u] is
    the exponent of the last place and [m] the mantissa. *)
Lemma round_pos_unit k n :
  0 < k <= n -> n < 2 ^ 1021 ->
  exists m u, round_pos k n = DFin m u /\ u < 0 /\ 2 ^ 52 <= m < 2 ^ 53 /\
    2 ^ 53 * Z.abs (k * 2 ^ (- u) - n * m) <= k * 2 ^ (- u).
Proof.
  intros Hk Hn. pose proof (flog2_unit k n Hk Hn) as He.
  pose proof (flog2_spec k n ltac:(lia) ltac:(lia)) as [Hlo Hhi].
  set (e := flog2 k n) in *.
  assert (Hhi' : k * 2 ^ (52 - e) < n * 2 ^ 53).
  { apply not_true_iff_false in Hhi. rewrite (pow2_le_iff _ _ _ (52 - e)) in Hhi by lia.
    replace (e + 1 + (52 - e)) with 53 in Hhi by lia. lia. }
  assert (Hu : ulp_exp k n = e - 52) by (unfold ulp_exp, emin, precision; fold e; lia).
  assert (Hlo' : n * 2 ^ 52 <= k * 2 ^ (52 - e)).
  { rewrite (pow2_le_iff _ _ _ (52 - e)) in Hlo by lia.
    by replace (e + (52 - e)) with 52 in Hlo by lia. }
  set (P := 2 ^ (52 - e)) in *.
  assert (Hm : 2 * Z.abs (k * P - n * round_to (e - 52) k n) <= n).
  { unfold round_to. rewrite (proj2 (Z.leb_gt 0 (e - 52))) by lia.
    replace (- (e - 52)) with (52 - e) by lia. apply round_half_even_spec. lia. }
  set (m0 := round_to (e - 52) k n) in *.
  assert (Herr : 2 ^ 53 * Z.abs (k * P - n * m0) <= k * P).
  { change (2 ^ 53) with (2 * 2 ^ 52). nia. }
  unfold round_pos. rewrite Hu. fold m0.
  assert (HP52 : n * 2 ^ 52 <= k * P) by exact Hlo'.
  destruct (normalize_cases m0 (e - 52)) as [Hnorm | [Hm0 Hnorm]]; rewrite Hnorm.
  - exists m0, (e - 52). rewrite (proj2 (Z.ltb_ge _ _)) by (unfold emax, precision; lia).
    assert (m0 <> 2 ^ 53).
    { intros Heq. unfold normalize, precision in Hnorm. rewrite Heq, Z.eqb_refl in Hnorm.
      injection Hnorm. lia. }
    split_and!; [done|lia|nia|nia|]. by replace (- (e - 52)) with (52 - e) by lia.
  - exists (2 ^ 52), (e - 52 + 1). rewrite (proj2 (Z.ltb_ge _ _)) by (unfold emax, precision; lia).
    split_and!; [done|lia|lia|lia|].
    assert (HP : P = 2 * 2 ^ (- (e - 52 + 1))).
    { unfold P. rewrite <-Z.pow_succ_r by lia. f_equal. lia. }
    rewrite HP, Hm0 in Herr. change (2 ^ 53) with (2 * 2 ^ 52) in Herr.
    set (P' := 2 ^ (- (e - 52 + 1))) in *.
    replace (k * (2 * P') - n * (2 * 2 ^ 52)) with (2 * (k * P' - n * 2 ^ 52)) in Herr by ring.
    rewrite Z.abs_mul in Herr. cbn [Z.abs] in Herr. nia.
Qed.

Lemma not_tie4 k n j : 0 < n -> tie4 k n = false -> 2 * Z.abs (10000 * k - n * j) <> n.
Proof.
  intros Hn Ht Heq. apply Z.eqb_neq in Ht. apply Ht.
  assert (H2 : 2 * (10000 * k) = n + (j * (2 * n)) \/ 2 * (10000 * k) = n + ((j - 1) * (2 * n))) by lia.
  destruct H2 as [-> | ->]; rewrite Z_mod_plus_full; apply Z.mod_small; lia.
Qed.

(** Printing the double of [k/n] rounds as printing [k/n] itself when
    the double's error cannot cross a rounding boundary. *)
Lemma fixed4_round_pos k n :
  0 < k <= n -> n < 2 ^ 38 -> tie4 k n = false ->
  fixed4 (round_pos k n) = show4 (round_half_even (10000 * k) n).
Proof.
  intros Hk Hn Ht.
  destruct (round_pos_unit k n Hk ltac:(lia)) as (m & u & -> & Hu & Hmb & Herr).
  set (P := 2 ^ (- u)) in *.
  assert (HP : 0 < P) by (apply Z.pow_pos_nonneg; lia).
  set (j := round_half_even (10000 * k) n).
  pose proof (round_half_even_spec (10000 * k) n ltac:(lia)) as Hj. fold j in Hj.
  pose proof (not_tie4 k n j ltac:(lia) Ht) as Hnt.
  unfold fixed4. rewrite (proj2 (Z.ltb_ge m 0)), (proj2 (Z.leb_gt 0 u)), Z.abs_eq by lia.
  change (EmptyString +:+ ?x) with x. f_equal. rewrite Z.mul_1_r. fold P.
  apply round_half_even_unique; [lia|].
  (* n * (10000 m - P j) = 10000 (n m - k P) + P (10000 k - n j) *)
  assert (Hsplit : n * (10000 * m - P * j) = 10000 * (n * m - k * P) + P * (10000 * k - n * j)) by ring.
  assert (Htri : Z.abs (n * (10000 * m - P * j)) <= 10000 * Z.abs (n * m - k * P) + P * Z.abs (10000 * k - n * j)).
  { rewrite Hsplit. etrans; [apply Z.abs_triangle|]. rewrite !Z.abs_mul, !(Z.abs_eq 10000), (Z.abs_eq P) by lia. lia. }
  rewrite Z.abs_mul, (Z.abs_eq n) in Htri by lia.
  assert (Hkn : Z.abs (n * m - k * P) = Z.abs (k * P - n * m)) by (rewrite <-Z.abs_opp; f_equal; ring).
  rewrite Hkn in Htri.
  assert (H20 : 20000 * n < 2 ^ 53) by (change (2 ^ 53) with (2 ^ 15 * 2 ^ 38); lia).
  nia.
Qed.

(** ** The printed accuracy *)

(** [accuracy_score]'s value as the fraction of its two counts. *)
Lemma format_acc_frac c n :
  0 <= c -> 0 < n ->
  format_acc (inject_Z c / inject_Z n) = fixed4 (if c =? 0 then DFin 0 0 else round_pos c n).
Proof.
  intros Hc Hn. destruct n as [|p|p]; [lia| |lia].
  unfold format_acc, to_double. cbn [Qnum Qden Qdiv Qmult Qinv inject_Z].
  rewrite Z.mul_1_r. destruct (Z.eqb_spec c 0) as [->|Hc0]; [reflexivity|].
  by rewrite (proj2 (Z.compare_gt_iff c 0)) by lia.
Qed.

Lemma to_double_frac c n :
  0 < c -> 0 < n -> to_double (inject_Z c / inject_Z n) = round_pos c n.
Proof.
  intros Hc Hn. destruct n as [|p|p]; [lia| |lia].
  unfold to_double. cbn [Qnum Qden Qdiv Qmult Qinv inject_Z].
  rewrite Z.mul_1_r. by rewrite (proj2 (Z.compare_gt_iff c 0)) by lia.
Qed.

Lemma accuracy_score_frac ys ps acc :
  accuracy_score ys ps = Ok acc ->
  acc = (inject_Z (Z.of_nat (count_equal ys ps)) / inject_Z (Z.of_nat (length ys)))%Q.
Proof. unfold accuracy_score. case_decide; [discriminate|]. by intros [= <-]. Qed.

(** ** Theorems *)

(** C37: when the test set has fewer than 2^38 rows, the line
    [print(f"{name}: {acc:.4f}")] shows the exact accuracy rounded to
    four decimals, unless that accuracy is exactly halfway between two
    four-decimal numbers: the float64 rounding never crosses a rounding
    boundary of the printing. *)
Theorem printed_accuracy ys ps acc :
  accuracy_score ys ps = Ok acc -> (0 < length ys)%nat -> Z.of_nat (length ys) < 2 ^ 38 ->
  tie4 (Z.of_nat (count_equal ys ps)) (Z.of_nat (length ys)) = false ->
  format_acc acc =
  show4 (round_half_even (10000 * Z.of_nat (count_equal ys ps)) (Z.of_nat (length ys))).
Proof.
  intros Hacc Hn Hn' Ht. apply accuracy_score_frac in Hacc as ->.
  pose proof (count_equal_le ys ps).
  rewrite format_acc_frac by lia.
  destruct (Z.eqb_spec (Z.of_nat (count_equal ys ps)) 0) as [Hc|Hc].
  - rewrite Hc, Z.mul_0_r. unfold round_half_even.
    rewrite Z.div_0_l, Zmod_0_l, (proj2 (Z.compare_lt_iff _ _)) by lia. reflexivity.
  - apply fixed4_round_pos; [lia|lia|exact Ht].
Qed.

(** ** Examples *)

(** At an exact tie the binary error decides: [3/20000 = 0.00015] is
    stored just below the tie and prints [0.0001], where rounding the
    exact value ties to even would give [0.0002]; [2/3] prints
    [0.6667]. *)
Example tie_follows_binary_error :
  format_acc (inject_Z 3 / inject_Z 20000) = "0.0001" /\
  show4 (round_half_even (10000 * 3) 20000) = "0.0002" /\
  format_acc (inject_Z 2 / inject_Z 3) = "0.6667".
Proof. split_and!; vm_compute; reflexivity. Qed.

Definition sample_labels : list cell := [Some (VStr ">50K"); Some (VStr "<=50K"); Some (VStr "<=50K")].
Definition sample_preds : list cell := [Some (VStr ">50K"); Some (VStr "<=50K"); Some (VStr ">50K")].

Lemma printed_accuracy_witness :
  exists acc, accuracy_score sample_labels sample_preds = Ok acc /\
    format_acc acc = show4 (round_half_even (10000 * 2) 3) /\ format_acc acc = "0.6667".
Proof.
  eexists. split; [reflexivity|]. split; [|vm_compute; reflexivity].
  apply (printed_accuracy sample_labels sample_preds); [reflexivity|vm_compute; lia|vm_compute; reflexivity|vm_compute; reflexivity].
Defined.
