(* ===== verification/Pipeline.v ===== *)
(** * Pipeline: the trainer's columns seen by the app

    [src/model_training.py] fits its classifiers on the columns of [x]:
    the data set's header without [education] and [income], each of the
    seven categorical columns kept under its own name and holding integer
    codes.  [src/main.py] aligns the form on [model_columns.pkl], which no
    script of the repository writes; the specification says it is the
    trainer's post-encoding column list.  With that list, the app's
    one-hot names ([gender_Male], ...) and its [hours_per_week] never
    match a trained column, so every such column is zero-filled: the
    classifier sees the age and zeros, whatever else the form says. *)

From S2P Require Import Prelude Frame Dummies Reindex Predictor App Trainer.
Open Scope string_scope.
Open Scope list_scope.

(** Every name the form can produce besides [age]. *)
Definition form_feature_names : list string :=
  ["hours_per_week"] ++
  ((fun v => "gender_" +:+ split_head v) <$> gender_options) ++
  ((fun v => "workclass_" +:+ split_head v) <$> workclass_options) ++
  ((fun v => "education_" +:+ split_head v) <$> education_options) ++
  ((fun v => "occupation_" +:+ split_head v) <$> occupation_options).

(** The vector the classifier receives when only [age] matches. *)
Definition age_only_vector (age : Z) (cols : list string) : list (option Z) :=
  (fun t => Some (if decide (t = "age") then age else 0%Z)) <$> cols.

(** ** Lemmas *)

Lemma form_dummies_names f t :
  form_valid f -> t ∈ form_dummies f -> t ∈ form_feature_names.
Proof.
  intros (_ & Hg & Hw & Hd & Ho & _) Ht. unfold form_dummies in Ht.
  unfold form_feature_names. rewrite !elem_of_app.
  apply list_elem_of_In in Ht. simpl in Ht. destruct_or! Ht; try contradiction; subst.
  - right. left. apply list_elem_of_fmap; eexists; split; [reflexivity|done].
  - do 2 right. left. apply list_elem_of_fmap; eexists; split; [reflexivity|done].
  - do 3 right. left. apply list_elem_of_fmap; eexists; split; [reflexivity|done].
  - do 4 right. apply list_elem_of_fmap; eexists; split; [reflexivity|done].
Qed.

Lemma manual_feature_outside f t :
  form_valid f -> t ∉ form_feature_names ->
  manual_feature f t = if decide (t = "age") then f_age f else 0%Z.
Proof.
  intros Hf Ht. unfold manual_feature. case_decide; [done|].
  rewrite decide_False by (intros ->; apply Ht; by left).
  rewrite decide_False; [done|]. intros Hd. by apply Ht, (form_dummies_names f).
Qed.

(** ** Theorems *)

Lemma schema_age_only `{Predictor M} (m : M) data enc x y f :
  prepare data = Ok (enc, x, y) ->
  Forall (fun t => t ∉ form_feature_names) (col_names data) ->
  feature_names_in m = col_names x -> col_names x <> [] -> form_valid f ->
  exists r, manual_predict m (col_names x) f = Ok r /\
            prediction r = predict_row m (age_only_vector (f_age f) (col_names x)).
Proof.
  intros Hp Hdata Hfn Hne Hf. rewrite manual_predict_eq by done.
  eexists. split; [reflexivity|]. simpl. f_equal. apply list_fmap_ext. intros i t Ht.
  apply list_elem_of_lookup_2, (prepare_columns_elem _ _ _ _ _ Hp) in Ht.
  f_equal. apply manual_feature_outside; [done|].
  rewrite Forall_forall in Hdata. by apply Hdata.
Qed.

(** C17: take the column list the trainer fits on ([x.columns] after
    [prepare]) as the app's [model_columns], for a data set whose header
    holds no name the form produces besides [age] (as the hyphenated
    header of [adult.csv]).  Then for every valid form the manual handler
    returns, and the classifier is handed the age under [age] and 0 under
    every other column: gender, workclass, education, occupation and
    hours do not reach the model. *)
Theorem trained_schema_age_only `{Predictor M} (m : M) data enc x y f :
  prepare data = Ok (enc, x, y) ->
  Forall (fun t => t ∉ form_feature_names) (col_names data) ->
  feature_names_in m = col_names x -> col_names x <> [] -> form_valid f ->
  exists r, manual_predict m (col_names x) f = Ok r /\
            prediction r = predict_row m (age_only_vector (f_age f) (col_names x)).
Proof. apply schema_age_only. Qed.

Lemma trained_schema_age_only_witness :
  exists enc x y, prepare sample_data = Ok (enc, x, y) /\
  exists r, manual_predict (constant_fit RandomForest x y) (col_names x) form_init = Ok r /\
    prediction r = predict_row (constant_fit RandomForest x y)
                     (age_only_vector (f_age form_init) (col_names x)).
Proof.
  destruct (prepare sample_data) as [[[enc x] y]|e] eqn:Hp;
    [|vm_compute in Hp; discriminate].
  exists enc, x, y. split; [reflexivity|].
  apply (trained_schema_age_only _ sample_data enc x y form_init Hp);
    [decide_prop|reflexivity| |decide_prop].
  rewrite (prepare_columns _ _ _ _ Hp). vm_compute. discriminate.
Defined.

(** ** The deployed model *)

Section Deployed.
Context {F : Type} `{Predictor F} (fit : estimator_kind -> frame -> list cell -> F).

(** scikit-learn's [fit] on a data frame records its column names. *)
Hypothesis fit_feature_names : forall k X y, feature_names_in (fit k X y) = col_names X.

(** C9: end to end, for a data set whose header holds no name the form
    produces besides [age]: the model [model_training.py] saves, loaded
    by the app with the trainer's column list as [model_columns], returns
    for every valid form the label of the vector that holds the age and
    zeros. *)
Theorem deployed_model_sees_age_only perm data name est f :
  train_and_select fit perm data = Ok (name, est) ->
  Forall (fun t => t ∉ form_feature_names) (col_names data) -> form_valid f ->
  exists mdl enc x y, est_fitted est = Some mdl /\ prepare data = Ok (enc, x, y) /\
    exists r, manual_predict mdl (col_names x) f = Ok r /\
              prediction r = predict_row mdl (age_only_vector (f_age f) (col_names x)).
Proof.
  intros Hts Hdata Hf.
  destruct (train_and_select_spec fit perm data name est Hts)
    as (enc & x & y & Xtr & Xte & ytr & yte & Hp & Hs & _ & Hfit).
  exists (fit (est_kind est) Xtr ytr), enc, x, y. split_and!; [done|done|].
  apply (schema_age_only _ data enc x y); [done|done| | |done].
  - rewrite fit_feature_names. exact (train_test_split_names _ _ _ _ _ _ _ Hs).
  - intros Hx. pose proof (prepare_has_age _ _ _ _ Hp) as Ha. rewrite Hx in Ha. set_solver.
Qed.
End Deployed.

Lemma constant_fit_names k X y : feature_names_in (constant_fit k X y) = col_names X.
Proof. reflexivity. Qed.

Lemma deployed_model_sees_age_only_witness :
  exists name est, train_and_select constant_fit sample_perm sample_data = Ok (name, est) /\
  exists mdl enc x y, est_fitted est = Some mdl /\ prepare sample_data = Ok (enc, x, y) /\
    exists r, manual_predict mdl (col_names x) form_init = Ok r /\
              prediction r = predict_row mdl (age_only_vector (f_age form_init) (col_names x)).
Proof.
  destruct (train_and_select constant_fit sample_perm sample_data) as [[name est]|e] eqn:Ht;
    [|vm_compute in Ht; discriminate].
  exists name, est. split; [reflexivity|].
  apply (deployed_model_sees_age_only constant_fit constant_fit_names sample_perm
           sample_data name est form_init Ht); decide_prop.
Defined.
