(* ===== verification/Batch.v ===== *)
(** * Batch: an upload against its rows one at a time

    The bulk tab (lines 178-179 of [src/main.py]) encodes the whole
    upload at once; the manual tab (lines 141-143) encodes one row.  The
    two agree on row [i] when every object column of the upload holds a
    string in that row: pandas then gives the row alone the same object
    columns as the whole upload, and the indicators the upload has
    beyond the row's own level are 0 there, as the zero fill of the row
    alone.  [row_frame] reads the one-row frame's dtypes off its cells,
    while [df.iloc[[i]]] keeps the upload's dtypes; the two agree on
    such rows, which is where the theorems are stated. *)

From S2P Require Import Prelude Translations Frame Csv Dummies Reindex Predictor App Session.
Open Scope string_scope.
Open Scope list_scope.

(** Every object column holds a string in row [i]. *)
Definition row_strings (df : frame) (i : nat) : bool :=
  forallb (fun c => negb (is_object_column c) || is_str_cell (cell_at c i)) (columns df).

(** The cells of row [i] of a column, as the one-row frame holds them. *)
Definition row_cells (i : nat) (cs : list cell) : list cell := [default None (cs !! i)].

(** Column [c] of the one-row frame of row [i]. *)
Definition row_col (i : nat) (c : column) : column := (c.1, row_cells i c.2).

(** An indicator column that is 1 in row [i]. *)
Definition one_at (i : nat) (cs : list cell) : Prop := default None (cs !! i) = Some (VInt 1).

#[export] Instance one_at_dec i cs : Decision (one_at i cs).
Proof. unfold one_at. apply _. Defined.

(** ** Lemmas *)

Lemma row_frame_mk n cols i : row_frame (mk_frame n cols) i = mk_frame 1 (row_col i <$> cols).
Proof. reflexivity. Qed.

Section Row.
Context (df : frame) (i : nat).
Hypothesis (Hwf : frame_wf df) (Hi : i < nrows df) (Hrow : row_strings df i = true).

Lemma columns_row_frame :
  columns (row_frame df i) = row_col i <$> columns df.
Proof. reflexivity. Qed.

Lemma row_cell_in c : c ∈ columns df -> cell_at c i ∈ c.2.
Proof.
  intros Hc. destruct c as [n cs]. pose proof (wf_column_length df n cs Hwf Hc) as Hlen.
  unfold cell_at. cbn [fst snd]. destruct (cs !! i) as [x|] eqn:Hx.
  - by apply list_elem_of_lookup_2 with i.
  - apply lookup_ge_None in Hx. unfold cell in *. lia.
Qed.

Lemma is_object_row c :
  c ∈ columns df -> is_object_column (row_col i c) = is_object_column c.
Proof.
  intros Hc. unfold row_strings in Hrow. rewrite forallb_forall in Hrow.
  apply list_elem_of_In in Hc as Hc'. specialize (Hrow c Hc').
  change (is_str_cell (cell_at c i) || false = is_object_column c). rewrite orb_false_r.
  destruct (is_object_column c) eqn:He; simpl in Hrow; [done|].
  destruct (is_str_cell (cell_at c i)) eqn:Hs; [|done]. rewrite <-He. symmetry.
  apply existsb_exists. exists (cell_at c i). split; [|done].
  apply list_elem_of_In. by apply row_cell_in.
Qed.


Lemma numeric_columns_row : numeric_columns (row_frame df i) = row_col i <$> numeric_columns df.
Proof.
  unfold numeric_columns. rewrite columns_row_frame, filter_fmap_comm. f_equal.
  apply filter_ext_in. intros c Hc. by rewrite (is_object_row c Hc).
Qed.

Lemma object_columns_row : object_columns (row_frame df i) = row_col i <$> object_columns df.
Proof.
  unfold object_columns. rewrite columns_row_frame, filter_fmap_comm. f_equal.
  apply filter_ext_in. intros c Hc. by rewrite (is_object_row c Hc).
Qed.

Lemma object_row_string c :
  c ∈ columns df -> is_object_column c -> exists s, c.2 !! i = Some (Some (VStr s)).
Proof.
  intros Hc Hobj. unfold row_strings in Hrow. rewrite forallb_forall in Hrow.
  apply list_elem_of_In in Hc as Hc'. specialize (Hrow c Hc').
  apply Is_true_true in Hobj. rewrite Hobj in Hrow. simpl in Hrow.
  unfold cell_at in Hrow. destruct (c.2 !! i) as [[[z|s]|]|]; try discriminate. by exists s.
Qed.

(** The row alone has the one indicator of its own level, which is the
    indicator of the whole column that is 1 in that row. *)
Lemma dummies_of_row c :
  c ∈ columns df -> is_object_column c ->
  dummies_of (row_col i c) = row_col i <$> filter (fun d => one_at i d.2) (dummies_of c).
Proof.
  intros Hc Hobj. destruct (object_row_string c Hc Hobj) as [s Hs].
  destruct c as [n cs]. unfold row_col, dummies_of. cbn [fst snd] in *.
  unfold row_cells at 1. rewrite Hs. cbn [default].
  rewrite filter_fmap_comm. cbn [fst snd].
  rewrite (filter_ext_in _ (fun lvl => lvl = s)).
  2:{ intros lvl _. unfold one_at, cell in *. rewrite list_lookup_fmap, Hs. simpl.
      unfold indicator. simpl. case_decide; naive_solver. }
  rewrite filter_eq_NoDup.
  - simpl. unfold row_cells. unfold cell in *. rewrite list_lookup_fmap, Hs. reflexivity.
  - apply NoDup_sort_uniq; apply _.
  - apply elem_of_levels. exists (Some (VStr s)). split; [|done].
    by apply list_elem_of_lookup_2 with i.
Qed.

Lemma dict_get_row_col t (l : list column) :
  dict_get t (row_col i <$> l) = row_cells i <$> dict_get t l.
Proof. apply dict_get_fmap_val. Qed.

Lemma dict_get_row_col_filter t (l : list column) :
  NoDup (fst <$> l) ->
  dict_get t (row_col i <$> filter (fun d => one_at i d.2) l) =
  match dict_get t l with
  | Some v => if decide (one_at i v) then Some (row_cells i v) else None
  | None => None
  end.
Proof. apply dict_get_filter_fmap. Qed.

Lemma expand_row :
  columns (expand (row_frame df i)) =
  (row_col i <$> numeric_columns df) ++
  (row_col i <$> filter (fun d => one_at i d.2) (object_columns df ≫= dummies_of)).
Proof.
  unfold expand. cbn [columns]. rewrite numeric_columns_row, object_columns_row. f_equal.
  rewrite list_fmap_bind, filter_bind, fmap_list_bind. apply list_bind_ext_in.
  intros c Hc. apply list_elem_of_filter in Hc as [Hobj Hc]. by apply dummies_of_row.
Qed.

Lemma NoDup_expand_row :
  NoDup (col_names (expand df)) -> NoDup (col_names (expand (row_frame df i))).
Proof.
  unfold col_names. rewrite expand_row, !fmap_app, <-!list_fmap_compose.
  intros Hnd. eapply sublist_NoDup; [exact Hnd|].
  unfold expand. cbn [columns]. rewrite fmap_app. apply sublist_app; [done|].
  apply sublist_fmap, sublist_filter.
Qed.

Lemma row_cells_dummy t v :
  (t, v) ∈ object_columns df ≫= dummies_of -> ~ one_at i v -> row_cells i v = [Some (VInt 0)].
Proof.
  intros Hin Hone. apply list_elem_of_bind in Hin as ([n cs] & Hd & Hc).
  apply list_elem_of_filter in Hc as [_ Hc].
  unfold dummies_of in Hd. apply list_elem_of_fmap in Hd as (lvl & [= -> ->] & _).
  pose proof (wf_column_length df n cs Hwf Hc) as Hlen.
  destruct (lookup_lt_is_Some_2 cs i) as [x Hx]; [unfold cell in *; lia|].
  unfold one_at, row_cells in *. unfold cell in *. rewrite list_lookup_fmap, Hx in Hone |- *.
  simpl in *. unfold indicator in *. case_decide; [done|reflexivity].
Qed.

(** Row [i] of the expanded upload, with the zero fill, is the expanded
    row with its zero fill, column by column. *)
Lemma expand_row_get t :
  NoDup (col_names (expand df)) ->
  default (fill_column 1 0) (dict_get t (columns (expand (row_frame df i)))) =
  row_cells i (default (fill_column (nrows df) 0) (dict_get t (columns (expand df)))).
Proof.
  intros Hnd. rewrite expand_row. unfold expand in Hnd |- *. cbn [columns] in *.
  unfold col_names in Hnd. cbn [columns] in Hnd. rewrite fmap_app in Hnd.
  apply NoDup_app in Hnd as (_ & _ & HndD).
  rewrite !(dict_get_app (V:=list cell)), dict_get_row_col.
  destruct (dict_get t (numeric_columns df)) as [cs|]; [done|]. simpl.
  rewrite dict_get_row_col_filter by done.
  destruct (dict_get t (object_columns df ≫= dummies_of)) as [v|] eqn:Hv; simpl.
  - case_decide as Hone; [done|]. symmetry. apply (row_cells_dummy t); [|done].
    by apply dict_get_Some_in.
  - unfold row_cells, fill_column. rewrite lookup_replicate_2 by done. reflexivity.
Qed.
End Row.

(** Row [i] of a frame built from records with the same keys is the
    frame of record [i]. *)
Lemma row_frame_from_records rs ks i r :
  NoDup ks -> Forall (fun r => fst <$> r = ks) rs -> rs !! i = Some r ->
  row_frame (from_records rs) i = from_records [r].
Proof.
  intros Hnd Hks Hi. assert (Forall (fun r => fst <$> r = ks) [r]) as Hr.
  { constructor; [|constructor]. rewrite Forall_lookup in Hks. by apply (Hks i). }
  unfold from_records. rewrite row_frame_mk.
  rewrite (record_keys_uniform rs ks), (record_keys_uniform [r] ks) by
    (done || by destruct rs). f_equal.
  rewrite <-list_fmap_compose. apply list_fmap_ext. intros _ k _.
  unfold compose, row_col, row_cells. cbn [fst snd]. unfold record, cell in *. rewrite list_lookup_fmap, Hi.
  reflexivity.
Qed.

(** A column whose cells are all strings, or none, has a string in
    every row exactly when it is of object dtype. *)
Lemma row_strings_uniform df i :
  frame_wf df -> i < nrows df ->
  (forall c, c ∈ columns df -> Forall (fun x => is_str_cell x = true) c.2 \/
                                 Forall (fun x => is_str_cell x = false) c.2) ->
  row_strings df i = true.
Proof.
  intros Hwf Hi Hu. unfold row_strings. apply forallb_forall. intros c Hc.
  apply list_elem_of_In in Hc. pose proof (row_cell_in df i Hwf Hi c Hc) as Hx.
  destruct (Hu c Hc) as [Hs|Hs]; rewrite Forall_forall in Hs.
  - rewrite (Hs _ Hx). apply orb_true_r.
  - unfold is_object_column. replace (existsb is_str_cell c.2) with false; [done|].
    symmetry. apply not_true_iff_false. intros (x & Hin & Hx')%existsb_exists.
    apply list_elem_of_In, Hs in Hin. congruence.
Qed.

Lemma col_names_row_frame X i : col_names (row_frame X i) = col_names X.
Proof. unfold col_names. rewrite columns_row_frame, <-list_fmap_compose. reflexivity. Qed.

Lemma frame_rows_row_frame X i :
  frame_rows (row_frame X i) = [(fun c => cell_at c i) <$> columns X].
Proof.
  unfold row_frame. rewrite frame_rows_single, <-list_fmap_compose.
  by rewrite (list_fmap_ext _ (fun c => cell_at c i) (columns X)).
Qed.

(** ** An upload of form rows *)

(** The keys of [input_data], in the order of the dict literal. *)
Definition form_keys : list string :=
  ["age"; "gender"; "workclass"; "education"; "occupation"; "hours_per_week"].

(** The CSV a user would upload with one form per row: the frame
    [pd.DataFrame] builds from the forms' [input_data] dicts. *)
Definition forms_upload (fs : list form) : frame := from_records (input_data <$> fs).

Lemma forms_keys fs : Forall (fun r => fst <$> r = form_keys) (input_data <$> fs).
Proof. apply Forall_fmap, Forall_forall. intros f _. reflexivity. Qed.

Lemma NoDup_form_keys : NoDup form_keys.
Proof. decide_prop. Qed.

Lemma forms_columns fs :
  fs <> [] ->
  columns (forms_upload fs) = (fun k => (k, dict_get k <$> (input_data <$> fs))) <$> form_keys.
Proof.
  intros Hne. unfold forms_upload, from_records. cbn [columns].
  rewrite (record_keys_uniform _ form_keys); [done|apply NoDup_form_keys| |apply forms_keys].
  by destruct fs.
Qed.

Lemma forms_row fs i f : fs !! i = Some f -> row_frame (forms_upload fs) i = input_df f.
Proof.
  intros Hf. apply (row_frame_from_records _ form_keys);
    [apply NoDup_form_keys|apply forms_keys|by rewrite list_lookup_fmap, Hf].
Qed.

(** Each column of the upload holds only strings or only numbers. *)
Lemma forms_column_uniform fs k :
  k ∈ form_keys ->
  Forall (fun x => is_str_cell x = true) (dict_get k <$> (input_data <$> fs)) \/
  Forall (fun x => is_str_cell x = false) (dict_get k <$> (input_data <$> fs)).
Proof.
  rewrite <-list_fmap_compose. intros Hk. apply list_elem_of_In in Hk. simpl in Hk.
  destruct_or! Hk; try contradiction; subst;
    [right|left|left|left|left|right]; apply Forall_fmap, Forall_forall; by intros.
Qed.

Lemma forms_row_strings fs i : i < length fs -> row_strings (forms_upload fs) i = true.
Proof.
  intros Hi. assert (fs <> []) as Hne by (intros ->; simpl in Hi; lia).
  apply row_strings_uniform; [apply from_records_wf|by cbn [nrows from_records forms_upload]; rewrite length_fmap|].
  intros c Hc. rewrite forms_columns in Hc by done.
  apply list_elem_of_fmap in Hc as (k & -> & Hk). by apply forms_column_uniform.
Qed.

(** The names of the expanded upload are distinct: the six keys start
    with six different letters. *)
Lemma NoDup_expand_forms fs : fs <> [] -> NoDup (col_names (expand (forms_upload fs))).
Proof.
  intros Hne. apply NoDup_expand_heads; rewrite forms_columns by done.
  - rewrite <-list_fmap_compose. decide_prop.
  - apply Forall_fmap. repeat constructor; discriminate.
Qed.

Section PredictRow.
Context `{Predictor M} (m : M).

(** A classifier that labels a whole frame labels each of its rows alone
    the same way. *)
Lemma predict_row_frame X ls i :
  predict m X = Ok ls -> i < nrows X ->
  exists l, ls !! i = Some l /\ predict m (row_frame X i) = Ok [l].
Proof.
  intros Hp Hi. pose proof (predict_rows m X ls Hp) as Hrows.
  apply predict_Ok in Hp as (Hfn & _ & Hne & _).
  destruct (Forall2_lookup_l _ _ _ i _ Hrows (frame_rows_lookup X i Hi))
    as (l & Hl & v & Hv & ->).
  exists (predict_row m v). split; [done|]. apply predict_Ok. split_and!.
  - by rewrite col_names_row_frame.
  - done.
  - rewrite columns_row_frame. by destruct (columns X).
  - exists [v]. split; [|done]. rewrite frame_rows_row_frame. cbn [mapM]. by rewrite Hv.
Qed.

(** Conversely, a frame with rows whose rows are each labelled alone is
    labelled as a whole. *)
Lemma predict_of_rows X :
  nrows X <> 0 -> (forall j, j < nrows X -> exists l, predict m (row_frame X j) = Ok [l]) ->
  exists ls, predict m X = Ok ls.
Proof.
  intros Hn Hrows. destruct (Hrows 0) as [l0 H0]; [lia|].
  apply predict_Ok in H0 as (Hfn & _ & Hne & _).
  rewrite col_names_row_frame in Hfn. rewrite columns_row_frame in Hne.
  destruct (mapM_Ok_all (mapM (cell_number (allow_nan m))) (frame_rows X)) as [rows Hm].
  { intros r Hr. apply list_elem_of_lookup in Hr as [j Hj].
    assert (j < nrows X) as Hjn by (rewrite <-length_frame_rows; by eapply lookup_lt_Some).
    rewrite (frame_rows_lookup X j Hjn) in Hj. injection Hj as <-.
    destruct (Hrows j Hjn) as [l Hl]. apply predict_Ok in Hl as (_ & _ & _ & rs & Hrs & _).
    rewrite frame_rows_row_frame in Hrs. apply mapM_Ok in Hrs.
    inversion Hrs as [|? y ? ? Hy]. by exists y. }
  eexists. apply predict_Ok. split_and!; try done.
  - by intros Hc; rewrite Hc in Hne.
  - by exists rows.
Qed.
End PredictRow.

Lemma align_row_frame df schema i :
  frame_wf df -> i < nrows df -> row_strings df i = true -> NoDup (col_names (expand df)) ->
  align (row_frame df i) schema = (out ← align df schema; mret (row_frame out i)).
Proof.
  intros Hwf Hi Hrow Hnd. unfold align.
  destruct (decide (columns df = [])) as [Hc|Hc].
  { unfold get_dummies. rewrite columns_row_frame, Hc. by rewrite !decide_True. }
  rewrite !get_dummies_Ok by (rewrite ?columns_row_frame; by destruct (columns df)).
  rewrite !bind_Ok_l, !reindex_NoDup by auto using NoDup_expand_row.
  rewrite bind_Ok_l, !expand_nrows. rewrite row_frame_mk.
  do 2 f_equal. rewrite <-list_fmap_compose. apply list_fmap_ext. intros _ t _.
  change (nrows (row_frame df i)) with 1. unfold compose, row_col. cbn [fst snd].
  f_equal. by apply expand_row_get.
Qed.

Lemma align_Ok_NoDup df schema :
  columns df <> [] -> NoDup (col_names (expand df)) -> exists enc, align df schema = Ok enc.
Proof.
  intros Hc Hnd. unfold align. rewrite get_dummies_Ok, bind_Ok_l by done.
  rewrite reindex_NoDup by done. by eexists.
Qed.

Lemma forms_upload_nrows fs : nrows (forms_upload fs) = length fs.
Proof. apply length_fmap. Qed.

(** Each row of an upload of forms, aligned with the batch, is labelled
    as the manual tab labels its form. *)
Lemma forms_row_label `{Predictor M} (m : M) schema fs enc j f :
  feature_names_in m = schema -> schema <> [] ->
  align (forms_upload fs) schema = Ok enc -> fs !! j = Some f ->
  predict m (row_frame enc j) = Ok [predict_row m ((fun t => Some (manual_feature f t)) <$> schema)].
Proof.
  intros Hfn Hne Hal Hf.
  assert (j < length fs) as Hj by (by eapply lookup_lt_Some).
  assert (fs <> []) as Hfs by (by intros ->).
  pose proof (align_row_frame (forms_upload fs) schema j (from_records_wf _)
    ltac:(by rewrite forms_upload_nrows) (forms_row_strings fs j Hj)
    (NoDup_expand_forms fs Hfs)) as Hrow.
  rewrite Hal, bind_Ok_l, (forms_row fs j f Hf), manual_align in Hrow.
  assert (row_frame enc j =
          mk_frame 1 ((fun t => (t, [Some (VInt (manual_feature f t))])) <$> schema)) as ->
    by (symmetry; exact (f_equal (fun r => match r with Ok x => x | Err _ => row_frame enc j end) Hrow)).
  by apply predict_manual_frame.
Qed.

Lemma bulk_forms_ok `{Predictor M} (m : M) schema fs :
  feature_names_in m = schema -> schema <> [] -> fs <> [] ->
  exists res, bulk_predict m schema (forms_upload fs) = Ok res /\
  exists preds, dict_get "Prediction" (columns res) = Some preds /\
    Forall2 (fun f p => exists r, manual_predict m schema f = Ok r /\
                                  p = Some (VStr (prediction r))) fs preds.
Proof.
  intros Hfn Hne Hfs.
  destruct (align_Ok_NoDup (forms_upload fs) schema) as [enc Hal];
    [by rewrite forms_columns; destruct fs|by apply NoDup_expand_forms|].
  assert (nrows enc = length fs) as Hn by (by rewrite (align_nrows _ _ _ Hal), forms_upload_nrows).
  destruct (predict_of_rows m enc) as [ls Hp].
  { rewrite Hn. by destruct fs. }
  { intros j Hj. rewrite Hn in Hj. destruct (lookup_lt_is_Some_2 fs j Hj) as [f Hf].
    eexists. by eapply forms_row_label. }
  assert (length ls = length fs) as Hls by (by rewrite (predict_length m enc ls Hp)).
  unfold bulk_predict. rewrite Hal, bind_Ok_l, Hp, bind_Ok_l, set_column_Ok
    by (by rewrite length_fmap, Hls, forms_upload_nrows).
  eexists. split; [reflexivity|]. eexists. split; [apply dict_get_set_eq|].
  apply Forall2_same_length_lookup_2; [by rewrite length_fmap|].
  intros j f p Hf Hpj. rewrite list_lookup_fmap in Hpj.
  destruct (ls !! j) as [l|] eqn:Hl; [injection Hpj as <-|discriminate].
  rewrite manual_predict_eq by done. eexists. split; [reflexivity|]. simpl. do 2 f_equal.
  destruct (predict_row_frame m enc ls j Hp) as (l' & Hl' & Hp');
    [rewrite Hn; by eapply lookup_lt_Some|].
  rewrite (forms_row_label m schema fs enc j f Hfn Hne Hal Hf) in Hp'.
  rewrite Hl in Hl'. congruence.
Qed.

Lemma bulk_forms_names `{Predictor M} (m : M) schema fs res k :
  fs <> [] -> bulk_predict m schema (forms_upload fs) = Ok res -> k ∈ form_keys ->
  k ∈ col_names res.
Proof.
  intros Hfs Hb Hk. destruct (bulk_predict_Ok_inv m schema _ res Hb) as (enc & ls & _ & _ & ->).
  unfold col_names. cbn [columns]. rewrite dict_set_keys.
  assert (k ∈ fst <$> columns (forms_upload fs)) as Hin.
  { rewrite forms_columns by done. rewrite <-list_fmap_compose. by rewrite list_fmap_id. }
  case_decide; [done|]. apply elem_of_app. by left.
Qed.

Lemma chart_forms `{Predictor M} (m : M) schema fs res args title :
  fs <> [] -> bulk_predict m schema (forms_upload fs) = Ok res ->
  Forall (fun a => a.2 ∈ form_keys) args -> chart res args title = emit (OChart title).
Proof.
  intros Hfs Hb Hargs. apply chart_ok. eapply Forall_impl; [exact Hargs|].
  intros a Ha. by eapply bulk_forms_names.
Qed.

(** ** Theorems *)

(** When every object column of a well-formed upload holds a string
    in row [i] and the upload's expanded names are distinct, aligning
    row [i] alone gives row [i] of the aligned upload, for every schema;
    both raise together. *)
Theorem align_row df schema i :
  frame_wf df -> i < nrows df -> row_strings df i = true -> NoDup (col_names (expand df)) ->
  align (row_frame df i) schema = (out ← align df schema; mret (row_frame out i)).
Proof. apply align_row_frame. Qed.

(** C19: under the conditions of [align_row], the label the bulk tab
    writes in row [i] of column [Prediction] is the label the classifier
    gives to row [i] aligned alone: a successful batch agrees with the
    single-row path on every such row. *)
Theorem bulk_agrees_with_row `{Predictor M} (m : M) schema df i res :
  frame_wf df -> i < nrows df -> row_strings df i = true -> NoDup (col_names (expand df)) ->
  bulk_predict m schema df = Ok res ->
  exists l preds, dict_get "Prediction" (columns res) = Some preds /\
    preds !! i = Some (Some (VStr l)) /\
    (enc ← align (row_frame df i) schema; predict m enc) = Ok [l].
Proof.
  intros Hwf Hi Hrow Hnd Hb.
  destruct (bulk_predict_Ok_inv m schema df res Hb) as (enc & ls & Hal & Hp & ->).
  destruct (predict_row_frame m enc ls i Hp) as (l & Hl & Hpl).
  { by rewrite (align_nrows _ _ _ Hal). }
  eexists l, _. split; [apply dict_get_set_eq|]. split.
  - by rewrite list_lookup_fmap, Hl.
  - by rewrite (align_row_frame df schema i Hwf Hi Hrow Hnd), Hal, !bind_Ok_l.
Qed.

(** C18: an upload whose rows are forms (the CSV of their [input_data]
    dicts) never raises in the bulk tab when the model was fitted on the
    app's (non-empty) column list, and the label in each row of column
    [Prediction] is the one the manual tab returns for that form. *)
Theorem bulk_forms_match_manual `{Predictor M} (m : M) schema fs :
  feature_names_in m = schema -> schema <> [] -> fs <> [] ->
  exists res, bulk_predict m schema (forms_upload fs) = Ok res /\
  exists preds, dict_get "Prediction" (columns res) = Some preds /\
    Forall2 (fun f p => exists r, manual_predict m schema f = Ok r /\
                                  p = Some (VStr (prediction r))) fs preds.
Proof. apply bulk_forms_ok. Qed.


(** ** Examples *)

Lemma align_row_witness :
  row_strings scenario_batch 1 = true /\
  align (row_frame scenario_batch 1) spec_schema =
  (out ← align scenario_batch spec_schema; mret (row_frame out 1)).
Proof.
  split; [reflexivity|]. apply align_row; [apply from_records_wf|decide_prop|reflexivity|decide_prop].
Defined.

Lemma bulk_agrees_with_row_witness :
  exists res, bulk_predict example_rule spec_schema scenario_batch = Ok res /\
  exists l preds, dict_get "Prediction" (columns res) = Some preds /\
    preds !! 1 = Some (Some (VStr l)) /\
    (enc ← align (row_frame scenario_batch 1) spec_schema; predict example_rule enc) = Ok [l].
Proof.
  destruct (bulk_predict example_rule spec_schema scenario_batch) as [res|e] eqn:Hb;
    [|vm_compute in Hb; discriminate].
  exists res. split; [reflexivity|].
  apply (bulk_agrees_with_row example_rule spec_schema scenario_batch 1 res);
    [apply from_records_wf|decide_prop|reflexivity|decide_prop|exact Hb].
Defined.

Definition example_forms : list form :=
  [form_init; mk_form 45 "Female ♀️" "Private 🏢" "Masters 🎓" "Sales 💼" 50].

Lemma bulk_forms_match_manual_witness :
  exists res, bulk_predict example_rule spec_schema (forms_upload example_forms) = Ok res /\
  exists preds, dict_get "Prediction" (columns res) = Some preds /\
    Forall2 (fun f p => exists r, manual_predict example_rule spec_schema f = Ok r /\
                                  p = Some (VStr (prediction r))) example_forms preds.
Proof. apply bulk_forms_match_manual; [reflexivity|discriminate|discriminate]. Defined.

