(* ===== verification/Download.v ===== *)
(** * Download: the CSV files the page offers, read back

    An upload of the CSV text of valid forms runs the whole page without
    raising ([rerun_forms_upload]): the text reads back as
    [Batch.forms_upload], and the upload tab labels each row as the
    manual tab labels its form.

    The manual tab offers [single_prediction.csv], the one-row frame of
    the form with its [prediction] column (lines 149-156 of
    [src/main.py]); the upload tab offers [predicted_results.csv], the
    upload with its [Prediction] column (lines 196-198).  Both are
    written by [to_csv(index=False)] ([Csv.to_csv]).  For the data the
    widgets produce, and a classifier whose labels are plain strings
    (the trainer's labels [<=50K] and [>50K] are), reading either file
    back with [pd.read_csv] ([Csv.read_csv]) gives the frame that was
    written: the form columns are integers within int64 and option
    prefixes, which no dtype inference turns into numbers, booleans
    or NaN.  The results file is also a fixed point of the upload tab:
    uploaded again, its [Prediction] column becomes dummies that a
    schema without [Prediction_<label>] names drops, the classifier sees
    the same vectors, and [df['Prediction'] = predictions] overwrites
    the column with the same labels. *)

From S2P Require Import Prelude Translations Frame Csv Dummies Reindex Predictor App Session Batch.
Open Scope string_scope.
Open Scope list_scope.

(** ** Columns of form data *)

Lemma options_plain :
  Forall (fun o => plain_string (split_head o) = true)
         (gender_options ++ workclass_options ++ education_options ++ occupation_options).
Proof. decide_prop. Qed.

Lemma option_plain o :
  o ∈ gender_options ++ workclass_options ++ education_options ++ occupation_options ->
  plain_string (split_head o) = true.
Proof. intros Ho. pose proof options_plain as Hall. by eapply Forall_forall in Hall. Qed.

Lemma csv_column_strs n cs :
  Forall (fun x => exists s, x = Some (VStr s) /\ plain_string s = true) cs ->
  csv_column (n, cs) = true.
Proof.
  intros Hcs. unfold csv_column. cbn [snd]. apply andb_true_intro. split.
  - apply forallb_Forall. eapply Forall_impl; [exact Hcs|]. by intros x (s & -> & Hs).
  - apply orb_true_intro. left. apply forallb_Forall.
    eapply Forall_impl; [exact Hcs|]. by intros x (s & -> & _).
Qed.

Lemma csv_column_ints n cs :
  Forall (fun x => exists z, x = Some (VInt z) /\ (int64_min <= z <= int64_max)%Z) cs ->
  csv_column (n, cs) = true.
Proof.
  intros Hcs. unfold csv_column. cbn [snd]. apply andb_true_intro. split.
  - apply forallb_Forall. eapply Forall_impl; [exact Hcs|]. by intros x (z & -> & _).
  - apply orb_true_intro. right.
    destruct (existsb is_none_cell cs) eqn:Hn.
    + apply existsb_Exists, Exists_exists in Hn as (x & Hx & Hn).
      destruct (proj1 (Forall_forall _ _) Hcs x Hx) as (z & -> & _). discriminate.
    + apply forallb_Forall. eapply Forall_impl; [exact Hcs|].
      intros x (z & -> & Hz). by apply bool_decide_eq_true_2.
Qed.

(** Each column of valid forms is written as it is read. *)
Lemma form_cells_csv fs k :
  Forall form_valid fs -> k ∈ form_keys ->
  csv_column (k, dict_get k <$> (input_data <$> fs)) = true.
Proof.
  intros Hfs Hk. rewrite <-list_fmap_compose.
  apply list_elem_of_In in Hk. simpl in Hk.
  destruct_or! Hk; try contradiction; subst;
    [apply csv_column_ints|apply csv_column_strs..|apply csv_column_ints];
    apply Forall_fmap; (eapply Forall_impl; [exact Hfs|]); intros f Hf;
    destruct Hf as (Ha & Hg & Hw & He & Ho & Hh); eexists; (split; [reflexivity|]);
    try (unfold int64_min, int64_max, age_min, age_max, hours_min, hours_max in *; lia);
    apply option_plain; rewrite !elem_of_app; tauto.
Qed.

Lemma forms_keys_names (fs : list form) :
  fst <$> ((fun k => (k, dict_get k <$> (input_data <$> fs))) <$> form_keys) = form_keys.
Proof. reflexivity. Qed.

(** A column appended to a frame [read_csv] gives back. *)
Lemma csv_frame_snoc df name vals :
  csv_frame df = true -> name ∉ col_names df ->
  existsb (fun c => negb (is_blank c)) (chars_of name) = true ->
  length vals = nrows df -> csv_column (name, vals) = true ->
  csv_frame (mk_frame (nrows df) (columns df ++ [(name, vals)])) = true.
Proof.
  unfold csv_frame, col_names. rewrite !andb_true_iff, !bool_decide_eq_true.
  intros ((((Hwf & _) & Hnd) & Hnames) & Hcols) Hname Hnb Hlen Hc.
  cbn [columns nrows]. rewrite fmap_app, !forallb_app. split_and!.
  - apply Forall_app. split; [exact Hwf|by constructor].
  - intros [_ ?]%app_nil. discriminate.
  - apply NoDup_app. split_and!; [done| |apply NoDup_singleton].
    intros x Hx ->%list_elem_of_singleton. contradiction.
  - apply andb_true_intro. split; [done|]. cbn [forallb]. apply andb_true_intro. by split.
  - apply andb_true_intro. split; [done|]. cbn [forallb]. apply andb_true_intro. by split.
Qed.

(** The frame of valid forms is read back from its CSV. *)
Lemma forms_csv fs : fs <> [] -> Forall form_valid fs -> csv_frame (forms_upload fs) = true.
Proof.
  intros Hne Hfs. unfold csv_frame, col_names.
  rewrite forms_columns, forms_keys_names by done. rewrite !andb_true_iff, !bool_decide_eq_true.
  split_and!.
  - unfold frame_wf. rewrite forms_columns, forms_upload_nrows by done.
    apply Forall_fmap, Forall_forall. intros k _. cbn. by rewrite !length_fmap.
  - discriminate.
  - apply NoDup_form_keys.
  - reflexivity.
  - apply forallb_Forall, Forall_fmap, Forall_forall. intros k Hk. by apply form_cells_csv.
Qed.

(** Valid forms with one more column of plain strings. *)
Lemma forms_out_csv fs name vals :
  fs <> [] -> Forall form_valid fs -> name ∉ form_keys ->
  existsb (fun c => negb (is_blank c)) (chars_of name) = true ->
  length vals = length fs ->
  Forall (fun x => exists p, x = Some (VStr p) /\ plain_string p = true) vals ->
  csv_frame (mk_frame (length fs) (dict_set name vals (columns (forms_upload fs)))) = true.
Proof.
  intros Hne Hfs Hname Hnb Hlen Hvals.
  assert (Hkeys : fst <$> columns (forms_upload fs) = form_keys)
    by (by rewrite forms_columns, forms_keys_names).
  rewrite dict_set_new; [|by rewrite forms_columns, forms_keys_names].
  rewrite <-(forms_upload_nrows fs). apply csv_frame_snoc.
  - by apply forms_csv.
  - unfold col_names. by rewrite Hkeys.
  - done.
  - by rewrite forms_upload_nrows.
  - by apply csv_column_strs.
Qed.

(** A CSV of valid forms, as [to_csv] writes it, is read back as the
    frame of their [input_data] dicts: the upload [Batch.forms_upload]
    stands for. *)
Lemma forms_csv_reads_back fs :
  fs <> [] -> Forall form_valid fs ->
  read_csv (to_csv (forms_upload fs)) = Some (Ok (forms_upload fs)).
Proof. intros Hne Hfs. by apply read_to_csv, forms_csv. Qed.

(** ** Predicting a table that holds its predictions *)

(** An object column appended to a frame adds its dummies at the end. *)
Lemma expand_snoc_object df name cs :
  is_object_column (name, cs) = true ->
  columns (expand (mk_frame (nrows df) (columns df ++ [(name, cs)]))) =
  columns (expand df) ++ dummies_of (name, cs).
Proof.
  intros Hobj. unfold expand, numeric_columns, object_columns. cbn [columns].
  rewrite !filter_app, (filter_cons_False _ (name, cs)), (filter_cons_True _ (name, cs))
    by (rewrite Hobj; auto).
  rewrite !filter_nil, app_nil_r, bind_app, <-app_assoc. cbn. by rewrite app_nil_r.
Qed.

(** ... which a schema naming none of them ignores. *)
Lemma align_snoc_object df schema name cs :
  is_object_column (name, cs) = true ->
  NoDup (col_names (expand (mk_frame (nrows df) (columns df ++ [(name, cs)])))) ->
  (forall lvl, dummy_name name lvl ∉ schema) -> columns df <> [] ->
  align (mk_frame (nrows df) (columns df ++ [(name, cs)])) schema = align df schema.
Proof.
  intros Hobj Hnd Hsch Hne. unfold align, get_dummies. cbn [columns].
  rewrite !decide_False by (try done; by intros []%app_nil). cbn [mbind result_bind].
  assert (Hnd' : NoDup (col_names (expand df))).
  { unfold col_names in *. rewrite expand_snoc_object, fmap_app in Hnd by done.
    by apply NoDup_app in Hnd as [? _]. }
  rewrite !reindex_NoDup by done. rewrite !expand_nrows. cbn [nrows]. f_equal. f_equal.
  apply list_fmap_ext. intros i t Ht. apply list_elem_of_lookup_2 in Ht.
  rewrite expand_snoc_object by done. unfold column. rewrite dict_get_app.
  destruct (dict_get t (columns (expand df))); [done|].
  rewrite dict_get_None; [done|]. unfold dummies_of. rewrite <-list_fmap_compose.
  intros (lvl & -> & _)%list_elem_of_fmap_1. by apply (Hsch lvl).
Qed.

(** The upload tab run on its own output: the [Prediction] column is
    encoded into dummies the schema drops, the classifier sees the same
    vectors, and the column is overwritten with the same labels. *)
Lemma bulk_predict_again `{Predictor M} (m : M) schema df out :
  bulk_predict m schema df = Ok out -> "Prediction" ∉ col_names df ->
  NoDup (col_names (expand out)) -> (forall lvl, dummy_name "Prediction" lvl ∉ schema) ->
  bulk_predict m schema out = Ok out.
Proof.
  intros Hb Hfresh Hnd Hsch.
  destruct (bulk_predict_Ok_inv m schema df out Hb) as (enc & ls & Hal & Hp & Hout).
  pose proof Hp as (_ & Hn & _)%predict_Ok.
  pose proof (predict_length m enc ls Hp) as Hlen.
  pose proof (align_Ok_inv _ _ _ Hal) as [Hne _].
  set (P := (fun p => Some (VStr p)) <$> ls).
  assert (Hobj : is_object_column ("Prediction", P) = true).
  { destruct ls; [done|reflexivity]. }
  assert (Hout' : out = mk_frame (nrows df) (columns df ++ [("Prediction", P)]))
    by (rewrite Hout; cbn; by rewrite dict_set_new).
  unfold bulk_predict.
  replace (align out schema) with (align df schema)
    by (rewrite Hout' in Hnd |- *; by symmetry; apply align_snoc_object).
  rewrite Hal. cbn [mbind result_bind]. rewrite Hp. cbn [mbind result_bind].
  rewrite set_column_Ok.
  - rewrite Hout. cbn. by rewrite dict_set_idem.
  - rewrite Hout. cbn. rewrite length_fmap, Hlen. exact (align_nrows _ _ _ Hal).
Qed.

(** ** Uploading the CSV of forms *)

(** C28: with a model fitted on the app's (non-empty) column list, a
    session whose uploaded file is the CSV of valid forms runs the whole
    script without raising: [pd.read_csv] gives back the forms' frame,
    and the upload tab shows the success message, the table, both
    charts and the download, the table's [Prediction] column holding
    the manual tab's label of each form. *)
Theorem rerun_forms_upload `{Predictor M} `{CsvParser} (m : M) cols s fs :
  feature_names_in m = cols -> cols <> [] -> fs <> [] -> Forall form_valid fs ->
  s_upload s = Some (to_csv (forms_upload fs)) ->
  exists out, rerun m cols s false =
    ([OSuccess "✅ Predictions completed"; OTable out; OChart "Age Distribution";
      OChart "Occupation Count"; ODownload "predicted_results.csv" (to_csv out)], Ok tt) /\
  exists preds, dict_get "Prediction" (columns out) = Some preds /\
    Forall2 (fun f p => exists r, manual_predict m cols f = Ok r /\
                                  p = Some (VStr (prediction r))) fs preds.
Proof.
  intros Hfn Hne Hfs Hvalid Hup. destruct (bulk_forms_ok m cols fs Hfn Hne Hfs) as (out & Hb & Hpreds).
  exists out. split; [|done].
  destruct (rerun_prefix m cols s) as (lang & _ & Hk & Hrun).
  destruct (Hk "download") as [d Hd]; [decide_prop|].
  rewrite Hrun, ret_bind, Hup, (parse_csv_read _ _ (forms_csv_reads_back fs Hfs Hvalid)), lift_Ok_bind.
  unfold upload_tab. rewrite Hb, lift_Ok_bind, !emit_bind.
  rewrite (chart_forms m cols fs out) by (done || decide_prop).
  rewrite decide_True by (apply (bulk_forms_names m cols fs); [done|done|decide_prop]).
  rewrite (chart_forms m cols fs out) by (done || decide_prop).
  rewrite Hd. reflexivity.
Qed.

(** ** The downloads *)

Section Downloads.
Context `{Predictor M} (m : M) (model_columns : list string).

(** The classifier's labels are written and read back as strings. *)
Hypothesis plain_labels : forall row, plain_string (predict_row m row) = true.

Lemma manual_predict_Ok_inv f r :
  manual_predict m model_columns f = Ok r ->
  plain_string (prediction r) = true /\
  result_csv r = set_scalar (input_df f) "prediction" (Some (VStr (prediction r))).
Proof.
  unfold manual_predict.
  destruct (align (input_df f) model_columns) as [enc|e]; [|discriminate]. cbn [mbind result_bind].
  destruct (predict m enc) as [ls|e] eqn:Hp; [|discriminate]. cbn [mbind result_bind].
  destruct ls as [|p ls]; [discriminate|]. cbn. intros [= <-]. split; [|done]. cbn.
  apply predict_Ok in Hp as (_ & _ & _ & rows & _ & Hls).
  destruct rows as [|row rows]; [discriminate|]. injection Hls as -> _. apply plain_labels.
Qed.

Lemma bulk_labels_plain enc ls :
  predict m enc = Ok ls ->
  Forall (fun x => exists p, x = Some (VStr p) /\ plain_string p = true)
         ((fun p => Some (VStr p)) <$> ls).
Proof.
  intros (_ & _ & _ & rows & _ & ->)%predict_Ok. rewrite <-list_fmap_compose.
  apply Forall_fmap, Forall_forall. intros row _. eexists. split; [reflexivity|apply plain_labels].
Qed.

(** C30: the file [single_prediction.csv] the manual tab offers for a
    form the widgets allow reads back with [pd.read_csv] as the one-row
    frame that was written: the form's six values and the prediction. *)
Theorem single_download_reads_back f r :
  form_valid f -> manual_predict m model_columns f = Ok r ->
  read_csv (to_csv (result_csv r)) = Some (Ok (result_csv r)).
Proof.
  intros Hf Hr. destruct (manual_predict_Ok_inv f r Hr) as [Hp ->].
  apply read_to_csv. unfold set_scalar. change (input_df f) with (forms_upload [f]).
  rewrite forms_upload_nrows.
  apply forms_out_csv; [done|by constructor|decide_prop|reflexivity|reflexivity|].
  constructor; [by eexists|constructor].
Qed.

Lemma bulk_out_csv fs out :
  Forall form_valid fs -> bulk_predict m model_columns (forms_upload fs) = Ok out ->
  csv_frame out = true.
Proof.
  intros Hfs Hb. destruct (bulk_predict_Ok_inv m model_columns _ out Hb) as (enc & ls & Hal & Hp & ->).
  rewrite forms_upload_nrows.
  pose proof (align_nrows _ _ _ Hal) as Hn. rewrite forms_upload_nrows in Hn.
  pose proof Hp as (_ & Hne & _)%predict_Ok.
  apply forms_out_csv; [by intros ->|done|decide_prop|reflexivity| |by eapply bulk_labels_plain].
  by rewrite length_fmap, (predict_length m enc ls Hp).
Qed.

(** The results of valid forms expand without a repeated name. *)
Lemma bulk_out_expand_NoDup fs out :
  bulk_predict m model_columns (forms_upload fs) = Ok out -> NoDup (col_names (expand out)).
Proof.
  intros Hb. destruct (bulk_predict_Ok_inv m model_columns _ out Hb) as (enc & ls & Hal & Hp & ->).
  pose proof (align_Ok_inv _ _ _ Hal) as [Hne _].
  assert (fs <> []) by (intros ->; by apply Hne).
  apply NoDup_expand_heads; cbn [columns];
    rewrite forms_columns, dict_set_new by first [done|rewrite forms_keys_names; decide_prop].
  - rewrite fmap_app, <-list_fmap_compose. decide_prop.
  - apply Forall_app. split; [apply Forall_fmap; repeat constructor; discriminate|].
    repeat constructor. discriminate.
Qed.

(** C31: the file [predicted_results.csv] the upload tab offers for an
    upload of valid forms reads back with [pd.read_csv] as the table the
    page shows: the uploaded columns and the [Prediction] column. *)
Theorem bulk_download_reads_back fs out :
  Forall form_valid fs -> bulk_predict m model_columns (forms_upload fs) = Ok out ->
  read_csv (to_csv out) = Some (Ok out).
Proof. intros Hfs Hb. by apply read_to_csv, (bulk_out_csv fs). Qed.

(** C32: uploading the downloaded [predicted_results.csv] again gives
    the same table: the file reads back as the table shown, and the
    upload tab, run on it with a schema that names no dummy of
    [Prediction], predicts the same labels and overwrites the
    [Prediction] column with them. *)
Theorem reupload_results fs out :
  Forall form_valid fs -> bulk_predict m model_columns (forms_upload fs) = Ok out ->
  (forall lvl, dummy_name "Prediction" lvl ∉ model_columns) ->
  read_csv (to_csv out) = Some (Ok out) /\ bulk_predict m model_columns out = Ok out.
Proof.
  intros Hfs Hb Hsch. split; [by apply read_to_csv, (bulk_out_csv fs)|].
  apply (bulk_predict_again m model_columns (forms_upload fs)); [done| |by eapply bulk_out_expand_NoDup|done].
  destruct (bulk_predict_Ok_inv m model_columns _ out Hb) as (enc & ls & Hal & _).
  assert (fs <> []) by (intros ->; by apply (proj1 (align_Ok_inv _ _ _ Hal))).
  unfold col_names. rewrite forms_columns, forms_keys_names by done. decide_prop.
Qed.

End Downloads.

(** ** Witnesses *)

#[local] Existing Instance read_csv_parser.

Lemma example_rule_plain row : plain_string (predict_row example_rule row) = true.
Proof.
  cbn [predict_row age_rule_predictor]. destruct row as [|[a|] row]; [reflexivity| |reflexivity].
  by destruct (rule_cut example_rule <? a)%Z.
Qed.

Lemma single_download_reads_back_witness :
  exists r, manual_predict example_rule spec_schema form_init = Ok r /\
            read_csv (to_csv (result_csv r)) = Some (Ok (result_csv r)).
Proof.
  eexists. split; [reflexivity|].
  apply (single_download_reads_back example_rule spec_schema example_rule_plain form_init);
    [decide_prop|reflexivity].
Defined.

Lemma bulk_download_reads_back_witness :
  exists out, bulk_predict example_rule spec_schema (forms_upload example_forms) = Ok out /\
              read_csv (to_csv out) = Some (Ok out).
Proof.
  eexists. split; [reflexivity|].
  apply (bulk_download_reads_back example_rule spec_schema example_rule_plain example_forms);
    [decide_prop|reflexivity].
Defined.

(** No column of the app's schema starts with [P]. *)
Lemma spec_schema_no_prediction lvl : dummy_name "Prediction" lvl ∉ spec_schema.
Proof.
  intros Hin.
  assert (Hh : String.get 0 (dummy_name "Prediction" lvl) = String.get 0 "Prediction") by reflexivity.
  apply list_elem_of_In in Hin. simpl in Hin.
  destruct_or! Hin; try contradiction; rewrite <-Hin in Hh; vm_compute in Hh; discriminate.
Qed.

Lemma reupload_results_witness :
  exists out, bulk_predict example_rule spec_schema (forms_upload example_forms) = Ok out /\
    read_csv (to_csv out) = Some (Ok out) /\ bulk_predict example_rule spec_schema out = Ok out.
Proof.
  eexists. split; [reflexivity|].
  apply (reupload_results example_rule spec_schema example_rule_plain example_forms);
    [decide_prop|reflexivity|apply spec_schema_no_prediction].
Defined.

Lemma rerun_forms_upload_witness :
  exists out, rerun example_rule spec_schema
                (mk_session "en" form_init (Some (to_csv (forms_upload example_forms)))) false =
    ([OSuccess "✅ Predictions completed"; OTable out; OChart "Age Distribution";
      OChart "Occupation Count"; ODownload "predicted_results.csv" (to_csv out)], Ok tt) /\
  exists preds, dict_get "Prediction" (columns out) = Some preds /\
    Forall2 (fun f p => exists r, manual_predict example_rule spec_schema f = Ok r /\
                                  p = Some (VStr (prediction r))) example_forms preds.
Proof.
  apply rerun_forms_upload; [reflexivity|discriminate|discriminate|decide_prop|reflexivity].
Defined.
