(* ===== verification/Script.v ===== *)
(** * Script: [src/model_training.py] run as a program

    [Trainer] models the script's computation as one pure function,
    [train_and_select].  Here the script is the program Python runs: it
    reads [adult.csv] (line 12), prints one line per classifier inside
    the training loop (line 43), writes the selected estimator to
    [best_model.pkl] with [joblib.dump] (line 47) and prints the saved
    line (line 48).  An exception stops the script where it is raised, so
    the lines printed before it stay printed.

    The script is an interaction tree over [scriptE]; [handle] answers
    its events from a directory of CSV texts, parsed with
    [Csv.parse_csv], and records the printed
    lines and the files written in a [world].  The theorem: the script
    returns on every input, and its run refines [train_and_select]:
    it succeeds exactly when [train_and_select] does, it prints each
    classifier's accuracy ([Float.format_acc]) in the order of the
    [models] dict, one line per entry of the [results] dict in its order,
    and the only file it writes is
    [best_model.pkl], holding the selected estimator; an [adult.csv]
    the parser rejects ends the script at line 12. *)

From S2P Require Import Prelude Frame Csv Predictor Trainer Float.
From Stdlib Require Import QArith.
From ITree Require Import ITree ITreeFacts Events.State Events.StateFacts.
Close Scope Q_scope.
Open Scope string_scope.
Open Scope list_scope.

Declare Scope script_scope.
Delimit Scope script_scope with script.
Notation "t >>= k" := (ITree.bind t k) (at level 58, left associativity) : script_scope.
Notation "t >> u" := (ITree.bind t (fun _ => u)) (at level 59, right associativity) : script_scope.
Local Open Scope script_scope.

Section Script.
Context {F : Type} `{Predictor F} `{CsvParser}.
Variable fit : estimator_kind -> frame -> list cell -> F.

(** The script's effects. *)
Variant scriptE : Type -> Type :=
| ReadCsv (path : string) : scriptE (result frame)
| PrintAcc (name : string) (acc : Q) : scriptE unit
| Dump (obj : estimator F) (path : string) : scriptE unit
| PrintSaved (name : string) : scriptE unit.

(** An exception ends the script with its error. *)
Definition bind_res {A B} (r : result A) (k : A -> itree scriptE (result B))
    : itree scriptE (result B) :=
  match r with Ok a => k a | Err e => Ret (Err e) end.

(** Lines 38-43: the loop of [Trainer.train_all], printing each
    accuracy once it is stored. *)
Fixpoint train_loop (names : list string) (models : list (string * estimator F))
    (results : list (string * Q)) (X_train X_test : frame) (y_train y_test : list cell)
    : itree scriptE (result (list (string * estimator F) * list (string * Q))) :=
  match names with
  | [] => Ret (Ok (models, results))
  | name :: rest =>
      bind_res (dict_index models name) (fun est =>
      let fitted := fit (est_kind est) X_train y_train in
      let models' := dict_set name (mk_estimator (est_kind est) (Some fitted)) models in
      bind_res (predict fitted X_test) (fun preds =>
      bind_res (accuracy_score y_test ((fun p => Some (VStr p)) <$> preds)) (fun acc =>
      ITree.trigger (PrintAcc name acc) >>
      train_loop rest models' (dict_set name acc results) X_train X_test y_train y_test)))
  end.

(** The whole script, lines 12-48. *)
Definition trainer_script (perm : list nat) : itree scriptE (result unit) :=
  ITree.trigger (ReadCsv "adult.csv") >>= fun rd =>
  bind_res rd (fun data =>
  bind_res (prepare data) (fun '(_, x, y) =>
  bind_res (train_test_split perm x y) (fun '(X_train, X_test, y_train, y_test) =>
  train_loop (fst <$> models_init (F:=F)) models_init [] X_train X_test y_train y_test >>= fun r =>
  bind_res r (fun '(models, results) =>
  bind_res (py_max_key results) (fun best_model_name =>
  bind_res (dict_index models best_model_name) (fun best_model =>
  ITree.trigger (Dump best_model "best_model.pkl") >>
  ITree.trigger (PrintSaved best_model_name) >>
  Ret (Ok tt))))))).

(** The lines of lines 43 and 48: [f"{name}: {acc:.4f}"] and the
    saved line. *)
Definition acc_line (p : string * Q) : string := p.1 +:+ ": " +:+ format_acc p.2.

Definition saved_line (name : string) : string :=
  "✅ Saved " +:+ name +:+ " model as best_model.pkl".

(** What the script leaves behind: the lines on standard output and the
    files of the working directory it wrote. *)
Record world := mk_world {
  w_out : list string;
  w_files : list (string * estimator F)
}.

Definition print_line (w : world) (o : string) : world :=
  mk_world (w_out w ++ [o]) (w_files w).

(** The handler: [pd.read_csv] raises [FileNotFoundError] on a missing
    file and parses a present one with [parse_csv]; [joblib.dump]
    creates or overwrites the file. *)
Definition handle (csvs : list (string * string)) :
    forall X, scriptE X -> Monads.stateT world (itree void1) X :=
  fun X e w =>
  match e in scriptE X return itree void1 (world * X) with
  | ReadCsv p =>
      Ret (w, match dict_get p csvs with
              | Some text => parse_csv text
              | None => Err (FileNotFoundError p)
              end)
  | PrintAcc name acc => Ret (print_line w (acc_line (name, acc)), tt)
  | Dump obj p => Ret (mk_world (w_out w) (dict_set p obj (w_files w)), tt)
  | PrintSaved name => Ret (print_line w (saved_line name), tt)
  end.

Definition run_script (csvs : list (string * string)) (perm : list nat) (w : world)
    : itree void1 (world * result unit) :=
  interp_state (handle csvs) (trainer_script perm) w.

End Script.

Arguments scriptE F : clear implicits.
Arguments world F : clear implicits.

(** ** Running the script *)

Section Run.
Context {F : Type} `{Predictor F} `{CsvParser}.
Variable fit : estimator_kind -> frame -> list cell -> F.
Variable csvs : list (string * string).

Lemma run_bind_res {A B} (r : result A) (k : A -> itree (scriptE F) (result B)) w :
  interp_state (handle csvs) (bind_res r k) w ≈
  match r with Ok a => interp_state (handle csvs) (k a) w | Err e => Ret (w, Err e) end.
Proof. destruct r; [reflexivity|]. unfold bind_res. by rewrite interp_state_ret. Qed.

Lemma run_trigger_then {X B} (e : scriptE F X) (k : X -> itree (scriptE F) B) w w' x :
  handle csvs X e w = Ret (w', x) ->
  interp_state (handle csvs) (ITree.trigger e >>= k) w ≈ interp_state (handle csvs) (k x) w'.
Proof.
  intros He. rewrite interp_state_bind, interp_state_trigger, He, bind_ret_l. reflexivity.
Qed.

Lemma world_out_nil (w : world F) : w = mk_world (w_out w ++ []) (w_files w).
Proof. destruct w. by rewrite app_nil_r. Qed.

(** The loop prints one line per name it finishes, in order; on success
    the pairs whose lines it prints, stored in order, rebuild the
    [results] dict. *)
Lemma train_loop_run names models results X_train X_test y_train y_test (w : world F) :
  exists log,
    interp_state (handle csvs) (train_loop fit names models results X_train X_test y_train y_test) w ≈
      Ret (mk_world (w_out w ++ (acc_line <$> log)) (w_files w),
           train_all fit names models results X_train X_test y_train y_test) /\
    log.*1 `prefix_of` names /\
    forall models' results',
      train_all fit names models results X_train X_test y_train y_test = Ok (models', results') ->
      log.*1 = names /\ foldl (fun r o => dict_set o.1 o.2 r) results log = results'.
Proof.
  revert models results w. induction names as [|name rest IH]; intros models results w.
  - exists []. split_and!; [|done|]; cbn.
    + rewrite interp_state_ret. rewrite <-world_out_nil. reflexivity.
    + by intros ?? [= <- <-].
  - cbn [train_loop train_all].
    destruct (dict_index models name) as [est|e] eqn:Hest; cbn [bind_res mbind result_bind];
      [|exists []; rewrite interp_state_ret, <-world_out_nil; split_and!;
        [reflexivity|apply prefix_nil|discriminate]].
    destruct (predict _ X_test) as [preds|e] eqn:Hp; cbn [bind_res mbind result_bind];
      [|exists []; rewrite interp_state_ret, <-world_out_nil; split_and!;
        [reflexivity|apply prefix_nil|discriminate]].
    destruct (accuracy_score _ _) as [acc|e] eqn:Ha; cbn [bind_res mbind result_bind];
      [|exists []; rewrite interp_state_ret, <-world_out_nil; split_and!;
        [reflexivity|apply prefix_nil|discriminate]].
    destruct (IH (dict_set name (mk_estimator (est_kind est) (Some (fit (est_kind est) X_train y_train))) models)
                 (dict_set name acc results) (print_line w (acc_line (name, acc))))
      as (log & Hrun & Hpre & Hok).
    exists ((name, acc) :: log). split_and!.
    + rewrite run_trigger_then by reflexivity. rewrite Hrun. cbn. by rewrite <-app_assoc.
    + cbn. by apply prefix_cons.
    + intros ?? (Hl & Hf)%Hok. cbn. by rewrite Hl.
Qed.

Lemma run_ret {A} (a : A) (w : world F) : interp_state (handle csvs) (Ret a) w ≈ Ret (w, a).
Proof. by rewrite interp_state_ret. Qed.

Lemma ex_ret_eutt {A} (t u : itree void1 A) (P : A -> Prop) :
  t ≈ u -> (exists o, u ≈ Ret o /\ P o) -> exists o, t ≈ Ret o /\ P o.
Proof. intros Htu (o & Hu & Ho). exists o. split; [by rewrite Htu|done]. Qed.

(** The five names of the [models] dict are distinct. *)
Lemma models_init_names_NoDup : NoDup (fst <$> models_init (F:=F)).
Proof. decide_prop. Qed.

(** What a run of the whole script may leave behind: the abstract
    contract of lines 12-48 in terms of [Trainer.train_and_select]. *)
Definition trainer_spec (perm : list nat) (w : world F) (o : world F * result unit) : Prop :=
  match dict_get "adult.csv" csvs with
  | None => o = (w, Err (FileNotFoundError "adult.csv"))
  | Some text =>
      match parse_csv text with
      | Err e => o = (w, Err e)
      | Ok data =>
      match train_and_select fit perm data with
      | Ok (name, est) =>
          o.2 = Ok tt /\
          w_files o.1 = dict_set "best_model.pkl" est (w_files w) /\
          exists results,
            results.*1 = fst <$> models_init (F:=F) /\
            py_max_key results = Ok name /\
            w_out o.1 = w_out w ++ (acc_line <$> results) ++ [saved_line name]
      | Err e =>
          o.2 = Err e /\ w_files o.1 = w_files w /\
          exists log, log.*1 `prefix_of` (fst <$> models_init (F:=F)) /\
            w_out o.1 = w_out w ++ (acc_line <$> log)
      end
      end
  end.

Lemma run_script_spec perm (w : world F) :
  exists o, run_script fit csvs perm w ≈ Ret o /\ trainer_spec perm w o.
Proof.
  unfold run_script, trainer_script, trainer_spec.
  eapply ex_ret_eutt; [apply run_trigger_then; reflexivity|].
  destruct (dict_get "adult.csv" csvs) as [text|]; cbn [bind_res];
    [|eexists; split; [apply run_ret|reflexivity]].
  destruct (parse_csv text) as [data|e]; cbn [bind_res];
    [|eexists; split; [apply run_ret|reflexivity]].
  unfold train_and_select.
  destruct (prepare data) as [[[enc x] y]|e]; cbn [bind_res mbind result_bind];
    [|eexists; split; [apply run_ret|]; split_and!; [done|done|exists []];
      rewrite app_nil_r; split; [apply prefix_nil|done]].
  destruct (train_test_split perm x y) as [[[[X_train X_test] y_train] y_test]|e];
    cbn [bind_res mbind result_bind];
    [|eexists; split; [apply run_ret|]; split_and!; [done|done|exists []];
      rewrite app_nil_r; split; [apply prefix_nil|done]].
  destruct (train_loop_run (fst <$> models_init (F:=F)) models_init [] X_train X_test y_train y_test w)
    as (log & Hrun & Hpre & Hok).
  eapply ex_ret_eutt; [rewrite interp_state_bind, Hrun, bind_ret_l; reflexivity|]. cbn [fst snd].
  destruct (train_all _ _ _ _ _ _ _ _) as [[models results]|e] eqn:Htr;
    cbn [bind_res mbind result_bind];
    [|eexists; split; [apply run_ret|]; split_and!; [done|done|by exists log]].
  destruct (Hok _ _ eq_refl) as [Hnames Hres].
  rewrite foldl_dict_set_fresh in Hres
    by (first [rewrite Hnames; apply models_init_names_NoDup|set_solver]).
  cbn in Hres. subst results.
  destruct (py_max_key log) as [name|e] eqn:Hmax; cbn [bind_res mbind result_bind];
    [|eexists; split; [apply run_ret|]; split_and!; [done|done|by exists log]].
  destruct (dict_index models name) as [est|e]; cbn [bind_res mbind result_bind];
    [|eexists; split; [apply run_ret|]; split_and!; [done|done|by exists log]].
  eapply ex_ret_eutt; [apply run_trigger_then; reflexivity|].
  eapply ex_ret_eutt; [apply run_trigger_then; reflexivity|].
  eexists; split; [apply run_ret|]. cbn. split_and!; [done|done|].
  exists log. split_and!; [done|done|]. by rewrite <-app_assoc.
Qed.

End Run.

(** The files a run leaves: those of the directory it started in, and
    best_model.pkl when it succeeds. *)
Lemma run_script_files {F} `{Predictor F} `{CsvParser} fit csvs perm (w : world F) :
  exists o, run_script fit csvs perm w ≈ Ret o /\
    forall p, p ∈ (w_files o.1).*1 <-> p ∈ (w_files w).*1 \/ (p = "best_model.pkl" /\ o.2 = Ok tt).
Proof.
  destruct (run_script_spec fit csvs perm w) as (o & Hrun & Hspec). exists o. split; [done|].
  unfold trainer_spec in Hspec. intros p.
  destruct (dict_get "adult.csv" csvs) as [text|]; [|subst o; naive_solver].
  destruct (parse_csv text) as [data|e]; [|subst o; naive_solver].
  destruct (train_and_select fit perm data) as [[name est]|e].
  - destruct Hspec as (Hok & Hfiles & _). rewrite Hfiles, dict_set_keys, Hok.
    case_decide; set_solver.
  - destruct Hspec as (Herr & Hfiles & _). rewrite Hfiles, Herr. naive_solver.
Qed.

(** ** The script's contract *)

(** C14: run from any working directory, the script returns, and
    what it leaves meets [trainer_spec]: without adult.csv it raises
    FileNotFoundError and changes nothing; when pd.read_csv raises, it
    ends with that exception and changes nothing; otherwise it succeeds
    exactly when [train_and_select] does, printing one accuracy line
    ([f"{name}: {acc:.4f}"]) per classifier in the order of the models
    dict, then the saved line, and writing the
    selected estimator to best_model.pkl and no other file; on an
    exception it has printed the lines of the classifiers scored before
    it and written nothing. *)
Theorem trainer_script_refines {F} `{Predictor F} `{CsvParser} fit csvs perm (w : world F) :
  exists o, run_script fit csvs perm w ≈ Ret o /\ trainer_spec fit csvs perm w o.
Proof. apply run_script_spec. Qed.
