(* ===== verification/Server.v ===== *)
(** * Server: the Streamlit process around [src/main.py]

    Streamlit runs the script once when the page opens and again after
    every interaction, for as long as the page is open.  Each run starts
    at line 1: lines 8-9 load [best_model.pkl] and [model_columns.pkl]
    with [joblib.load], which raises [FileNotFoundError] when a file is
    missing, and the rest of the script is [Session.rerun] on the widget
    state.  A click on the predict button reruns the script with the
    button's value [True] for that run only.

    The process is an interaction tree over [appE]: the two loads, the
    browser's next interaction, and the rendering of one run's page.
    [server] never returns (its result type is [void]); [ITree.iter]
    gives its loop.  [safe A G Q t] is the coinductive invariant of the
    infinite run: on the paths where the environment answers as [A]
    allows, every rendered page satisfies [G]; [fs_answer] answers the
    loads from the files of a directory.

    The theorems: every interaction is answered by a reload of
    [best_model.pkl] and one rendered page before the next interaction
    is read (progress); every page the process renders is a run on a
    widget state within the widgets' bounds (invariant, by coinduction
    with Paco); in a
    directory without [model_columns.pkl] every page shows only a
    [FileNotFoundError]; and, composed with [Script], after a successful
    training run the app shows nothing but the [FileNotFoundError] of
    [model_columns.pkl], which no script of the repository writes. *)

From S2P Require Import Prelude Translations Frame Csv Predictor App Session Trainer Script.
From ITree Require Import ITree ITreeFacts.
From Paco Require Import paco.
Open Scope string_scope.
Open Scope list_scope.

(** Bind and sequence of interaction trees, kept apart from stdpp's
    monadic notations. *)
Declare Scope server_scope.
Delimit Scope server_scope with server.
Notation "t >>= k" := (ITree.bind t k) (at level 58, left associativity) : server_scope.
Notation "t >> u" := (ITree.bind t (fun _ => u)) (at level 59, right associativity) : server_scope.
Local Open Scope server_scope.

Section Server.
Context {M : Type} `{Predictor M} `{CsvParser}.

(** The effects of the process. *)
Variant appE : Type -> Type :=
| LoadModel (path : string) : appE (result M)
| LoadColumns (path : string) : appE (result (list string))
| NextEvent : appE event
| Render (p : page unit) : appE unit.

(** The button of line 132 is [True] on the run its click triggers. *)
Definition is_click (e : event) : bool :=
  match e with ClickPredict => true | _ => false end.

(** One run of the script: lines 8-9, then lines 11-198. *)
Definition script_run (s : session) (clicked : bool) : itree appE unit :=
  ITree.trigger (LoadModel "best_model.pkl") >>= fun rm =>
  match rm with
  | Err e => ITree.trigger (Render ([], Err e))
  | Ok model =>
      ITree.trigger (LoadColumns "model_columns.pkl") >>= fun rc =>
      match rc with
      | Err e => ITree.trigger (Render ([], Err e))
      | Ok model_columns => ITree.trigger (Render (rerun model model_columns s clicked))
      end
  end.

(** One iteration: the next interaction, the new widget state, one run. *)
Definition server_body (s : session) : itree appE (session + void) :=
  ITree.trigger NextEvent >>= fun e =>
  let s' := apply_event s e in
  script_run s' (is_click e) >> Ret (inl s').

(** The process: the run when the page opens, then the loop. *)
Definition server : itree appE void :=
  script_run session_init false >> ITree.iter server_body session_init.

End Server.

Arguments appE : clear implicits.

(** ** Progress

    [renders t]: on every path, [t] renders a page after finitely many
    loads and before reading the next interaction.  [reloads t]: [t]
    first loads [best_model.pkl] again, then [renders]. *)

Section Progress.
Context {M : Type} `{Predictor M} `{CsvParser}.

Definition is_next {X} (e : appE M X) : bool :=
  match e with NextEvent => true | _ => false end.

Definition is_render {X} (e : appE M X) : bool :=
  match e with Render _ => true | _ => false end.

Inductive renders {R} : itree (appE M) R -> Prop :=
| renders_tau t u : observe t = TauF u -> renders u -> renders t
| renders_now {X} (e : appE M X) k t : observe t = VisF e k -> is_render e = true -> renders t
| renders_later {X} (e : appE M X) k t :
    observe t = VisF e k -> is_next e = false -> is_render e = false ->
    (forall x, renders (k x)) -> renders t.

Inductive reloads {R} : itree (appE M) R -> Prop :=
| reloads_tau t u : observe t = TauF u -> reloads u -> reloads t
| reloads_now k t :
    observe t = VisF (LoadModel "best_model.pkl") k -> (forall x, renders (k x)) -> reloads t.

(** The tree after [NextEvent] reloads and renders: it unfolds to the
    events of [script_run] whatever the loads return. *)
Ltac unfold_obs := cbn; reflexivity.
Ltac solve_reloads :=
  unfold script_run; eapply reloads_now; [unfold_obs|]; intros [m|err];
  [eapply renders_later; [unfold_obs|done|done|];
   intros [cols|err]; (eapply renders_now; [unfold_obs|done])
  |eapply renders_now; [unfold_obs|done]].

Lemma script_run_reloads {R} s clicked (k : unit -> itree (appE M) R) :
  reloads (ITree.bind (script_run s clicked) k).
Proof. solve_reloads. Qed.

Lemma loop_step_reloads s e :
  reloads (ITree.bind
    (ITree.bind (Ret e) (fun e => script_run (apply_event s e) (is_click e) >>
                                  Ret (inl (apply_event s e))))
    (fun lr => ITree.on_left lr l (Tau (ITree.iter (server_body (M:=M)) l)))).
Proof. solve_reloads. Qed.

Lemma server_loop_unfold (s : session) :
  ITree.iter (server_body (M:=M)) s ≈
  (ITree.trigger NextEvent >>= fun e =>
   script_run (apply_event s e) (is_click e) >>
   ITree.iter server_body (apply_event s e)).
Proof.
  rewrite unfold_iter. unfold server_body. rewrite bind_bind.
  apply eutt_eq_bind. intros e. rewrite !bind_bind.
  apply eutt_eq_bind. intros []. rewrite bind_ret_l. cbn. apply tau_eutt.
Qed.

(** C13: every interaction is answered.  The process first loads
    best_model.pkl and renders the opening page; then, in every state,
    the loop waits for the next interaction and, whatever it is, loads
    best_model.pkl again and renders a page before it reads the
    following one. *)
Theorem server_answers_every_event :
  reloads (server (M:=M)) /\
  forall s, exists k, observe (ITree.iter (server_body (M:=M)) s) = VisF NextEvent k /\
                      forall e, reloads (k e).
Proof.
  split; [apply script_run_reloads|].
  intros s. eexists. split; [unfold_obs|]. apply loop_step_reloads.
Qed.
End Progress.

(** ** Safety of a process that never stops

    [safe A G Q t]: on every path of [t] where the environment answers
    each event [e] with a value allowed by [A e], every rendered page
    satisfies [G] and every returned value satisfies [Q].  It is the
    greatest fixed point of one step of the tree, so it speaks of the
    infinite run of the server. *)

Section Safety.
Context {M : Type} `{Predictor M} `{CsvParser}.
Variable A : forall X, appE M X -> X -> Prop.
Variable G : page unit -> Prop.

Definition good_event {X} (e : appE M X) : Prop :=
  match e with Render p => G p | _ => True end.

Inductive safeF {R} (Q : R -> Prop) (P : itree (appE M) R -> Prop) :
  itree' (appE M) R -> Prop :=
| safe_ret (r : R) : Q r -> safeF Q P (RetF r)
| safe_tau t : P t -> safeF Q P (TauF t)
| safe_vis {X} (e : appE M X) k :
    good_event e -> (forall x, A X e x -> P (k x)) -> safeF Q P (VisF e k).

Definition safe_ {R} (Q : R -> Prop) (P : itree (appE M) R -> Prop)
    (t : itree (appE M) R) : Prop :=
  safeF Q P (observe t).

Lemma safe_mon {R} (Q : R -> Prop) : monotone1 (safe_ Q).
Proof. intros t P P' Ht HPP'. red in Ht |- *. destruct Ht; constructor; auto. Qed.
#[local] Hint Resolve safe_mon : paco.

Definition safe {R} (Q : R -> Prop) (t : itree (appE M) R) : Prop :=
  paco1 (safe_ Q) bot1 t.

Lemma safe_observe {R} (Q : R -> Prop) r (t u : itree (appE M) R) :
  observe t = observe u -> paco1 (safe_ Q) r t -> paco1 (safe_ Q) r u.
Proof. intros Hobs Ht. punfold Ht. pstep. red in Ht |- *. rewrite <- Hobs. exact Ht. Qed.

(** Sequencing: the continuation only runs on the values the first tree
    returns. *)
Lemma safe_bind {R S} (Q : R -> Prop) (Q' : S -> Prop) r
    (t : itree (appE M) R) (k : R -> itree (appE M) S) :
  safe Q t -> (forall x, Q x -> paco1 (safe_ Q') r (k x)) ->
  paco1 (safe_ Q') r (ITree.bind t k).
Proof.
  intros Ht Hk. revert t Ht. pcofix CIH. intros t Ht.
  punfold Ht. red in Ht. pstep. red. rewrite observe_bind.
  destruct Ht as [r1 Hr1|t0 Ht0|X e k0 He Hk0].
  - specialize (Hk r1 Hr1). punfold Hk. eapply safe_mon; [exact Hk|].
    intros u [Hu|Hu]; [left; eapply paco1_mon; [exact Hu|exact CIH0]|right; apply CIH0, Hu].
  - constructor. right. apply CIH. destruct Ht0 as [?|[]]. assumption.
  - constructor; [exact He|]. intros x Hx. right. apply CIH.
    destruct (Hk0 x Hx) as [?|[]]. assumption.
Qed.

Lemma safe_ret_ {R} (Q : R -> Prop) r x : Q x -> paco1 (safe_ Q) r (Ret x).
Proof. intros Hx. pstep. constructor. exact Hx. Qed.

Lemma safe_trigger {X} (Q : X -> Prop) r (e : appE M X) :
  good_event e -> (forall x, A X e x -> Q x) -> paco1 (safe_ Q) r (ITree.trigger e).
Proof.
  intros He HQ. pstep. red. cbn. constructor; [exact He|].
  intros x Hx. left. apply safe_ret_, HQ, Hx.
Qed.

(** The loop, from a run that is safe on every state of an invariant [I]
    that the browser's events preserve. *)
Variable I : session -> Prop.
Hypothesis I_step : forall s e, I s -> I (apply_event s e).
Hypothesis run_safe : forall s clicked, I s -> safe (fun _ => True) (script_run s clicked).

Lemma server_body_safe s :
  I s -> safe (fun lr => match lr with inl s' => I s' | inr _ => False end) (server_body s).
Proof.
  intros Hs. unfold server_body, safe.
  apply safe_bind with (Q := fun _ => True); [apply safe_trigger; done|].
  intros e _. apply safe_bind with (Q := fun _ => True).
  - by apply run_safe, I_step.
  - intros _ _. apply safe_ret_. by apply I_step.
Qed.

Lemma server_loop_safe (Q : void -> Prop) r s :
  I s -> paco1 (safe_ Q) r (ITree.iter server_body s).
Proof.
  revert s. pcofix CIH. intros s Hs.
  apply (safe_observe _ _
    (ITree.bind (server_body s)
       (fun lr => ITree.on_left lr l (Tau (ITree.iter server_body l))))); [reflexivity|].
  apply safe_bind with (Q := fun lr => match lr with inl s' => I s' | inr _ => False end).
  - by apply server_body_safe.
  - intros [s'|[]] Hs'. pstep. red. cbn. constructor. right. by apply CIH.
Qed.

Lemma server_safe_of_runs (Q : void -> Prop) : I session_init -> safe Q server.
Proof.
  intros Hinit. unfold server, safe. apply safe_bind with (Q := fun _ => True).
  - by apply run_safe.
  - intros _ _. by apply server_loop_safe.
Qed.

End Safety.

#[export] Hint Resolve safe_ret_ safe_trigger : core.

(** ** Every rendered page is a run on a state within the widgets' bounds *)

Section Reachable.
Context {M : Type} `{Predictor M} `{CsvParser}.

(** A page the process may show: a load error, or the run of the loaded
    model and columns on a widget state whose form values the widgets
    offer and whose language is one of the selector's. *)
Definition good_page (p : page unit) : Prop :=
  (exists e, p = ([], Err e)) \/
  exists (m : M) cols s clicked, session_ok s /\ p = rerun m cols s clicked.

Definition any_answer X (e : appE M X) (x : X) : Prop := True.

Lemma script_run_good s clicked :
  session_ok s -> safe any_answer good_page (fun _ => True) (script_run s clicked).
Proof.
  intros Hs. unfold script_run, safe.
  apply safe_bind with (Q := fun _ => True); [apply safe_trigger; done|].
  intros [m|e] _.
  - apply safe_bind with (Q := fun _ => True); [apply safe_trigger; done|].
    intros [cols|e] _; apply safe_trigger; try done.
    + right. exists m, cols, s, clicked. done.
    + left. exists e. done.
  - apply safe_trigger; [left; exists e|]; done.
Qed.

End Reachable.

(** ** Runs against a working directory *)

Section Directory.
Context {M : Type} `{Predictor M} `{CsvParser}.

(** [joblib.load] on the files of a directory: a present file loads, a
    missing one raises [FileNotFoundError]. *)
Definition fs_answer (fs : list string) X (e : appE M X) : X -> Prop :=
  match e in appE _ X return X -> Prop with
  | LoadModel p =>
      fun x => if decide (p ∈ fs) then exists m, x = Ok m else x = Err (FileNotFoundError p)
  | LoadColumns p =>
      fun x => if decide (p ∈ fs) then exists c, x = Ok c else x = Err (FileNotFoundError p)
  | _ => fun _ => True
  end.

(** A page showing only the error of a missing artifact. *)
Definition missing_file_page (fs : list string) (p : page unit) : Prop :=
  exists path, (path ∈ ["best_model.pkl"; "model_columns.pkl"]) /\ (path ∉ fs) /\
               p = ([], Err (FileNotFoundError path)).

Lemma script_run_missing_columns (G : page unit -> Prop) fs s clicked :
  "model_columns.pkl" ∉ fs ->
  ("best_model.pkl" ∉ fs -> G ([], Err (FileNotFoundError "best_model.pkl"))) ->
  G ([], Err (FileNotFoundError "model_columns.pkl")) ->
  safe (fs_answer fs) G (fun _ => True) (script_run s clicked).
Proof.
  intros Hcols Hbest Hmiss. unfold script_run, safe.
  apply safe_bind with (Q := fs_answer fs _ (LoadModel "best_model.pkl")); [by apply safe_trigger|].
  intros [m|e] Hm.
  - apply safe_bind with (Q := fs_answer fs _ (LoadColumns "model_columns.pkl"));
      [by apply safe_trigger|].
    intros rc Hrc. cbn in Hrc. rewrite decide_False in Hrc by done. subst rc.
    by apply safe_trigger.
  - cbn in Hm. case_decide as Hb; [by destruct Hm|]. injection Hm as ->.
    apply safe_trigger; [by apply Hbest|done].
Qed.

End Directory.

(** C12: on every path of the endless process, whatever the loads
    return and whatever the browser sends, every page rendered is a load
    error or a run of the script on a widget state within the widgets'
    bounds: age in 18..100, hours in 1..100, each select box on one of
    its options, the language one of en, hi, te. *)
Theorem server_pages_in_bounds {M} `{Predictor M} `{CsvParser} :
  safe any_answer good_page (fun _ => True) (server (M:=M)).
Proof.
  apply (server_safe_of_runs _ _ session_ok); [intros; by apply apply_event_ok| |apply session_init_ok].
  intros. by apply script_run_good.
Qed.

(** C11: in a directory without model_columns.pkl, every page the
    app renders, on every path of the endless process, shows only the
    FileNotFoundError of an artifact that is missing: line 9 raises on
    every run, so no widget, table or chart is ever shown. *)
Theorem server_missing_columns_only_errors {M} `{Predictor M} `{CsvParser} fs :
  "model_columns.pkl" ∉ fs ->
  safe (fs_answer fs) (missing_file_page fs) (fun _ => True) (server (M:=M)).
Proof.
  intros Hcols. apply (server_safe_of_runs _ _ (fun _ => True)); [done| |done].
  intros s clicked _. apply script_run_missing_columns; [done| |].
  - intros Hb. exists "best_model.pkl". split_and!; [set_solver|done|done].
  - exists "model_columns.pkl". split_and!; [set_solver|done|done].
Qed.

(** C10: the two scripts together.  In a directory without
    model_columns.pkl, run model_training.py; it returns, and when it
    succeeds the app started in the directory it leaves shows, on every
    page of every session, only the FileNotFoundError of
    model_columns.pkl. *)
Theorem trained_app_only_errors {M F} `{Predictor M} `{Predictor F} `{CsvParser}
    fit csvs perm (w : world F) :
  "model_columns.pkl" ∉ (w_files w).*1 ->
  exists o, run_script fit csvs perm w ≈ Ret o /\
    (o.2 = Ok tt ->
     safe (fs_answer (w_files o.1).*1)
          (fun p => p = ([], Err (FileNotFoundError "model_columns.pkl")))
          (fun _ => True) (server (M:=M))).
Proof.
  intros Hcols. destruct (run_script_files fit csvs perm w) as (o & Hrun & Hfiles).
  exists o. split; [done|]. intros Hok.
  apply (server_safe_of_runs _ _ (fun _ => True)); [done| |done].
  intros s clicked _. apply script_run_missing_columns; [|intros Hb|done].
  - rewrite Hfiles. naive_solver.
  - exfalso. apply Hb, Hfiles. by right.
Qed.

(** ** Witnesses *)

#[local] Existing Instance read_csv_parser.

Lemma server_missing_columns_only_errors_witness :
  ("model_columns.pkl" ∉ ["best_model.pkl"]) /\
  safe (fs_answer ["best_model.pkl"]) (missing_file_page ["best_model.pkl"])
       (fun _ => True) (server (M:=age_rule)).
Proof.
  assert (Hc : "model_columns.pkl" ∉ ["best_model.pkl"]) by decide_prop.
  split; [exact Hc|exact (server_missing_columns_only_errors ["best_model.pkl"] Hc)].
Defined.

Lemma trained_app_only_errors_witness :
  ("model_columns.pkl" ∉ (w_files (mk_world (F:=constant_model) [] [])).*1) /\
  exists o, run_script constant_fit [("adult.csv", to_csv sample_data)] sample_perm
                       (mk_world [] []) ≈ Ret o /\
    (o.2 = Ok tt ->
     safe (fs_answer (w_files o.1).*1)
          (fun p => p = ([], Err (FileNotFoundError "model_columns.pkl")))
          (fun _ => True) (server (M:=age_rule))).
Proof.
  assert (Hc : "model_columns.pkl" ∉ (w_files (mk_world (F:=constant_model) [] [])).*1)
    by (cbn; set_solver).
  split; [exact Hc|].
  exact (trained_app_only_errors (M:=age_rule) constant_fit [("adult.csv", to_csv sample_data)]
           sample_perm (mk_world [] []) Hc).
Defined.
